(** * mealieah: the retailer client, the cart fill and the mapping store

    A shallow embedding of [app/clients/ah.py] (class [AHClient]),
    [app/clients/mealie.py] ([get_mealplans], [update_recipe],
    [health_check]) and the handlers of [app/api/routes.py] that the
    properties below are about: the cart fill, the mapping store and its
    suggestions, the meal plan page, the ingredient list of the recipe
    page, the settings page with its logging toggle and the retailer code
    exchange.

    Effects follow the Python code: one global state (the [ah_client]
    singleton, the database tables and the scripted network) is threaded
    through every call, and an exception leaves the state as it was at the
    moment it was raised (Python does not roll back attribute writes).
    The network is a script of replies consumed in order; every request is
    logged in a trace, newest first. *)

From Stdlib Require Import ZArith QArith Lia Ascii String Sorted.
Set Warnings "-register-all".
From stdpp Require Import base gmap list strings pretty.

Open Scope string_scope.

(* ------------------------------------------------------------------ *)
(** ** JSON values, HTTP replies, exceptions *)

(** Decoded JSON as [resp.json()] returns it. *)
Inductive json : Type :=
| J_null
| J_bool (b : bool)
| J_num (z : Z)
| J_str (s : string)
| J_list (l : list json)
| J_obj (kvs : list (string * json)).

(** Python truthiness of a decoded JSON value. *)
Definition truthy (j : json) : bool :=
  match j with
  | J_null => false
  | J_bool b => b
  | J_num z => negb (Z.eqb z 0)
  | J_str s => negb (String.eqb s "")
  | J_list l => negb (Nat.eqb (length l) 0)
  | J_obj kvs => negb (Nat.eqb (length kvs) 0)
  end.

(** [d.get(k)] on a decoded object: a JSON object with a repeated key
    decodes to a dict holding the last value. *)
Definition obj_get (kvs : list (string * json)) (k : string) : option json :=
  match List.find (fun kv => String.eqb (fst kv) k) (rev kvs) with
  | Some kv => Some (snd kv)
  | None => None
  end.

(** A reply of the network: a transport failure (httpx raises) or a
    response with a status code and a body that decodes ([Some]) or is not
    JSON ([None]). *)
Inductive reply : Type :=
| R_transport_error
| R_http (status : Z) (body : option json).

(** Python exceptions the modelled code can raise. *)
Inductive exn : Type :=
| ValueError (msg : string)
| HTTPStatusError (status : Z)
| TransportError
| JSONDecodeError
| KeyError (k : string)
| TypeError
| AttributeError
| OverflowError
| MultipleResultsFound                      (* scalar_one_or_none, 2+ rows *)
| DatabaseError.                            (* a refused write, see [Database] *)

(** Requests sent over the network.  A token is recorded as the Python
    value the request was built from: the refresh body carries
    [self._user_refresh_token] as it is, the [Authorization] header
    [f"Bearer {token}"] formats whatever value the attribute holds. *)
Inductive call : Type :=
| C_post_anonymous                          (* AH_AUTH_URL *)
| C_post_refresh (refresh_token : json)       (* AH_REFRESH_URL *)
| C_get_search (token : json) (query : string)  (* AH_SEARCH_URL *)
| C_patch_cart (token : json) (items : list (Z * Z))  (* AH_CART_URL *)
| C_post_code (code : string)                 (* OAuth code exchange *)
| C_get_mealplans (start_date end_date : Z)   (* Mealie meal plans *)
| C_get_about.                                (* Mealie health check *)

(** Events of the trace: a request, or a call of the token callback. *)
Inductive event : Type :=
| Ev_http (c : call)
| Ev_persist (access refresh : json).

(* ------------------------------------------------------------------ *)
(** ** The database rows *)

(** A row of [mealieah_ingredient_mappings] ([models.IngredientMapping]);
    the timestamps are not modelled. *)
Record mapping_row : Type := MkRow {
  id : nat;
  recipe_slug : string;
  recipe_name : string;
  ingredient_reference_id : string;
  ingredient_display : string;
  status : string;
  ah_product_id : option Z;
  ah_product_name : option string;
  ah_product_image_url : option string;
  ah_product_unit_size : option string;
  ah_product_price : option string;
  ah_quantity : Z
}.

(* ------------------------------------------------------------------ *)
(** ** The global state *)

(** [AHClient] attributes, the two tables and the network.  The token
    attributes hold whatever Python value was assigned to them ([J_null]
    is [None]): the annotations [str | None] are not checked, and the
    client stores [data["access_token"]] as the endpoint sent it.  The
    token callback of [fill_cart] is [_save_tokens]; [on_tokens_updated]
    says whether it is registered.  A settings value is the Python value
    read back from the nullable [Text] column [value]. *)
Record St : Type := MkSt {
  anonymous_token : json;
  user_token : json;
  user_refresh_token : json;
  on_tokens_updated : bool;
  settings : gmap string json;         (* mealieah_settings, key -> value *)
  mappings : list mapping_row;         (* mealieah_ingredient_mappings *)
  script : list reply;                 (* replies still to come *)
  trace : list event                   (* newest first *)
}.

Definition set_anonymous (t : json) (s : St) : St :=
  MkSt t (user_token s) (user_refresh_token s) (on_tokens_updated s)
       (settings s) (mappings s) (script s) (trace s).
Definition set_user (t : json) (s : St) : St :=
  MkSt (anonymous_token s) t (user_refresh_token s) (on_tokens_updated s)
       (settings s) (mappings s) (script s) (trace s).
Definition set_refresh (t : json) (s : St) : St :=
  MkSt (anonymous_token s) (user_token s) t (on_tokens_updated s)
       (settings s) (mappings s) (script s) (trace s).
Definition set_callback (b : bool) (s : St) : St :=
  MkSt (anonymous_token s) (user_token s) (user_refresh_token s) b
       (settings s) (mappings s) (script s) (trace s).
Definition set_settings (g : gmap string json) (s : St) : St :=
  MkSt (anonymous_token s) (user_token s) (user_refresh_token s)
       (on_tokens_updated s) g (mappings s) (script s) (trace s).
Definition set_mappings (rows : list mapping_row) (s : St) : St :=
  MkSt (anonymous_token s) (user_token s) (user_refresh_token s)
       (on_tokens_updated s) (settings s) rows (script s) (trace s).
Definition set_net (sc : list reply) (tr : list event) (s : St) : St :=
  MkSt (anonymous_token s) (user_token s) (user_refresh_token s)
       (on_tokens_updated s) (settings s) (mappings s) sc tr.

(* ------------------------------------------------------------------ *)
(** ** The effect monad: state passing with Python exceptions *)

(** [inl e]: exception [e] raised; the state is the one at the raise. *)
Definition M (A : Type) : Type := St -> (exn + A) * St.

Definition ret {A} (a : A) : M A := fun s => (inr a, s).
Definition bind {A B} (m : M A) (k : A -> M B) : M B :=
  fun s => match m s with
           | (inl e, s') => (inl e, s')
           | (inr a, s') => k a s'
           end.
Definition throw {A} (e : exn) : M A := fun s => (inl e, s).
(** [try: m except Exception as e: h e] *)
Definition catch {A} (m : M A) (h : exn -> M A) : M A :=
  fun s => match m s with
           | (inl e, s') => h e s'
           | r => r
           end.
Definition gets {A} (f : St -> A) : M A := fun s => (inr (f s), s).
Definition modify (f : St -> St) : M unit := fun s => (inr tt, f s).

Notation "x <-- m ;; k" := (bind m (fun x => k))
  (at level 62, m at next level, right associativity).

(** One request: logged, then answered by the next scripted reply; an
    exhausted script behaves as a transport failure. *)
Definition http (c : call) : M reply :=
  fun s =>
    let tr := Ev_http c :: trace s in
    match script s with
    | [] => (inl TransportError, set_net [] tr s)
    | R_transport_error :: rest => (inl TransportError, set_net rest tr s)
    | r :: rest => (inr r, set_net rest tr s)
    end.

Definition status_code (r : reply) : Z :=
  match r with R_http c _ => c | R_transport_error => 0 end.

(** httpx [raise_for_status]: everything outside 2xx raises. *)
Definition raise_for_status (r : reply) : M unit :=
  if (200 <=? status_code r)%Z && (status_code r <? 300)%Z
  then ret tt else throw (HTTPStatusError (status_code r)).

(** [resp.json()] *)
Definition resp_json (r : reply) : M json :=
  match r with
  | R_http _ (Some j) => ret j
  | _ => throw JSONDecodeError
  end.

(** [data[k]] *)
Definition index (d : json) (k : string) : M json :=
  match d with
  | J_obj kvs => match obj_get kvs k with
                 | Some v => ret v
                 | None => throw (KeyError k)
                 end
  | J_list _ | J_str _ => throw TypeError
  | _ => throw TypeError
  end.

(* ------------------------------------------------------------------ *)
(** ** The settings store ([_get_setting], [_set_setting]) *)

(** What the database makes of a value written to the [Text] column
    [mealieah_settings.value] that is not a [str]: the value read back
    ([None] for [NULL]; the column is nullable), or [None] when the
    driver or the server refuses it.  This depends on the driver and on
    PostgreSQL's casts, so it is a parameter of the properties below. *)
Class Database := { db_store : json -> option json }.

(** The cell a write of [v] leaves: a [str] is stored as it is. *)
Definition db_cell {D : Database} (v : json) : option json :=
  match v with
  | J_str _ => Some v
  | _ => db_store v
  end.

(** [_get_setting]: an absent key reads as the empty string. *)
Definition get_setting (k : string) (s : St) : json :=
  match settings s !! k with Some v => v | None => J_str "" end.

(** [_set_setting]: upsert by key, then commit; a refused value makes
    the commit raise and leaves the table as it was. *)
Definition set_setting {D : Database} (k : string) (v : json) : M unit :=
  match db_cell v with
  | Some c => modify (fun s => set_settings (<[k := c]> (settings s)) s)
  | None => throw DatabaseError
  end.

(* ------------------------------------------------------------------ *)
(** ** [AHClient] (app/clients/ah.py) *)

Definition msg_no_token : string :=
  "AH token niet ingesteld. Ga naar Instellingen.".
Definition msg_expired : string :=
  "AH token verlopen en refresh mislukt. Voer een nieuw refresh token in via Instellingen.".

(** [_get_anonymous_token] *)
Definition get_anonymous_token : M json :=
  t <-- gets anonymous_token ;;
  if truthy t then ret t else
  resp <-- http C_post_anonymous ;;
  _ <-- raise_for_status resp ;;
  data <-- resp_json resp ;;
  v <-- index data "access_token" ;;
  _ <-- modify (set_anonymous v) ;;
  ret v.

(** [set_user_tokens(access, refresh, on_tokens_updated)] *)
Definition set_user_tokens (access refresh : json) (cb : bool) : M unit :=
  modify (fun s => set_callback cb (set_refresh refresh (set_user access s))).

(** [set_user_token(token)] *)
Definition set_user_token (t : json) : M unit :=
  modify (set_user t).

(** The callback [fill_cart] registers ([_save_tokens] in routes.py):
    called with the new pair, it writes both settings. *)
Definition save_tokens {D : Database} (new_access new_refresh : json) : M unit :=
  _ <-- modify (fun s => set_net (script s)
                           (Ev_persist new_access new_refresh :: trace s) s) ;;
  _ <-- set_setting "ah_user_token" new_access ;;
  set_setting "ah_refresh_token" new_refresh.

(** [_refresh_user_token] *)
Definition refresh_user_token {D : Database} : M bool :=
  rt <-- gets user_refresh_token ;;
  if negb (truthy rt) then ret false else
  catch
    (resp <-- http (C_post_refresh rt) ;;
     _ <-- raise_for_status resp ;;
     data <-- resp_json resp ;;
     a <-- index data "access_token" ;;
     _ <-- modify (set_user a) ;;
     r <-- index data "refresh_token" ;;
     _ <-- modify (set_refresh r) ;;
     cb <-- gets on_tokens_updated ;;
     _ <-- (if cb then save_tokens a r else ret tt) ;;
     ret true)
    (fun _ => ret false).

(** [data.get("products", [])] and the loop over it; the loop builds one
    product dict per entry with [product.get], which needs a dict.  The
    field-by-field conversion itself makes no request and touches no
    state; the entries are returned as they are. *)
Definition products_of (data : json) : M (list json) :=
  match data with
  | J_obj kvs =>
      let ps := match obj_get kvs "products" with Some p => p | None => J_list [] end in
      match ps with
      | J_list l =>
          if forallb (fun p => match p with J_obj _ => true | _ => false end) l
          then ret l else throw AttributeError
      | J_obj [] | J_str "" => ret []
      | J_obj _ | J_str _ => throw AttributeError
      | _ => throw TypeError
      end
  | _ => throw AttributeError
  end.

(** [search_products(query)] *)
Definition search_products (query : string) : M (list json) :=
  token <-- get_anonymous_token ;;
  resp <-- http (C_get_search token query) ;;
  resp <-- (if Z.eqb (status_code resp) 401 then
              _ <-- modify (set_anonymous J_null) ;;
              token' <-- get_anonymous_token ;;
              http (C_get_search token' query)
            else ret resp) ;;
  _ <-- raise_for_status resp ;;
  data <-- resp_json resp ;;
  products_of data.

(** A cart line as [fill_cart] builds it: [product_id], [quantity], [name]. *)
Record cart_line : Type := MkLine {
  line_product_id : Z;
  line_quantity : Z;
  line_name : option string
}.

(** The request body [{"items": cart_items}]: product id and quantity of
    each line, in order. *)
Definition cart_items (items : list cart_line) : list (Z * Z) :=
  map (fun l => (line_product_id l, line_quantity l)) items.

(** [add_to_cart(items)] *)
Definition add_to_cart {D : Database} (items : list cart_line) : M json :=
  u <-- gets user_token ;;
  if negb (truthy u) then throw (ValueError msg_no_token) else
  resp <-- http (C_patch_cart u (cart_items items)) ;;
  resp <-- (if Z.eqb (status_code resp) 401 then
              refreshed <-- refresh_user_token ;;
              if negb refreshed then throw (ValueError msg_expired) else
              u' <-- gets user_token ;;
              http (C_patch_cart u' (cart_items items))
            else ret resp) ;;
  _ <-- raise_for_status resp ;;
  resp_json resp.

(** A fresh [AHClient()] with empty tables and a given script. *)
Definition init (sc : list reply) : St :=
  MkSt J_null J_null J_null false ∅ [] sc [].

Definition ok_json (kvs : list (string * json)) : reply := R_http 200 (Some (J_obj kvs)).

(** A reply carrying an anonymous token: a 2xx JSON object with the
    key [access_token], whatever its value. *)
Definition anon_reply (rr : reply) (t : json) : Prop :=
  exists code kvs, rr = R_http code (Some (J_obj kvs)) /\
    (200 <= code < 300)%Z /\ obj_get kvs "access_token" = Some t.

(** A reply carrying a new token pair: a 2xx JSON object with the keys
    [access_token] and [refresh_token], whatever their values. *)
Definition token_pair_reply (rr : reply) (a r : json) : Prop :=
  exists code kvs, rr = R_http code (Some (J_obj kvs)) /\
    (200 <= code < 300)%Z /\
    obj_get kvs "access_token" = Some a /\
    obj_get kvs "refresh_token" = Some r.

(** The last request of [add_to_cart] and what follows it:
    [raise_for_status] and [resp.json()]. *)
Definition final_request (c : call) : M json :=
  resp <-- http c ;; _ <-- raise_for_status resp ;; resp_json resp.

(** Number of requests of a kind in a trace. *)
Definition count_calls (p : call -> bool) (tr : list event) : nat :=
  length (List.filter (fun e => match e with Ev_http c => p c | _ => false end) tr).

Definition is_search (c : call) : bool :=
  match c with C_get_search _ _ => true | _ => false end.
Definition is_anonymous (c : call) : bool :=
  match c with C_post_anonymous => true | _ => false end.
Definition is_refresh (c : call) : bool :=
  match c with C_post_refresh _ => true | _ => false end.
Definition is_cart (c : call) : bool :=
  match c with C_patch_cart _ _ => true | _ => false end.
Definition is_retailer (c : call) : bool :=
  match c with
  | C_post_anonymous | C_post_refresh _ | C_get_search _ _ | C_patch_cart _ _
  | C_post_code _ => true
  | _ => false
  end.

(* ------------------------------------------------------------------ *)
(** ** [MealieClient] (app/clients/mealie.py) *)

(** Iterating a decoded JSON value with [for x in v]: a list gives its
    elements, a dict its keys, a string its characters. *)
Definition py_iter (v : json) : M (list json) :=
  match v with
  | J_list l => ret l
  | J_obj kvs => ret (map (fun kv => J_str (fst kv)) kvs)
  | J_str str => ret (map (fun c => J_str (String c EmptyString)) (list_ascii_of_string str))
  | _ => throw TypeError
  end.

(** [get_mealplans(start_date, end_date)]: the bare list, or the
    ["items"] of an envelope object (the object itself without it). *)
Definition get_mealplans (start_date end_date : Z) : M json :=
  resp <-- http (C_get_mealplans start_date end_date) ;;
  _ <-- raise_for_status resp ;;
  data <-- resp_json resp ;;
  match data with
  | J_obj kvs => ret (match obj_get kvs "items" with Some v => v | None => data end)
  | _ => ret data
  end.

(** [health_check()]: any exception reads as [False]. *)
Definition health_check : M bool :=
  catch (resp <-- http C_get_about ;; ret (Z.eqb (status_code resp) 200))
        (fun _ => ret false).

(* ------------------------------------------------------------------ *)
(** ** Dates ([datetime.date] as its proleptic ordinal) *)

(** [date.max.toordinal()]; ordinal 1 is Monday 0001-01-01. *)
Definition date_max : Z := 3652059.

(** [d.weekday()]: Monday is 0. *)
Definition weekday (d : Z) : Z := ((d + 6) mod 7)%Z.

(** [d + timedelta(days=n)]; out of range raises [OverflowError]. *)
Definition add_days (d n : Z) : option Z :=
  if (1 <=? d + n)%Z && (d + n <=? date_max)%Z then Some (d + n)%Z else None.

(** The week shown by [mealplan_page] (routes.py lines 313-320). *)
Definition mealplan_week (today : Z) : option (Z * Z) :=
  let days_until_monday := ((7 - weekday today) mod 7)%Z in
  match (if (days_until_monday =? 0)%Z && (weekday today =? 0)%Z then Some today
         else add_days today days_until_monday) with
  | Some monday =>
      match add_days monday 4 with
      | Some friday => Some (monday, friday)
      | None => None
      end
  | None => None
  end.

(** The week filled by [fill_cart] (routes.py lines 411-414). *)
Definition fill_cart_week (today : Z) : option (Z * Z) :=
  let days_until_monday := ((7 - weekday today) mod 7)%Z in
  match (if (weekday today =? 0)%Z then Some today
         else add_days today days_until_monday) with
  | Some start =>
      match add_days start 4 with
      | Some end_ => Some (start, end_)
      | None => None
      end
  | None => None
  end.

(* ------------------------------------------------------------------ *)
(** ** [fill_cart] (routes.py, [POST /api/cart/fill]) *)

Definition msg_no_recipes : string := "Geen recepten in weekmenu".
Definition msg_no_mapped : string := "Geen gemapte ingrediënten gevonden".

(** The JSON answer: [{"ok": True, "items_added": n}], a fixed error
    message, or [{"ok": False, "error": str(e)}] for a caught exception. *)
Inductive fill_result : Type :=
| Fill_ok (items_added : nat)
| Fill_err (msg : string)
| Fill_exn (e : exn).

(** [recipe = plan.get("recipe") or {}];
    [slug = recipe.get("slug") or plan.get("recipeId", "")]. *)
Definition plan_slug (plan : json) : M json :=
  match plan with
  | J_obj pkvs =>
      let recipe := match obj_get pkvs "recipe" with
                    | Some r => if truthy r then r else J_obj []
                    | None => J_obj []
                    end in
      match recipe with
      | J_obj rkvs =>
          match obj_get rkvs "slug" with
          | Some sl => if truthy sl then ret sl
                       else ret (match obj_get pkvs "recipeId" with Some v => v | None => J_str "" end)
          | None => ret (match obj_get pkvs "recipeId" with Some v => v | None => J_str "" end)
          end
      | _ => throw AttributeError
      end
  | _ => throw AttributeError
  end.

(** The loop filling [recipe_slugs] (a set: only its members matter, so
    repeated slugs are kept here). *)
Fixpoint collect_slugs (plans : list json) : M (list json) :=
  match plans with
  | [] => ret []
  | plan :: rest =>
      slug <-- plan_slug plan ;;
      others <-- collect_slugs rest ;;
      ret (if truthy slug then slug :: others else others)
  end.

(** [IngredientMapping.recipe_slug.in_(recipe_slugs)]: the column holds
    strings, so only string slugs select rows. *)
Definition slug_in (slugs : list json) (m : mapping_row) : bool :=
  existsb (fun j => match j with J_str x => String.eqb x (recipe_slug m) | _ => false end) slugs.

(** The query of lines 429-435: mapped rows with a product id. *)
Definition cart_rows (slugs : list json) (rows : list mapping_row) : list mapping_row :=
  List.filter (fun m => slug_in slugs m && String.eqb (status m) "mapped"
                        && bool_decide (is_Some (ah_product_id m))) rows.

(** [cart[pid]["quantity"] += m.ah_quantity], or a new entry at the end
    of the dict. *)
Fixpoint cart_add (cart : list (Z * cart_line)) (pid : Z) (m : mapping_row)
    : list (Z * cart_line) :=
  match cart with
  | [] => [(pid, MkLine pid (ah_quantity m) (ah_product_name m))]
  | (k, l) :: rest =>
      if Z.eqb k pid
      then (k, MkLine (line_product_id l) (line_quantity l + ah_quantity m) (line_name l)) :: rest
      else (k, l) :: cart_add rest pid m
  end.

(** The aggregation loop of lines 441-450: the dict [cart] with its
    insertion order. *)
Definition aggregate (rows : list mapping_row) : list (Z * cart_line) :=
  fold_left (fun cart m => match ah_product_id m with
                           | Some pid => cart_add cart pid m
                           | None => cart
                           end) rows [].

(** [fill_cart()] at date [today]. *)
Definition fill_cart {D : Database} (today : Z) : M fill_result :=
  match fill_cart_week today with
  | None => throw OverflowError
  | Some (start, end_) =>
      data <-- get_mealplans start end_ ;;
      plans <-- py_iter data ;;
      recipe_slugs <-- collect_slugs plans ;;
      if Nat.eqb (length recipe_slugs) 0 then ret (Fill_err msg_no_recipes) else
      rows <-- gets (fun s => cart_rows recipe_slugs (mappings s)) ;;
      if Nat.eqb (length rows) 0 then ret (Fill_err msg_no_mapped) else
      let cart := aggregate rows in
      access_token <-- gets (get_setting "ah_user_token") ;;
      refresh_token <-- gets (get_setting "ah_refresh_token") ;;
      if negb (truthy access_token) && negb (truthy refresh_token)
      then ret (Fill_err msg_no_token) else
      _ <-- set_user_tokens access_token refresh_token true ;;
      catch (_ <-- add_to_cart (map snd cart) ;; ret (Fill_ok (length cart)))
            (fun e => ret (Fill_exn e))
  end.

(* ------------------------------------------------------------------ *)
(** ** Python string helpers *)

(** A Python [str] is held as its UTF-8 bytes.  Whitespace and case are
    those of ASCII: the non-ASCII whitespace of [str.split] and the
    non-ASCII capitals of [str.lower] are outside the model. *)

(** [len(str)]: the code points, i.e. the bytes that do not continue a
    multi-byte sequence. *)
Definition py_len (str : string) : nat :=
  length (List.filter (fun c => negb (Nat.leb 128 (nat_of_ascii c) && Nat.ltb (nat_of_ascii c) 192))
                      (list_ascii_of_string str)).

(** Characters [str.isspace()] accepts in ASCII (also [\s] of [re]). *)
Definition is_space (c : ascii) : bool :=
  let n := nat_of_ascii c in
  (Nat.leb 9 n && Nat.leb n 13) || (Nat.leb 28 n && Nat.leb n 32).

Fixpoint drop_while (p : ascii -> bool) (l : list ascii) : list ascii :=
  match l with
  | [] => []
  | c :: r => if p c then drop_while p r else l
  end.

(** Remove the longest prefix and the longest suffix of characters
    satisfying [p]. *)
Definition trim_by (p : ascii -> bool) (str : string) : string :=
  string_of_list_ascii
    (rev (drop_while p (rev (drop_while p (list_ascii_of_string str))))).

(** [str.strip()] *)
Definition py_strip (str : string) : string := trim_by is_space str.

(** [str.split()]: maximal runs of non-whitespace characters. *)
Fixpoint split_words_aux (l : list ascii) (cur : list ascii) : list string :=
  match l with
  | [] => if Nat.eqb (length cur) 0 then [] else [string_of_list_ascii (rev cur)]
  | c :: r =>
      if is_space c
      then (if Nat.eqb (length cur) 0 then split_words_aux r []
            else string_of_list_ascii (rev cur) :: split_words_aux r [])
      else split_words_aux r (c :: cur)
  end.
Definition py_split (str : string) : list string :=
  split_words_aux (list_ascii_of_string str) [].

(** [str.lower()] on ASCII. *)
Definition lower_ascii (c : ascii) : ascii :=
  let n := nat_of_ascii c in
  if Nat.leb 65 n && Nat.leb n 90 then ascii_of_nat (n + 32) else c.
Definition py_lower (str : string) : string :=
  string_of_list_ascii (map lower_ascii (list_ascii_of_string str)).

(** [needle in haystack] for strings. *)
Fixpoint is_prefix (p l : list ascii) : bool :=
  match p, l with
  | [], _ => true
  | _, [] => false
  | a :: p', b :: l' => Ascii.eqb a b && is_prefix p' l'
  end.
Fixpoint contains_aux (p l : list ascii) : bool :=
  match l with
  | [] => is_prefix p []
  | _ :: l' => is_prefix p l || contains_aux p l'
  end.
Definition py_in (needle haystack : string) : bool :=
  contains_aux (list_ascii_of_string needle) (list_ascii_of_string haystack).

(* ------------------------------------------------------------------ *)
(** ** Settings: the OAuth code exchange (routes.py [ah_code_exchange]) *)

(** Modelled from the spec: [AHClient.exchange_code] is called by
    [ah_code_exchange] but is missing from the [AHClient] of
    app/clients/ah.py.  Spec section 4.1: "exchange_code(code) acquires
    the initial user token pair from the retailer's OAuth endpoint; result
    feeds set_user_tokens".  Modelled the way the other [AHClient] requests
    are written: one POST, [raise_for_status], [resp.json()]. *)
Definition exchange_code (code : string) : M json :=
  resp <-- http (C_post_code code) ;;
  _ <-- raise_for_status resp ;;
  resp_json resp.

(** The [ah_login_error] shown on the settings page: none, the prompt to
    paste the URL, ["Code ongeldig of verlopen (HTTP <status>). ..."] or
    ["Koppelen mislukt: <e>"]. *)
Inductive login_error : Type :=
| No_login_error
| Err_paste_url
| Err_code_invalid (status : Z)
| Err_link_failed (e : exn).

(** What [settings.html] would be rendered with by [_render_settings]. *)
Record settings_view : Type := MkView {
  view_verbose_logging : bool;
  view_ah_token_set : bool;
  view_ah_refresh_set : bool;
  view_mealie_ok : bool;
  view_ah_login_url : string;
  view_ah_login_error : login_error;
  view_ah_login_success : bool
}.

(** [ah_client.get_login_url()]: the [AHClient] of app/clients/ah.py has
    no attribute [get_login_url], so the lookup raises. *)
Definition get_login_url : M string := throw AttributeError.

(** [_get_setting(db, "verbose_logging") == "true"] *)
Definition is_true_str (v : json) : bool :=
  match v with J_str x => String.eqb x "true" | _ => false end.

(** [_render_settings(request, db, ah_login_error, ah_login_success)]:
    the three reads, the health check, then the template context, whose
    entries are evaluated in order. *)
Definition render_settings (err : login_error) (success : bool) : M settings_view :=
  verbose <-- gets (fun s => is_true_str (get_setting "verbose_logging" s)) ;;
  ah_token <-- gets (get_setting "ah_user_token") ;;
  ah_refresh <-- gets (get_setting "ah_refresh_token") ;;
  mealie_ok <-- health_check ;;
  login_url <-- get_login_url ;;
  ret (MkView verbose (truthy ah_token) (truthy ah_refresh) mealie_ok login_url err success).

Section CodeExchange.

(** [parse_qs(urlparse(raw).query).get("code", [None])[0]] (urllib);
    [None] also stands for the [except] branch. *)
Variable code_param : string -> option string.

(** [ah_code_exchange(callback_url)].  The success page is rendered
    inside the [try], so an exception it raises goes to the handlers.  A
    handler renders the page again, except after a refused write: the
    failed commit leaves the session to be rolled back, and the first
    query of [_render_settings] raises ([PendingRollbackError]). *)
Definition ah_code_exchange {D : Database} (callback_url : string) : M settings_view :=
  let raw := py_strip callback_url in
  if String.eqb raw "" then render_settings Err_paste_url false else
  let code := match code_param raw with
              | Some c => if String.eqb c "" then raw else c
              | None => raw
              end in
  catch
    (data <-- exchange_code code ;;
     a <-- index data "access_token" ;;
     _ <-- set_setting "ah_user_token" a ;;
     r <-- index data "refresh_token" ;;
     _ <-- set_setting "ah_refresh_token" r ;;
     render_settings No_login_error true)
    (fun e => match e with
              | HTTPStatusError st => render_settings (Err_code_invalid st) false
              | DatabaseError => throw DatabaseError
              | _ => render_settings (Err_link_failed e) false
              end).

End CodeExchange.

(* ------------------------------------------------------------------ *)
(** ** Mapping CRUD (routes.py [save_mapping], [delete_mapping]) *)

(** The form fields of [POST /api/mapping]. *)
Record mapping_form : Type := MkForm {
  f_recipe_slug : string;
  f_recipe_name : string;
  f_ingredient_reference_id : string;
  f_ingredient_display : string;
  f_status : string;
  f_ah_product_id : option Z;
  f_ah_product_name : option string;
  f_ah_product_image_url : option string;
  f_ah_product_unit_size : option string;
  f_ah_product_price : option string;
  f_ah_quantity : Z
}.

(** The key [(recipe_slug, ingredient_reference_id)]. *)
Definition row_key (m : mapping_row) : string * string :=
  (recipe_slug m, ingredient_reference_id m).

(** The [where] clause of both handlers. *)
Definition has_key (slug ref : string) (m : mapping_row) : bool :=
  String.eqb (recipe_slug m) slug && String.eqb (ingredient_reference_id m) ref.

(** The [if existing:] branch: every field assigned from the form. *)
Definition overwrite (f : mapping_form) (m : mapping_row) : mapping_row :=
  MkRow (id m) (recipe_slug m) (f_recipe_name f) (ingredient_reference_id m)
        (f_ingredient_display f) (f_status f) (f_ah_product_id f)
        (f_ah_product_name f) (f_ah_product_image_url f)
        (f_ah_product_unit_size f) (f_ah_product_price f) (f_ah_quantity f).

(** The [else] branch: [db.add(IngredientMapping(...))]; the new primary
    key is one more than the largest in use. *)
Definition next_id (rows : list mapping_row) : nat :=
  S (fold_right Nat.max 0 (map id rows)).
Definition new_row (f : mapping_form) (n : nat) : mapping_row :=
  MkRow n (f_recipe_slug f) (f_recipe_name f) (f_ingredient_reference_id f)
        (f_ingredient_display f) (f_status f) (f_ah_product_id f)
        (f_ah_product_name f) (f_ah_product_image_url f)
        (f_ah_product_unit_size f) (f_ah_product_price f) (f_ah_quantity f).

(** The table after [save_mapping]; [None]: [scalar_one_or_none] found
    several rows and raised. *)
Definition save_rows (f : mapping_form) (rows : list mapping_row)
    : option (list mapping_row) :=
  let key := has_key (f_recipe_slug f) (f_ingredient_reference_id f) in
  match List.filter key rows with
  | [] => Some (rows ++ [new_row f (next_id rows)])%list
  | [_] => Some (map (fun m => if key m then overwrite f m else m) rows)
  | _ => None
  end.

(** The table after [delete_mapping]. *)
Definition delete_rows (slug ref : string) (rows : list mapping_row)
    : option (list mapping_row) :=
  match List.filter (has_key slug ref) rows with
  | [] => Some rows
  | [_] => Some (List.filter (fun m => negb (has_key slug ref m)) rows)
  | _ => None
  end.

Definition save_mapping (f : mapping_form) : M unit :=
  rows <-- gets mappings ;;
  match save_rows f rows with
  | Some rows' => modify (set_mappings rows')
  | None => throw MultipleResultsFound
  end.

Definition delete_mapping (slug ref : string) : M unit :=
  rows <-- gets mappings ;;
  match delete_rows slug ref rows with
  | Some rows' => modify (set_mappings rows')
  | None => throw MultipleResultsFound
  end.

(** A request to one of the two handlers. *)
Inductive mapping_op : Type :=
| Op_save (f : mapping_form)
| Op_delete (slug ref : string).

Fixpoint run_ops (ops : list mapping_op) : M unit :=
  match ops with
  | [] => ret tt
  | Op_save f :: rest => _ <-- save_mapping f ;; run_ops rest
  | Op_delete slug ref :: rest => _ <-- delete_mapping slug ref ;; run_ops rest
  end.

(* ------------------------------------------------------------------ *)
(** ** Mapping suggestions (routes.py [mapping_suggestions]) *)

(** One entry of the ["suggestions"] list. *)
Record suggestion : Type := MkSugg {
  sg_status : string;
  sg_recipe_name : string;
  sg_ingredient_display : string;
  sg_ah_product_id : option Z;
  sg_ah_product_name : option string;
  sg_ah_product_image_url : option string;
  sg_ah_product_unit_size : option string;
  sg_ah_product_price : option string;
  sg_score : Q
}.

Definition suggestion_of (m : mapping_row) (score : Q) : suggestion :=
  MkSugg (status m) (recipe_name m) (ingredient_display m) (ah_product_id m)
         (ah_product_name m) (ah_product_image_url m) (ah_product_unit_size m)
         (ah_product_price m) score.

(** The characters of [[\s,.-]]. *)
Definition is_punct_or_space (c : ascii) : bool :=
  is_space c || Ascii.eqb c "," || Ascii.eqb c "." || Ascii.eqb c "-".

(** [keywords = [w for w in cleaned.split() if len(w) >= 2]] *)
Definition keywords_of (cleaned : string) : list string :=
  List.filter (fun w => Nat.leb 2 (py_len w)) (py_split cleaned).

(** [matched_keywords = sum(1 for kw in keywords if kw.lower() in m_display_lower)] *)
Definition matched_keywords (keywords : list string) (m : mapping_row) : nat :=
  length (List.filter (fun kw => py_in (py_lower kw) (py_lower (ingredient_display m))) keywords).

(** [matched_keywords / len(keywords)]: a float in Python.  Every score of
    one request has the same denominator, float division is monotone and
    0.5 is exact, so the comparisons below agree with the float ones. *)
Definition score_of (matched total : nat) : Q :=
  inject_Z (Z.of_nat matched) / inject_Z (Z.of_nat total).

(** The query of lines 186-191: rows of other recipes, mapped or skipped,
    in the order the database returns them. *)
Definition candidate_rows (recipe_slug_q : string) (rows : list mapping_row)
    : list mapping_row :=
  List.filter (fun m => negb (String.eqb (recipe_slug m) recipe_slug_q)
                        && (String.eqb (status m) "mapped" || String.eqb (status m) "skipped"))
    rows.

(** The scoring loop of lines 194-224; [seen] is [seen_products], where
    [None] stands for the skipped sentinel. *)
Fixpoint score_loop (keywords : list string) (seen : list (option Z))
    (results : list mapping_row) : list suggestion :=
  match results with
  | [] => []
  | m :: rest =>
      let mk := matched_keywords keywords m in
      if Nat.eqb mk 0 then score_loop keywords seen rest else
      if String.eqb (status m) "mapped" && bool_decide (ah_product_id m ∈ seen)
      then score_loop keywords seen rest else
      if String.eqb (status m) "skipped" && bool_decide (None ∈ seen)
      then score_loop keywords seen rest else
      let score := score_of mk (length keywords) in
      if Qle_bool (1 # 2) score
      then suggestion_of m score
           :: score_loop keywords
                ((if String.eqb (status m) "mapped" then ah_product_id m else None) :: seen)
                rest
      else score_loop keywords seen rest
  end.

(** The order of [suggestions.sort(key=lambda s: (-s["score"], s["status"] != "mapped"))]:
    [sugg_lt x y] when the key of [x] is smaller than the key of [y]. *)
Definition is_mapped_sugg (x : suggestion) : bool := String.eqb (sg_status x) "mapped".
Definition sugg_lt (x y : suggestion) : bool :=
  negb (Qle_bool (sg_score x) (sg_score y))
  || (Qeq_bool (sg_score x) (sg_score y) && is_mapped_sugg x && negb (is_mapped_sugg y)).

(** Consecutive suggestions in the order the claim asks for: score not
    increasing, and at equal score a mapped one is not after a skipped one. *)
Definition sugg_ordered (x y : suggestion) : Prop :=
  (sg_score y <= sg_score x)%Q /\
  ((sg_score x == sg_score y)%Q -> is_mapped_sugg y = true -> is_mapped_sugg x = true).

(** [list.sort] is stable: insertion sort gives the same list. *)
Fixpoint sugg_insert (x : suggestion) (l : list suggestion) : list suggestion :=
  match l with
  | [] => [x]
  | y :: r => if sugg_lt x y then x :: y :: r else y :: sugg_insert x r
  end.
Definition sort_suggestions (l : list suggestion) : list suggestion :=
  fold_left (fun acc x => sugg_insert x acc) l [].

Section Suggestions.

(** The first [re.sub] of [mapping_suggestions] (quantities followed by a
    unit word, line 168), left to the [re] engine. *)
Variable strip_quantities : string -> string.

(** [cleaned]: lines 168-175. *)
Definition cleaned_of (ingredient_display_q : string) : string :=
  trim_by is_punct_or_space (py_strip (strip_quantities ingredient_display_q)).

(** [mapping_suggestions(ingredient_display, recipe_slug)] over the rows
    of the table. *)
Definition suggestions_for (ingredient_display_q recipe_slug_q : string)
    (rows : list mapping_row) : list suggestion :=
  let cleaned := cleaned_of ingredient_display_q in
  if Nat.ltb (py_len cleaned) 2 then [] else
  let keywords := keywords_of cleaned in
  if Nat.eqb (length keywords) 0 then [] else
  let suggestions := score_loop keywords [] (candidate_rows recipe_slug_q rows) in
  firstn 5 (sort_suggestions suggestions).

Definition mapping_suggestions (ingredient_display_q recipe_slug_q : string)
    : M (list suggestion) :=
  rows <-- gets mappings ;;
  ret (suggestions_for ingredient_display_q recipe_slug_q rows).

End Suggestions.

(* ------------------------------------------------------------------ *)
(** ** Observations used by the statements below *)

(** The line of product [pid] in a cart: the first entry with that key,
    as a [dict] lookup. *)
Fixpoint cart_lookup (pid : Z) (cart : list (Z * cart_line)) : option cart_line :=
  match cart with
  | [] => None
  | (k, l) :: rest => if Z.eqb k pid then Some l else cart_lookup pid rest
  end.

Definition cart_qty (pid : Z) (cart : list (Z * cart_line)) : Z :=
  match cart_lookup pid cart with Some l => line_quantity l | None => 0%Z end.

(** [sum(m.ah_quantity for m in rows if m.ah_product_id == pid)] *)
Definition sum_qty (pid : Z) (rows : list mapping_row) : Z :=
  fold_right Z.add 0%Z
    (map ah_quantity (List.filter (fun m => bool_decide (ah_product_id m = Some pid)) rows)).

(** One iteration of the aggregation loop of [fill_cart]. *)
Definition agg_step (cart : list (Z * cart_line)) (m : mapping_row) : list (Z * cart_line) :=
  match ah_product_id m with Some pid => cart_add cart pid m | None => cart end.


(** [x] may stand before [y] in the sorted suggestions. *)
Definition sugg_le (x y : suggestion) : Prop := sugg_lt y x = false.

(* ------------------------------------------------------------------ *)
(** ** Example data *)

Definition ex_row (i : nat) (slug ref : string) (pid q : Z) : mapping_row :=
  MkRow i slug slug ref "ui" "mapped" (Some pid) (Some "product") None None None q.

(** The rows of the aggregation example: recipe A product 100 x 2,
    recipe B product 100 x 1 and product 200 x 1. *)
Definition example_rows : list mapping_row :=
  [ex_row 1 "recipe-a" "r1" 100 2; ex_row 2 "recipe-b" "r1" 100 1;
   ex_row 3 "recipe-b" "r2" 200 1].

(** A Mealie answer planning both recipes, once by [recipe.slug], once by
    [recipeId]. *)
Definition ex_plans : json :=
  J_list [J_obj [("recipe", J_obj [("slug", J_str "recipe-a")])];
          J_obj [("recipe", J_null); ("recipeId", J_str "recipe-b")]].

(** Tokens in the settings, the example rows, and the two replies of a
    successful cart fill. *)
Definition ex_fill_state : St :=
  MkSt J_null J_null J_null false
       (<["ah_user_token" := J_str "user-a"]> (<["ah_refresh_token" := J_str "user-r"]> ∅))
       example_rows
       [R_http 200 (Some ex_plans); ok_json []] [].

(** The same without any token in the settings. *)
Definition ex_no_token_state : St :=
  MkSt J_null J_null J_null false ∅ example_rows [R_http 200 (Some ex_plans)] [].

(** A refresh answer with an access token and no refresh token. *)
Definition ex_half_refresh_state : St :=
  MkSt J_null (J_str "old-a") (J_str "old-r") false ∅ []
       [ok_json [("access_token", J_str "new-a")]] [].

(** The same answer with [access_token] set to [null]. *)
Definition ex_null_refresh_state : St :=
  MkSt J_null (J_str "old-a") (J_str "old-r") false ∅ []
       [ok_json [("access_token", J_null)]] [].

(** A database that keeps [None] as [NULL] and refuses every other value
    that is not a [str]. *)
Definition ex_db : Database :=
  {| db_store := fun v => match v with J_null => Some J_null | _ => None end |}.

(** A [skipped] decision sent together with a product. *)
Definition skip_form : mapping_form :=
  MkForm "soep" "Soep" "ref-1" "1 rode ui" "skipped" (Some 100%Z) (Some "AH Rode ui")
         (Some "https://img/ui.jpg") (Some "per stuk") (Some "0.39") 1%Z.

(** Rows of two other recipes for the suggestion engine. *)
Definition ex_sugg_rows : list mapping_row :=
  [MkRow 1 "stoof" "Stoof" "a" "2 rode uien" "mapped" (Some 100%Z) (Some "AH Rode ui")
         None None None 1%Z;
   MkRow 2 "salade" "Salade" "b" "1 rode ui, gesnipperd" "skipped" None None
         None None None 1%Z;
   MkRow 3 "soep" "Soep" "c" "1 rode ui" "mapped" (Some 100%Z) (Some "AH Rode ui")
         None None None 1%Z].

(* ------------------------------------------------------------------ *)
(** ** Python [str()] and [dict.get] on decoded JSON *)

(** [d.get(k, default)] on a decoded object. *)
Definition get_or (kvs : list (string * json)) (k : string) (d : json) : json :=
  match obj_get kvs k with Some v => v | None => d end.

(** [" ".join(parts)]: every part must be a [str]. *)
Definition join_space (parts : list json) : M json :=
  if forallb (fun p => match p with J_str _ => true | _ => false end) parts
  then ret (J_str (String.concat " " (map (fun p => match p with J_str x => x | _ => "" end) parts)))
  else throw TypeError.

Section PyStr.

(** [str()] of a list or a dict: its [repr], left to Python. *)
Variable repr_container : json -> string.

(** [str(v)] of a decoded JSON value. *)
Definition py_str (v : json) : string :=
  match v with
  | J_str x => x
  | J_num z => pretty z
  | J_null => "None"
  | J_bool true => "True"
  | J_bool false => "False"
  | J_list _ | J_obj _ => repr_container v
  end.

(* ------------------------------------------------------------------ *)
(** ** The product dicts of [AHClient.search_products] (ah.py lines 106-121) *)

(** One entry of the list [search_products] returns. *)
Record product : Type := MkProduct {
  p_id : json;
  p_name : json;
  p_unit_size : json;
  p_price : string;
  p_image_url : json;
  p_brand : json
}.

(** [product.get("images", [{}])[0].get("url", "") if product.get("images") else ""] *)
Definition image_url_of (kvs : list (string * json)) : M json :=
  let images := get_or kvs "images" J_null in
  if negb (truthy images) then ret (J_str "") else
  first <-- (match images with
             | J_list (x :: _) => ret x
             | J_obj _ => throw (KeyError "0")       (* a dict has no key 0 *)
             | J_str _ => throw AttributeError       (* images[0] is a str: no .get *)
             | _ => throw TypeError                  (* not subscriptable; [] is falsy *)
             end) ;;
  match first with
  | J_obj ikvs => ret (get_or ikvs "url" (J_str ""))
  | _ => throw AttributeError
  end.

(** The dict appended for one entry; [product.get] needs a dict. *)
Definition product_of (entry : json) : M product :=
  match entry with
  | J_obj kvs =>
      img <-- image_url_of kvs ;;
      ret (MkProduct (get_or kvs "webshopId" J_null)
                     (get_or kvs "title" (J_str ""))
                     (get_or kvs "salesUnitSize" (J_str ""))
                     (py_str (get_or kvs "priceBeforeBonus"
                                (get_or kvs "currentPrice" (J_str ""))))
                     img
                     (get_or kvs "brand" (J_str "")))
  | _ => throw AttributeError
  end.

Fixpoint products_loop (entries : list json) : M (list product) :=
  match entries with
  | [] => ret []
  | e :: rest => p <-- product_of e ;; ps <-- products_loop rest ;; ret (p :: ps)
  end.

(** [for product in data.get("products", []): products.append(...)] on
    the decoded body. *)
Definition products_list (data : json) : M (list product) :=
  match data with
  | J_obj kvs => entries <-- py_iter (get_or kvs "products" (J_list [])) ;;
                 products_loop entries
  | _ => throw AttributeError
  end.

(* ------------------------------------------------------------------ *)
(** ** The ingredient list of [recipe_detail] (routes.py lines 79-110) *)

(** One entry of [enriched]. *)
Record enriched_ingredient : Type := MkEnriched {
  e_reference_id : json;
  e_display : json;
  e_mapping : option mapping_row
}.

(** [mappings.get(ref_id)] for [mappings = {m.ingredient_reference_id: m
    for m in mappings_rows}]: the last row with the reference id. *)
Definition mapping_for (rows : list mapping_row) (ref : string) : option mapping_row :=
  List.find (fun m => String.eqb (ingredient_reference_id m) ref) (rev rows).

(** [ing.get(k, {}).get("name")] *)
Definition sub_name (kvs : list (string * json)) (k : string) : M json :=
  match obj_get kvs k with
  | None => ret J_null
  | Some (J_obj skvs) => ret (get_or skvs "name" J_null)
  | Some _ => throw AttributeError
  end.

(** [display] of lines 87-98; [ing["unit"]["name"]] is the name read in
    the condition before it. *)
Definition display_of (kvs : list (string * json)) : M json :=
  let display := get_or kvs "display"
                   (get_or kvs "originalText" (get_or kvs "note" (J_str ""))) in
  if truthy display then ret display else
  let quantity := get_or kvs "quantity" J_null in
  let p_quantity := if truthy quantity then [J_str (py_str quantity)] else [] in
  unit_name <-- sub_name kvs "unit" ;;
  let p_unit := if truthy unit_name then [unit_name] else [] in
  food_name <-- sub_name kvs "food" ;;
  let p_food := if truthy food_name then [food_name] else [] in
  let note := get_or kvs "note" J_null in
  let p_note := if truthy note then [note] else [] in
  let parts := (p_quantity ++ p_unit ++ p_food ++ p_note)%list in
  if Nat.eqb (length parts) 0 then ret (J_str "(onbekend)") else join_space parts.

(** One iteration of the loop; [mappings.get] needs a hashable key. *)
Definition enrich_one (rows : list mapping_row) (ing : json) : M enriched_ingredient :=
  match ing with
  | J_obj kvs =>
      let ref_id := get_or kvs "referenceId" (J_str "") in
      display <-- display_of kvs ;;
      mapping <-- (match ref_id with
                   | J_str r => ret (mapping_for rows r)
                   | J_list _ | J_obj _ => throw TypeError
                   | _ => ret None
                   end) ;;
      ret (MkEnriched ref_id display mapping)
  | _ => throw AttributeError
  end.

Fixpoint enrich_loop (rows : list mapping_row) (ings : list json)
    : M (list enriched_ingredient) :=
  match ings with
  | [] => ret []
  | ing :: rest => e <-- enrich_one rows ing ;; es <-- enrich_loop rows rest ;; ret (e :: es)
  end.

(** [recipe_detail(slug)] once Mealie returned [recipe]: the rows of the
    recipe, then the enriched ingredients. *)
Definition recipe_ingredients (slug : string) (recipe : json)
    : M (list enriched_ingredient) :=
  match recipe with
  | J_obj kvs =>
      let ingredients := get_or kvs "recipeIngredient" (J_list []) in
      rows <-- gets (fun s => List.filter (fun m => String.eqb (recipe_slug m) slug) (mappings s)) ;;
      ings <-- py_iter ingredients ;;
      enrich_loop rows ings
  | _ => throw AttributeError
  end.

End PyStr.

(* ------------------------------------------------------------------ *)
(** ** The meal plan page (routes.py [mealplan_page]) *)

Section MealplanPage.

(** [str(d)] of a [date]: its ISO form, left to [datetime]. *)
Variable iso_date : Z -> string.

(** [d = plan.get("date", "")] and [plans_by_date.setdefault(d, [])]: a
    list or dict as key raises [TypeError] (unhashable). *)
Definition plan_date (plan : json) : M json :=
  match plan with
  | J_obj kvs => let d := get_or kvs "date" (J_str "") in
                 match d with
                 | J_list _ | J_obj _ => throw TypeError
                 | _ => ret d
                 end
  | _ => throw AttributeError
  end.

(** The grouping loop: each plan with the date it is filed under, in order. *)
Fixpoint dated_plans (plans : list json) : M (list (json * json)) :=
  match plans with
  | [] => ret []
  | plan :: rest => d <-- plan_date plan ;; ds <-- dated_plans rest ;; ret ((d, plan) :: ds)
  end.

(** [plans_by_date.get(str(day_date), [])] *)
Definition plans_on (ds : string) (dated : list (json * json)) : list json :=
  map snd (List.filter (fun p => match fst p with J_str x => String.eqb x ds | _ => false end)
                       dated).

(** [{"slug": slug, "name": ..., "id": ...}] of a day. *)
Record page_recipe : Type := MkPageRecipe {
  pr_slug : json;
  pr_name : json;
  pr_id : json
}.

(** One plan of a day: [recipe = plan.get("recipe") or {}],
    [slug = recipe.get("slug", "")]; [None] when the slug is falsy.
    [all_recipe_slugs.add(slug)] needs a hashable slug. *)
Definition page_recipe_of (plan : json) : M (option page_recipe) :=
  match plan with
  | J_obj pkvs =>
      let recipe := let r := get_or pkvs "recipe" J_null in
                    if truthy r then r else J_obj [] in
      match recipe with
      | J_obj rkvs =>
          let slug := get_or rkvs "slug" (J_str "") in
          if negb (truthy slug) then ret None else
          match slug with
          | J_list _ | J_obj _ => throw TypeError
          | _ => ret (Some (MkPageRecipe slug (get_or rkvs "name" (J_str ""))
                                              (get_or rkvs "id" (J_str ""))))
          end
      | _ => throw AttributeError
      end
  | _ => throw AttributeError
  end.

Fixpoint page_recipes (plans : list json) : M (list page_recipe) :=
  match plans with
  | [] => ret []
  | plan :: rest =>
      r <-- page_recipe_of plan ;;
      rs <-- page_recipes rest ;;
      ret (match r with Some x => x :: rs | None => rs end)
  end.

Definition day_names : list string := ["Ma"; "Di"; "Wo"; "Do"; "Vr"].

(** The loop over [range(5)]: name, date and recipes of each day. *)
Fixpoint build_days (monday : Z) (dated : list (json * json)) (names : list string) (i : Z)
    : M (list (string * string * list page_recipe)) :=
  match names with
  | [] => ret []
  | n :: rest =>
      let ds := iso_date (monday + i)%Z in
      rs <-- page_recipes (plans_on ds dated) ;;
      days <-- build_days monday dated rest (i + 1)%Z ;;
      ret ((n, ds, rs) :: days)
  end.

(** [mapping_stats.get(slug)]: [(total, mapped, skipped)] over the rows
    of recipe [slug] the grouped query returns; no rows, no group. *)
Definition recipe_stats (slugs : list json) (rows : list mapping_row) (slug : json)
    : option (Z * Z * Z) :=
  match slug with
  | J_str x =>
      let rs := List.filter (fun m => slug_in slugs m && String.eqb (recipe_slug m) x) rows in
      if Nat.eqb (length rs) 0 then None else
      Some (Z.of_nat (length rs),
            Z.of_nat (length (List.filter (fun m => String.eqb (status m) "mapped") rs)),
            Z.of_nat (length (List.filter (fun m => String.eqb (status m) "skipped") rs)))
  | _ => None
  end.

(** The status of a day: ["empty"], ["ready"] or ["needs_mapping"]. *)
Definition day_status_of (stats : json -> option (Z * Z * Z)) (recipes : list page_recipe)
    : string :=
  match recipes with
  | [] => "empty"
  | _ =>
      if forallb (fun r => match stats (pr_slug r) with
                           | Some (total, mapped, skipped) =>
                               negb (0 <? total - mapped - skipped)%Z
                           | None => false
                           end) recipes
      then "ready" else "needs_mapping"
  end.

(** The loop filling [all_items] and [unmapped_items]. *)
Fixpoint split_items (rows : list mapping_row) : list mapping_row * list mapping_row :=
  match rows with
  | [] => ([], [])
  | m :: rest =>
      let '(items, unmapped) := split_items rest in
      if String.eqb (status m) "mapped"
         && match ah_product_id m with Some p => negb (Z.eqb p 0) | None => false end
      then (m :: items, unmapped)
      else if String.eqb (status m) "unmapped" then (items, m :: unmapped)
      else (items, unmapped)
  end.

Record day_view : Type := MkDay {
  day_name : string;
  day_date : string;
  day_recipes : list page_recipe;
  day_status : string
}.

(** What [mealplan.html] is rendered with. *)
Record mealplan_view : Type := MkPlanView {
  mp_weekdays : list day_view;
  mp_cart_items : list mapping_row;
  mp_unmapped_items : list mapping_row;
  mp_has_token : bool
}.

(** [mealplan_page()] at date [today]; a failing Mealie request reads
    as no plans. *)
Definition mealplan_page (today : Z) : M mealplan_view :=
  match mealplan_week today with
  | None => throw OverflowError
  | Some (monday, friday) =>
      plans <-- catch (get_mealplans monday friday) (fun _ => ret (J_list [])) ;;
      plan_list <-- py_iter plans ;;
      dated <-- dated_plans plan_list ;;
      days <-- build_days monday dated day_names 0 ;;
      let all_recipe_slugs := flat_map (fun d => map pr_slug (snd d)) days in
      rows <-- gets mappings ;;
      let stats := recipe_stats all_recipe_slugs rows in
      let items := if Nat.eqb (length all_recipe_slugs) 0 then ([], [])
                   else split_items (List.filter (slug_in all_recipe_slugs) rows) in
      has_token <-- gets (fun s => truthy (get_setting "ah_user_token" s)) ;;
      ret (MkPlanView
             (map (fun d => MkDay (fst (fst d)) (snd (fst d)) (snd d)
                                  (day_status_of stats (snd d))) days)
             (fst items) (snd items) has_token)
  end.

End MealplanPage.

(* ------------------------------------------------------------------ *)
(** ** [toggle_logging] (routes.py, [POST /settings/logging]) *)

(** [_set_setting(db, "verbose_logging", str(enabled).lower())]; the log
    level set next is not part of the state. *)
Definition toggle_logging {D : Database} (verbose : string) : M unit :=
  let enabled := String.eqb verbose "true" in
  set_setting "verbose_logging" (J_str (if enabled then "true" else "false")).

(** The entry of [seen_products] a suggestion stands for: its product id
    when mapped, the [None] sentinel otherwise. *)
Definition seen_key (sg : suggestion) : option Z :=
  if String.eqb (sg_status sg) "mapped" then sg_ah_product_id sg else None.

(* ------------------------------------------------------------------ *)
(** ** [MealieClient.update_recipe] (mealie.py) *)

(** Its requests, with the JSON body sent as a dict. *)
Inductive recipe_call : Type :=
| RC_get_recipe
| RC_patch_recipe (payload : gmap string json)
| RC_put_recipe (payload : gmap string json).

(** The replies still to come and the requests sent, newest first. *)
Record UState : Type := MkUState {
  u_script : list reply;
  u_sent : list recipe_call
}.

(** One request; a transport failure raises. *)
Definition u_request (c : recipe_call) (st : UState) : (exn + reply) * UState :=
  let st' := MkUState (tail (u_script st)) (c :: u_sent st) in
  match u_script st with
  | [] | R_transport_error :: _ => (inl TransportError, st')
  | r :: _ => (inr r, st')
  end.

(** [resp.json()] *)
Definition reply_json (r : reply) : exn + json :=
  match r with
  | R_http _ (Some j) => inr j
  | _ => inl JSONDecodeError
  end.

Definition SAFE_FIELDS : list string :=
  ["name"; "description"; "recipeYield"; "totalTime"; "prepTime";
   "performTime"; "recipeCategory"; "tags"; "tools"; "nutrition";
   "recipeIngredient"; "recipeInstructions"; "settings"; "notes";
   "orgURL"; "slug"].

(** The dict [json.loads] builds from an object: a repeated key keeps
    its last value. *)
Definition dict_of (kvs : list (string * json)) : gmap string json :=
  list_to_map (rev kvs).

(** [update_payload]: the safe fields of the fetched recipe updated with
    [data] when the GET answered 200, [data] as it is otherwise. *)
Definition update_payload (get_resp : reply) (data : gmap string json)
    : exn + gmap string json :=
  if Z.eqb (status_code get_resp) 200 then
    match reply_json get_resp with
    | inl e => inl e
    | inr (J_obj kvs) =>
        inr (data ∪ filter (fun kv => kv.1 ∈ SAFE_FIELDS) (dict_of kvs))
    | inr _ => inl AttributeError                (* no .items() *)
    end
  else inr data.

(** [update_recipe(slug, data)]: GET, PATCH, and PUT when the PATCH
    answered 400 or more. *)
Definition update_recipe (data : gmap string json) (st : UState) : (exn + json) * UState :=
  match u_request RC_get_recipe st with
  | (inl e, st1) => (inl e, st1)
  | (inr get_resp, st1) =>
      match update_payload get_resp data with
      | inl e => (inl e, st1)
      | inr payload =>
          match u_request (RC_patch_recipe payload) st1 with
          | (inl e, st2) => (inl e, st2)
          | (inr resp, st2) =>
              if (400 <=? status_code resp)%Z then
                match u_request (RC_put_recipe payload) st2 with
                | (inl e, st3) => (inl e, st3)
                | (inr resp2, st3) =>
                    if (400 <=? status_code resp2)%Z
                    then (inl (HTTPStatusError (status_code resp2)), st3)
                    else (reply_json resp2, st3)
                end
              else (reply_json resp, st2)
          end
      end
  end.

(* ------------------------------------------------------------------ *)
(** ** Example data for the further properties *)

(** Mealie answers the meal-plan request with a server error. *)
Definition ex_mealie_error_state : St :=
  MkSt J_null J_null J_null false ∅ example_rows [R_http 500 None] [].

(** A search answer: one product with a price and an image, one bare. *)
Definition ex_products : list json :=
  [J_obj [("webshopId", J_num 7); ("title", J_str "AH Rode ui");
          ("currentPrice", J_num 1);
          ("images", J_list [J_obj [("url", J_str "https://img/ui.jpg")]])];
   J_obj [("webshopId", J_num 8)]].

(** A recipe with one ingredient that has a display text and one that
    has only a quantity and a food. *)
Definition ex_ingredients : list json :=
  [J_obj [("referenceId", J_str "r1"); ("display", J_str "2 rode uien")];
   J_obj [("referenceId", J_str "r9"); ("quantity", J_num 2);
          ("food", J_obj [("name", J_str "ui")])]].

Definition ex_recipe : json := J_obj [("recipeIngredient", J_list ex_ingredients)].

(** The same with an ingredient whose unit is [null]. *)
Definition ex_null_unit_ingredient : list (string * json) :=
  [("referenceId", J_str "r2"); ("display", J_str ""); ("unit", J_null)].

Definition ex_null_unit_recipe : json :=
  J_obj [("recipeIngredient", J_list [J_obj ex_null_unit_ingredient])].

(** The condition of the loop filling [all_items]. *)
Definition cart_item_ok (m : mapping_row) : bool :=
  String.eqb (status m) "mapped"
  && match ah_product_id m with Some p => negb (Z.eqb p 0) | None => false end.

(** A week with recipe-a on Monday, recipe-c and a plan without a recipe
    on Tuesday; dates are rendered as the ordinal. *)
Definition ex_week_plans : json :=
  J_list [J_obj [("date", J_str "739005"); ("recipe", J_obj [("slug", J_str "recipe-a"); ("name", J_str "A")])];
          J_obj [("date", J_str "739006"); ("recipe", J_obj [("slug", J_str "recipe-c"); ("name", J_str "C")])];
          J_obj [("date", J_str "739006"); ("recipe", J_null)]].

Definition ex_plan_state : St :=
  MkSt J_null J_null J_null false (<["ah_user_token" := J_str "user-a"]> ∅) example_rows
       [R_http 200 (Some ex_week_plans)] [].

Definition ex_plan_after : St :=
  set_net [] [Ev_http (C_get_mealplans 739005 739009)] ex_plan_state.

Definition ex_plan_view : mealplan_view :=
  MkPlanView
    [MkDay "Ma" "739005" [MkPageRecipe (J_str "recipe-a") (J_str "A") (J_str "")] "ready";
     MkDay "Di" "739006" [MkPageRecipe (J_str "recipe-c") (J_str "C") (J_str "")] "needs_mapping";
     MkDay "Wo" "739007" [] "empty"; MkDay "Do" "739008" [] "empty"; MkDay "Vr" "739009" [] "empty"]
    [ex_row 1 "recipe-a" "r1" 100 2] [] true.

(** A recipe update sending a new name: the GET returns the stored
    recipe with a field outside [SAFE_FIELDS], the PATCH is refused (405)
    and the PUT accepted. *)
Definition ex_recipe_data : gmap string json := <["name" := J_str "Soep"]> ∅.

Definition ex_stored_recipe : json :=
  J_obj [("name", J_str "Oud"); ("id", J_str "x-1"); ("slug", J_str "soep")].

Definition ex_update_payload : gmap string json :=
  <["name" := J_str "Soep"]> (<["slug" := J_str "soep"]> ∅).

Definition ex_update_state : UState :=
  MkUState [R_http 200 (Some ex_stored_recipe); R_http 405 None; R_http 200 (Some (J_obj []))] [].

Definition ex_update_after : UState :=
  MkUState [] [RC_put_recipe ex_update_payload; RC_patch_recipe ex_update_payload; RC_get_recipe].

(** The same with the PUT refused too. *)
Definition ex_update_fail_state : UState :=
  MkUState [R_http 200 (Some ex_stored_recipe); R_http 405 None; R_http 500 None] [].

Definition ex_update_fail_after : UState :=
  MkUState [] [RC_put_recipe ex_update_payload; RC_patch_recipe ex_update_payload; RC_get_recipe].

(* ------------------------------------------------------------------ *)
(** ** Reasoning about runs *)

Create HintDb run_unfold.
#[local] Hint Unfold bind ret throw catch gets modify http raise_for_status
  resp_json index set_setting save_tokens products_of
  set_anonymous set_user set_refresh set_callback set_settings set_mappings set_net
  : run_unfold.

(** Split on the innermost [match] of hypothesis [H]. *)
Ltac destr_scrutinee H :=
  match type of H with
  | context [match ?x with _ => _ end] =>
      lazymatch x with
      | match _ with _ => _ end => fail
      | _ => destruct x eqn:?
      end
  end.

(** Unfold the monad in every hypothesis and split on the [match]es
    there until each run is a list of equations. *)
Ltac run_all :=
  repeat (autounfold with run_unfold in *; simpl in *;
    first [ match goal with H : (_, _) = (_, _) |- _ => injection H as; subst end
          | match goal with H : _ |- _ => destr_scrutinee H end ];
    try discriminate).

(* ================================================================== *)
(** * Runs of the client *)

(** [test_search_products_token_refresh] *)
Example search_refresh_run :
  let s := set_anonymous (J_str "expired-tok")
             (init [R_http 401 None; ok_json [("access_token", J_str "new-tok")];
                    ok_json [("products", J_list [])]]) in
  let '(r, s') := search_products "melk" s in
  r = inr [] /\ anonymous_token s' = J_str "new-tok".
Proof. split; reflexivity. Qed.

(** [test_cart_auto_refresh_on_401] *)
Example cart_refresh_run :
  let s := snd (set_user_tokens (J_str "expired-access") (J_str "valid-refresh") false
             (init [R_http 401 None;
                    ok_json [("access_token", J_str "fresh-access");
                             ("refresh_token", J_str "fresh-refresh")];
                    ok_json [("success", J_bool true)]])) in
  let '(r, s') := add_to_cart (D:=ex_db) [MkLine 1 1 None] s in
  r = inr (J_obj [("success", J_bool true)]) /\ user_token s' = J_str "fresh-access".
Proof. split; reflexivity. Qed.

(* ================================================================== *)
(** * Token refresh *)

Lemma leb_ltb_2xx (code : Z) :
  (200 <= code < 300)%Z -> ((200 <=? code)%Z && (code <? 300)%Z) = true.
Proof. intros [H1 H2]. apply andb_true_intro. split; [apply Z.leb_le | apply Z.ltb_lt]; lia. Qed.

Lemma is_2xx (code : Z) :
  ((200 <=? code)%Z && (code <? 300)%Z) = true -> (200 <= code < 300)%Z.
Proof. intros H. apply andb_prop in H as [H1 H2]. apply Z.leb_le in H1. apply Z.ltb_lt in H2. lia. Qed.

(** C10 (amended): when [_refresh_user_token] returns [False], either
    nothing changed (tokens and settings), or the refresh endpoint
    answered a 2xx object with an [access_token] (any value, [null]
    included) and no [refresh_token]: the access token was already
    replaced by that value before [data["refresh_token"]] raised, the
    refresh token and the settings are as before; or the answer had both
    keys and the registered callback failed because the database refused
    a value: both tokens were replaced, and the settings are as before or
    hold the new access token only. *)
Lemma refresh_false_state {D : Database} (s s' : St) :
  refresh_user_token s = (inr false, s') ->
  (user_token s' = user_token s /\ user_refresh_token s' = user_refresh_token s /\
   settings s' = settings s) \/
  (exists code kvs a,
     script s = R_http code (Some (J_obj kvs)) :: script s' /\
     (200 <= code < 300)%Z /\
     obj_get kvs "access_token" = Some a /\ obj_get kvs "refresh_token" = None /\
     user_token s' = a /\ user_refresh_token s' = user_refresh_token s /\
     settings s' = settings s) \/
  (exists code kvs a r,
     script s = R_http code (Some (J_obj kvs)) :: script s' /\
     (200 <= code < 300)%Z /\
     obj_get kvs "access_token" = Some a /\ obj_get kvs "refresh_token" = Some r /\
     on_tokens_updated s = true /\
     user_token s' = a /\ user_refresh_token s' = r /\
     ((db_cell a = None /\ settings s' = settings s) \/
      (exists a', db_cell a = Some a' /\ db_cell r = None /\
         settings s' = <["ah_user_token" := a']> (settings s)))).
Proof.
  intros H. unfold refresh_user_token in H. run_all.
  all: simpl in *.
  all: first
    [ solve [left; repeat split; reflexivity]
    | solve [right; left; do 3 eexists;
      repeat first [ split | reflexivity | eassumption | apply is_2xx; eassumption ]]
    | solve [right; right; do 4 eexists;
      repeat first [ split | reflexivity | eassumption | apply is_2xx; eassumption ];
      first [ left; split; [eassumption | reflexivity]
            | right; eexists; split; [eassumption|]; split; [eassumption|reflexivity] ]] ].
Qed.

(** A refresh answer without [refresh_token]: the call reports failure,
    and the access token has changed, also to [None] when the answer's
    [access_token] is [null]. *)
Lemma refresh_false_replaces_access_token :
  fst (refresh_user_token (D:=ex_db) ex_half_refresh_state) = inr false /\
  user_token ex_half_refresh_state = J_str "old-a" /\
  user_token (snd (refresh_user_token (D:=ex_db) ex_half_refresh_state)) = J_str "new-a" /\
  user_refresh_token (snd (refresh_user_token (D:=ex_db) ex_half_refresh_state)) = J_str "old-r" /\
  fst (refresh_user_token (D:=ex_db) ex_null_refresh_state) = inr false /\
  user_token ex_null_refresh_state = J_str "old-a" /\
  user_token (snd (refresh_user_token (D:=ex_db) ex_null_refresh_state)) = J_null.
Proof. vm_compute. repeat split; reflexivity. Qed.

Lemma refresh_false_state_witness :
  refresh_user_token (D:=ex_db) ex_null_refresh_state =
    (inr false, snd (refresh_user_token (D:=ex_db) ex_null_refresh_state)) /\
  ((user_token (snd (refresh_user_token (D:=ex_db) ex_null_refresh_state)) = user_token ex_null_refresh_state /\
    user_refresh_token (snd (refresh_user_token (D:=ex_db) ex_null_refresh_state)) = user_refresh_token ex_null_refresh_state /\
    settings (snd (refresh_user_token (D:=ex_db) ex_null_refresh_state)) = settings ex_null_refresh_state) \/
   (exists code kvs a,
      script ex_null_refresh_state = R_http code (Some (J_obj kvs)) :: script (snd (refresh_user_token (D:=ex_db) ex_null_refresh_state)) /\
      (200 <= code < 300)%Z /\
      obj_get kvs "access_token" = Some a /\ obj_get kvs "refresh_token" = None /\
      user_token (snd (refresh_user_token (D:=ex_db) ex_null_refresh_state)) = a /\
      user_refresh_token (snd (refresh_user_token (D:=ex_db) ex_null_refresh_state)) = user_refresh_token ex_null_refresh_state /\
      settings (snd (refresh_user_token (D:=ex_db) ex_null_refresh_state)) = settings ex_null_refresh_state) \/
   (exists code kvs a r,
      script ex_null_refresh_state = R_http code (Some (J_obj kvs)) :: script (snd (refresh_user_token (D:=ex_db) ex_null_refresh_state)) /\
      (200 <= code < 300)%Z /\
      obj_get kvs "access_token" = Some a /\ obj_get kvs "refresh_token" = Some r /\
      on_tokens_updated ex_null_refresh_state = true /\
      user_token (snd (refresh_user_token (D:=ex_db) ex_null_refresh_state)) = a /\
      user_refresh_token (snd (refresh_user_token (D:=ex_db) ex_null_refresh_state)) = r /\
      ((db_cell (D:=ex_db) a = None /\ settings (snd (refresh_user_token (D:=ex_db) ex_null_refresh_state)) = settings ex_null_refresh_state) \/
       (exists a', db_cell (D:=ex_db) a = Some a' /\ db_cell (D:=ex_db) r = None /\
          settings (snd (refresh_user_token (D:=ex_db) ex_null_refresh_state)) =
            <["ah_user_token" := a']> (settings ex_null_refresh_state))))).
Proof.
  assert (E : refresh_user_token (D:=ex_db) ex_null_refresh_state =
              (inr false, snd (refresh_user_token (D:=ex_db) ex_null_refresh_state)))
    by (vm_compute; reflexivity).
  split; [exact E | exact (refresh_false_state _ _ E)].
Defined.

(* ================================================================== *)
(** * The cart request and its 401 recovery *)

Lemma refresh_no_token {D : Database} (s : St) :
  truthy (user_refresh_token s) = false -> refresh_user_token s = (inr false, s).
Proof. intros H. unfold refresh_user_token, gets, bind. rewrite H. reflexivity. Qed.

(** The callback with two values the database keeps. *)
Lemma save_tokens_ok {D : Database} (a r a' r' : json) (s : St) :
  db_cell a = Some a' -> db_cell r = Some r' ->
  save_tokens a r s =
    (inr tt, set_settings (<["ah_refresh_token" := r']> (<["ah_user_token" := a']> (settings s)))
               (set_net (script s) (Ev_persist a r :: trace s) s)).
Proof.
  intros Ha Hr. unfold save_tokens, set_setting, bind, modify. rewrite Ha, Hr.
  reflexivity.
Qed.

(** The callback with a value the database refuses. *)
Lemma save_tokens_refused {D : Database} (a r : json) (s : St) :
  db_cell a = None \/ db_cell r = None ->
  exists s2, save_tokens a r s = (inl DatabaseError, s2) /\
    trace s2 = Ev_persist a r :: trace s /\ script s2 = script s /\
    user_token s2 = user_token s /\ user_refresh_token s2 = user_refresh_token s.
Proof.
  intros H. unfold save_tokens, set_setting, bind, modify, throw.
  destruct (db_cell a) as [a'|] eqn:Ha.
  - destruct H as [H|H]; [congruence|]. rewrite H. eexists. repeat split.
  - eexists. repeat split.
Qed.

(** A refresh answered by a token pair. *)
Lemma refresh_pair_eq {D : Database} (s : St) (a r : json) (rr : reply) (rest : list reply) :
  truthy (user_refresh_token s) = true ->
  script s = rr :: rest -> token_pair_reply rr a r ->
  refresh_user_token s =
    (let s1 := set_refresh r (set_user a
                 (set_net rest (Ev_http (C_post_refresh (user_refresh_token s)) :: trace s) s)) in
     if on_tokens_updated s then
       match save_tokens a r s1 with
       | (inl _, s2) => (inr false, s2)
       | (inr _, s2) => (inr true, s2)
       end
     else (inr true, s1)).
Proof.
  intros Ht Hsc (code & kvs & -> & Hc & Ha & Hr).
  destruct s as [an u rt cb g ms sc tr]. simpl in Ht, Hsc. subst sc.
  unfold refresh_user_token, gets, bind at 1. simpl. rewrite Ht. simpl.
  unfold catch, bind, http, raise_for_status, resp_json, index, modify, gets, ret. simpl.
  rewrite (leb_ltb_2xx _ Hc), Ha, Hr. simpl.
  destruct cb; [|reflexivity].
  destruct (save_tokens a r _) as [[e|[]] s2]; reflexivity.
Qed.

Lemma refresh_not_pair {D : Database} (s : St) :
  truthy (user_refresh_token s) = true ->
  (forall a r, ~ token_pair_reply (hd R_transport_error (script s)) a r) ->
  exists s2, refresh_user_token s = (inr false, s2) /\
    trace s2 = Ev_http (C_post_refresh (user_refresh_token s)) :: trace s.
Proof.
  intros Ht Hnp.
  destruct (refresh_user_token s) as [res s2] eqn:E. exists s2.
  unfold refresh_user_token in E. run_all.
  all: simplify_eq/=.
  all: try (rewrite Ht in *; discriminate).
  all: try (split; reflexivity).
  all: exfalso; match goal with
    | Ha : obj_get _ "access_token" = Some ?a,
      Hr : obj_get _ "refresh_token" = Some ?r |- _ => apply (Hnp a r)
    end.
  all: do 2 eexists; split; [reflexivity|]; split; [apply is_2xx; eassumption|];
       split; eassumption.
Qed.

Lemma final_request_spec (c : call) (s s' : St) (res : exn + json) :
  final_request c s = (res, s') ->
  trace s' = Ev_http c :: trace s /\
  user_token s' = user_token s /\ user_refresh_token s' = user_refresh_token s /\
  settings s' = settings s /\
  (forall b rest, script s = R_http 401 b :: rest -> res = inl (HTTPStatusError 401)).
Proof.
  intros E. unfold final_request in E. run_all.
  all: repeat split; try reflexivity; intros b rest Hs; simplify_eq/=; auto.
Qed.

Lemma add_to_cart_after_401 {D : Database} (items : list cart_line) (s : St)
    (b0 : option json) (rest : list reply) :
  truthy (user_token s) = true -> script s = R_http 401 b0 :: rest ->
  add_to_cart items s =
    (let s1 := set_net rest (Ev_http (C_patch_cart (user_token s) (cart_items items)) :: trace s) s in
     match refresh_user_token s1 with
     | (inl e, s2) => (inl e, s2)
     | (inr false, s2) => (inl (ValueError msg_expired), s2)
     | (inr true, s2) =>
         final_request (C_patch_cart (user_token s2) (cart_items items)) s2
     end).
Proof.
  intros Hu Hsc. unfold add_to_cart, gets, bind.
  rewrite Hu. simpl. unfold http at 1. rewrite Hsc. simpl.
  destruct (refresh_user_token _) as [[e|[|]] s2]; reflexivity.
Qed.

(** C2: after a 401 on the cart request [add_to_cart] tries one refresh.
    (1) When the refresh endpoint answers a new pair (a 2xx object with
    both keys, whatever their values) and the callback, when one is
    registered, can store it, the client holds that pair, the callback has
    been called once with it right after the refresh request (so the
    settings hold what the database keeps of it), the cart request is sent
    once more with the new access token, and a second 401 raises.  It
    raises the token-expired error (2) without a refresh token, (3) with
    any other refresh answer, and (4) when the registered callback fails
    because the database refuses a value of the pair. *)
Theorem add_to_cart_401_refresh_once {D : Database} (items : list cart_line) (s s' : St)
    (res : exn + json) (u : json) (b0 : option json) (rest : list reply) :
  user_token s = u -> truthy u = true -> script s = R_http 401 b0 :: rest ->
  add_to_cart items s = (res, s') ->
  (forall rt rr a r a' r' rest2,
     user_refresh_token s = rt -> truthy rt = true -> rest = rr :: rest2 ->
     token_pair_reply rr a r ->
     (on_tokens_updated s = true -> db_cell a = Some a' /\ db_cell r = Some r') ->
     user_token s' = a /\ user_refresh_token s' = r /\
     trace s' = (Ev_http (C_patch_cart a (cart_items items))
                 :: (if on_tokens_updated s then [Ev_persist a r] else [])
                 ++ Ev_http (C_post_refresh rt)
                 :: Ev_http (C_patch_cart u (cart_items items)) :: trace s)%list /\
     (on_tokens_updated s = true ->
        get_setting "ah_user_token" s' = a' /\ get_setting "ah_refresh_token" s' = r') /\
     (forall b1 rest3, rest2 = R_http 401 b1 :: rest3 ->
        res = inl (HTTPStatusError 401))) /\
  (truthy (user_refresh_token s) = false ->
     res = inl (ValueError msg_expired) /\
     trace s' = Ev_http (C_patch_cart u (cart_items items)) :: trace s) /\
  (forall rt, user_refresh_token s = rt -> truthy rt = true ->
     (forall a r, ~ token_pair_reply (hd R_transport_error rest) a r) ->
     res = inl (ValueError msg_expired) /\
     trace s' = Ev_http (C_post_refresh rt)
                :: Ev_http (C_patch_cart u (cart_items items)) :: trace s) /\
  (forall rt rr a r rest2,
     user_refresh_token s = rt -> truthy rt = true -> rest = rr :: rest2 ->
     token_pair_reply rr a r -> on_tokens_updated s = true ->
     db_cell a = None \/ db_cell r = None ->
     res = inl (ValueError msg_expired) /\
     trace s' = Ev_persist a r :: Ev_http (C_post_refresh rt)
                :: Ev_http (C_patch_cart u (cart_items items)) :: trace s).
Proof.
  intros <- Hne Hsc Hrun.
  rewrite (add_to_cart_after_401 items s b0 rest Hne Hsc) in Hrun.
  cbv zeta in Hrun.
  set (s1 := set_net rest (Ev_http (C_patch_cart (user_token s) (cart_items items)) :: trace s) s)
    in Hrun.
  split; [|split; [|split]].
  - intros rt rr a r a' r' rest2 <- Hrtne -> Hpair Hdb.
    rewrite (refresh_pair_eq s1 a r rr rest2 Hrtne eq_refl Hpair) in Hrun.
    cbv zeta in Hrun. simpl in Hrun.
    destruct (on_tokens_updated s) eqn:Hcb.
    + destruct (Hdb eq_refl) as [Ha' Hr'].
      rewrite (save_tokens_ok a r a' r' _ Ha' Hr') in Hrun.
      apply final_request_spec in Hrun as (Ht' & Ha2 & Hr2 & Hset' & H401).
      simpl in Ht', Ha2, Hr2, Hset', H401.
      split; [exact Ha2|]. split; [exact Hr2|]. split; [exact Ht'|]. split.
      * intros _. unfold get_setting. rewrite Hset'.
        rewrite lookup_insert_ne by discriminate. rewrite !lookup_insert_eq.
        split; reflexivity.
      * intros b1 rest3 ->. exact (H401 b1 rest3 eq_refl).
    + apply final_request_spec in Hrun as (Ht' & Ha2 & Hr2 & Hset' & H401).
      simpl in Ht', Ha2, Hr2, Hset', H401.
      split; [exact Ha2|]. split; [exact Hr2|]. split; [exact Ht'|]. split.
      * discriminate.
      * intros b1 rest3 ->. exact (H401 b1 rest3 eq_refl).
  - intros Hnone.
    rewrite refresh_no_token in Hrun by exact Hnone.
    injection Hrun as <- <-. split; reflexivity.
  - intros rt <- Hrtne Hnp.
    destruct (refresh_not_pair s1 Hrtne Hnp) as (s2 & E & Ht).
    rewrite E in Hrun. injection Hrun as <- <-. split; [reflexivity|exact Ht].
  - intros rt rr a r rest2 <- Hrtne -> Hpair Hcb Hbad.
    rewrite (refresh_pair_eq s1 a r rr rest2 Hrtne eq_refl Hpair) in Hrun.
    cbv zeta in Hrun.
    replace (on_tokens_updated s1) with true in Hrun by (symmetry; exact Hcb).
    match type of Hrun with
    | context [save_tokens a r ?x] =>
        destruct (save_tokens_refused a r x Hbad) as (s2 & E & Ht & _)
    end.
    rewrite E in Hrun. injection Hrun as <- <-. split; [reflexivity|].
    rewrite Ht. unfold s1. reflexivity.
Qed.

(** [test_cart_auto_refresh_on_401] with the callback of [fill_cart]
    registered, and a second 401. *)
Lemma add_to_cart_401_refresh_once_witness :
  let s := MkSt J_null (J_str "expired-access") (J_str "valid-refresh") true ∅ []
             [R_http 401 None;
              ok_json [("access_token", J_str "fresh-access");
                       ("refresh_token", J_str "fresh-refresh")];
              R_http 401 None] [] in
  user_token (snd (add_to_cart (D:=ex_db) [MkLine 1 1 None] s)) = J_str "fresh-access" /\
  user_refresh_token (snd (add_to_cart (D:=ex_db) [MkLine 1 1 None] s)) = J_str "fresh-refresh" /\
  get_setting "ah_user_token" (snd (add_to_cart (D:=ex_db) [MkLine 1 1 None] s)) = J_str "fresh-access" /\
  fst (add_to_cart (D:=ex_db) [MkLine 1 1 None] s) = inl (HTTPStatusError 401).
Proof.
  intros s.
  destruct (add_to_cart_401_refresh_once (D:=ex_db) [MkLine 1 1 None] s
              (snd (add_to_cart (D:=ex_db) [MkLine 1 1 None] s))
              (fst (add_to_cart (D:=ex_db) [MkLine 1 1 None] s))
              (J_str "expired-access") None
              [ok_json [("access_token", J_str "fresh-access");
                        ("refresh_token", J_str "fresh-refresh")];
               R_http 401 None]
              ltac:(reflexivity) ltac:(reflexivity) ltac:(reflexivity)
              ltac:(vm_compute; reflexivity)) as [Hpair _].
  destruct (Hpair (J_str "valid-refresh")
              (ok_json [("access_token", J_str "fresh-access");
                        ("refresh_token", J_str "fresh-refresh")])
              (J_str "fresh-access") (J_str "fresh-refresh")
              (J_str "fresh-access") (J_str "fresh-refresh") [R_http 401 None]
              ltac:(reflexivity) ltac:(reflexivity) ltac:(reflexivity))
    as (Hu & Hr & _ & Hset & Hres).
  - exists 200%Z, [("access_token", J_str "fresh-access"); ("refresh_token", J_str "fresh-refresh")].
    split; [reflexivity|]. split; [lia|]. split; reflexivity.
  - intros _. split; reflexivity.
  - split; [exact Hu|]. split; [exact Hr|]. split; [exact (proj1 (Hset eq_refl))|].
    exact (Hres None [] eq_refl).
Defined.
(** * Product search *)

(** The events in front of the [trace] of the initial state. *)
Ltac new_events l :=
  lazymatch l with
  | ?x :: ?r => let p := new_events r in constr:(x :: p)
  | _ => constr:(@nil event)
  end.

(** In every run of [search_products] at most two search requests and at
    most two anonymous-token requests are sent. *)
Lemma search_products_bounded (q : string) (s s' : St) (res : exn + list json) :
  search_products q s = (res, s') ->
  exists new, trace s' = (new ++ trace s)%list /\
    count_calls is_search new <= 2 /\ count_calls is_anonymous new <= 2.
Proof.
  intros E. unfold search_products, get_anonymous_token in E. run_all.
  all: simpl; match goal with |- exists new, ?l = _ /\ _ =>
         let p := new_events l in exists p end.
  all: split; [reflexivity | unfold count_calls; simpl; lia].
Qed.

Lemma search_cached_401 (q : string) (s s' : St) (res : exn + list json)
    (t0 t1 : json) (b : option json) (rA rS : reply) (rest : list reply) :
  anonymous_token s = t0 -> truthy t0 = true ->
  script s = R_http 401 b :: rA :: rS :: rest -> anon_reply rA t1 ->
  search_products q s = (res, s') ->
  trace s' = Ev_http (C_get_search t1 q) :: Ev_http C_post_anonymous
             :: Ev_http (C_get_search t0 q) :: trace s /\
  anonymous_token s' = t1 /\
  (forall b', rS = R_http 401 b' -> res = inl (HTTPStatusError 401)).
Proof.
  intros <- Hne Hsc (c & kvs & -> & Hc & Ha) E.
  unfold search_products, get_anonymous_token in E.
  run_all.
  all: simplify_eq/=; try (rewrite Hsc in *; simplify_eq/=).
  all: try (rewrite Hne in *; discriminate).
  all: simpl.
  all: try (rewrite (leb_ltb_2xx _ Hc) in *; discriminate).
  all: repeat split; try reflexivity; intros; simplify_eq/=; reflexivity.
Qed.

Lemma search_uncached_401 (q : string) (s s' : St) (res : exn + list json)
    (t1 t2 : json) (b : option json) (rA1 rA2 rS : reply) (rest : list reply) :
  truthy (anonymous_token s) = false ->
  script s = rA1 :: R_http 401 b :: rA2 :: rS :: rest ->
  anon_reply rA1 t1 -> anon_reply rA2 t2 ->
  search_products q s = (res, s') ->
  trace s' = Ev_http (C_get_search t2 q) :: Ev_http C_post_anonymous
             :: Ev_http (C_get_search t1 q) :: Ev_http C_post_anonymous :: trace s /\
  anonymous_token s' = t2 /\
  (forall b', rS = R_http 401 b' -> res = inl (HTTPStatusError 401)).
Proof.
  intros Hnone Hsc (c1 & kvs1 & -> & Hc1 & Ha1) (c2 & kvs2 & -> & Hc2 & Ha2) E.
  unfold search_products, get_anonymous_token in E.
  run_all.
  all: simplify_eq/=; try (rewrite Hsc in *; simplify_eq/=).
  all: try (rewrite Hnone in *; discriminate).
  all: try (rewrite (leb_ltb_2xx _ Hc1) in *; discriminate).
  all: try (rewrite (leb_ltb_2xx _ Hc2) in *; discriminate).
  all: repeat split; try reflexivity; intros; simplify_eq/=; reflexivity.
Qed.

(** C3 (amended): [search_products] sends at most two search requests and
    at most two anonymous-token requests.  On a 401 it drops the cached
    token, gets a new one and sends the search once more with it: with a
    cached (expired) token that is one token request and two searches,
    with no cached token two token requests and two searches.  A second
    401 raises. *)
Theorem search_retry_once (q : string) :
  (forall (s s' : St) (res : exn + list json),
     search_products q s = (res, s') ->
     exists new, trace s' = (new ++ trace s)%list /\
       count_calls is_search new <= 2 /\ count_calls is_anonymous new <= 2) /\
  (forall (s s' : St) (res : exn + list json) (t0 t1 : json) (b : option json)
          (rA rS : reply) (rest : list reply),
     anonymous_token s = t0 -> truthy t0 = true ->
     script s = R_http 401 b :: rA :: rS :: rest -> anon_reply rA t1 ->
     search_products q s = (res, s') ->
     trace s' = Ev_http (C_get_search t1 q) :: Ev_http C_post_anonymous
                :: Ev_http (C_get_search t0 q) :: trace s /\
     anonymous_token s' = t1 /\
     (forall b', rS = R_http 401 b' -> res = inl (HTTPStatusError 401))) /\
  (forall (s s' : St) (res : exn + list json) (t1 t2 : json) (b : option json)
          (rA1 rA2 rS : reply) (rest : list reply),
     truthy (anonymous_token s) = false ->
     script s = rA1 :: R_http 401 b :: rA2 :: rS :: rest ->
     anon_reply rA1 t1 -> anon_reply rA2 t2 ->
     search_products q s = (res, s') ->
     trace s' = Ev_http (C_get_search t2 q) :: Ev_http C_post_anonymous
                :: Ev_http (C_get_search t1 q) :: Ev_http C_post_anonymous :: trace s /\
     anonymous_token s' = t2 /\
     (forall b', rS = R_http 401 b' -> res = inl (HTTPStatusError 401))).
Proof.
  split; [exact (search_products_bounded q)|].
  split; [exact (search_cached_401 q) | exact (search_uncached_401 q)].
Qed.

(** A 401 followed by a success: one anonymous-token request when an
    expired token is cached, two when none is. *)
Lemma search_anonymous_request_counts :
  let cached := set_anonymous (J_str "expired-tok")
                  (init [R_http 401 None; ok_json [("access_token", J_str "new-tok")];
                         ok_json [("products", J_list [])]]) in
  let uncached := init [ok_json [("access_token", J_str "tok-1")]; R_http 401 None;
                        ok_json [("access_token", J_str "tok-2")];
                        ok_json [("products", J_list [])]] in
  fst (search_products "melk" cached) = inr [] /\
  count_calls is_anonymous (trace (snd (search_products "melk" cached))) = 1 /\
  count_calls is_search (trace (snd (search_products "melk" cached))) = 2 /\
  fst (search_products "melk" uncached) = inr [] /\
  count_calls is_anonymous (trace (snd (search_products "melk" uncached))) = 2 /\
  count_calls is_search (trace (snd (search_products "melk" uncached))) = 2.
Proof. vm_compute. repeat split; reflexivity. Qed.

(** [test_search_products_token_refresh] with a second 401. *)
Lemma search_retry_once_witness :
  let s := set_anonymous (J_str "expired-tok")
             (init [R_http 401 None; ok_json [("access_token", J_str "new-tok")];
                    R_http 401 None]) in
  trace (snd (search_products "melk" s)) =
    [Ev_http (C_get_search (J_str "new-tok") "melk"); Ev_http C_post_anonymous;
     Ev_http (C_get_search (J_str "expired-tok") "melk")] /\
  fst (search_products "melk" s) = inl (HTTPStatusError 401).
Proof.
  intros s.
  destruct (proj1 (proj2 (search_retry_once "melk")) s (snd (search_products "melk" s))
              (fst (search_products "melk" s)) (J_str "expired-tok") (J_str "new-tok") None
              (ok_json [("access_token", J_str "new-tok")]) (R_http 401 None) []
              ltac:(reflexivity) ltac:(reflexivity) ltac:(reflexivity))
    as (Ht & _ & Hr).
  - exists 200%Z, [("access_token", J_str "new-tok")].
    split; [reflexivity|]. split; [lia | reflexivity].
  - vm_compute. reflexivity.
  - split; [exact Ht | exact (Hr None eq_refl)].
Defined.

(* ================================================================== *)
(** * The week of the meal plan *)

Lemma weekday_shift (today : Z) :
  let dum := ((7 - weekday today) mod 7)%Z in
  (0 <= dum < 7)%Z /\ weekday (today + dum) = 0%Z /\
  (weekday today = 0%Z -> dum = 0%Z) /\ (dum = 0%Z -> weekday today = 0%Z).
Proof.
  unfold weekday. simpl.
  pose proof (Z.div_mod (today + 6) 7 ltac:(lia)) as Hd.
  pose proof (Z.mod_pos_bound (today + 6) 7 ltac:(lia)) as Hb.
  set (w := ((today + 6) mod 7)%Z) in *. set (q := ((today + 6) / 7)%Z) in *.
  destruct (Z.eq_dec w 0%Z) as [H0|H0].
  - rewrite H0. replace ((7 - 0) mod 7)%Z with 0%Z by reflexivity.
    repeat split; try lia. rewrite Z.add_0_r. fold w. exact H0.
  - rewrite (Z.mod_small (7 - w) 7) by lia.
    repeat split; try lia.
    symmetry; apply (Z.mod_unique _ _ (q + 1)%Z 0%Z); lia.
Qed.

(** C9: [mealplan_page] and [fill_cart] compute the same week for every
    [today]: it starts on the next Monday, [today] itself on a Monday, and
    ends four days later on the Friday; past [date.max] both raise. *)
Theorem week_ranges_agree (today : Z) :
  mealplan_week today = fill_cart_week today /\
  let dum := ((7 - weekday today) mod 7)%Z in
  match fill_cart_week today with
  | Some (start, end_) =>
      start = (today + dum)%Z /\ weekday start = 0%Z /\ (0 <= start - today < 7)%Z /\
      (weekday today = 0%Z -> start = today) /\
      end_ = (start + 4)%Z /\ weekday end_ = 4%Z
  | None => (today + dum < 1 \/ date_max < today + dum + 4)%Z
  end.
Proof.
  destruct (weekday_shift today) as (Hr & Hw & H1 & H2). simpl in *.
  set (dum := ((7 - weekday today) mod 7)%Z) in *.
  unfold mealplan_week, fill_cart_week, add_days. fold dum.
  destruct (Z.eqb_spec (weekday today) 0) as [E|E].
  - rewrite (H1 E) in *. rewrite Z.add_0_r in *. simpl.
    split; [reflexivity|].
    destruct ((1 <=? today + 4)%Z && (today + 4 <=? date_max)%Z) eqn:C.
    + apply andb_true_iff in C as [C1 C2]. apply Z.leb_le in C1, C2.
      repeat split; try lia. unfold weekday in *.
      rewrite <- Z.add_assoc, (Z.add_comm 4), Z.add_assoc, <- Zplus_mod_idemp_l, E. reflexivity.
    + apply andb_false_iff in C as [C|C]; apply Z.leb_gt in C; lia.
  - rewrite andb_false_r. split; [reflexivity|].
    destruct ((1 <=? today + dum)%Z && (today + dum <=? date_max)%Z) eqn:C.
    + apply andb_true_iff in C as [C1 C2]. apply Z.leb_le in C1, C2.
      destruct ((1 <=? today + dum + 4)%Z && (today + dum + 4 <=? date_max)%Z) eqn:D.
      * repeat split; try lia. unfold weekday in *.
        rewrite <- Z.add_assoc, (Z.add_comm 4), Z.add_assoc, <- Zplus_mod_idemp_l, Hw. reflexivity.
      * apply andb_false_iff in D as [D|D]; apply Z.leb_gt in D; lia.
    + apply andb_false_iff in C as [C|C]; apply Z.leb_gt in C; lia.
Qed.

(* ================================================================== *)
(** * Cart aggregation *)

Lemma cart_add_keys (cart : list (Z * cart_line)) (pid : Z) (m : mapping_row) :
  map fst (cart_add cart pid m) =
  if bool_decide (pid ∈ map fst cart) then map fst cart else (map fst cart ++ [pid])%list.
Proof.
  induction cart as [|[k l] rest IH]; simpl; [reflexivity|].
  destruct (Z.eqb_spec k pid) as [->|Hne]; simpl.
  - rewrite bool_decide_true by (left). reflexivity.
  - rewrite IH. destruct (bool_decide (pid ∈ map fst rest)) eqn:B.
    + apply bool_decide_eq_true in B. rewrite bool_decide_true by (right; exact B). reflexivity.
    + apply bool_decide_eq_false in B. rewrite bool_decide_false; [reflexivity|].
      intros Hin. apply elem_of_cons in Hin as [Hin|Hin]; [congruence|tauto].
Qed.

Lemma cart_add_qty (cart : list (Z * cart_line)) (pid k : Z) (m : mapping_row) :
  cart_qty k (cart_add cart pid m) =
  (cart_qty k cart + if Z.eqb k pid then ah_quantity m else 0)%Z.
Proof.
  unfold cart_qty. induction cart as [|[k' l] rest IH]; simpl.
  - rewrite Z.eqb_sym. destruct (Z.eqb k pid); simpl; lia.
  - destruct (Z.eqb_spec k' pid) as [->|Hne]; simpl.
    + destruct (Z.eqb_spec pid k) as [->|Hne']; simpl.
      * rewrite Z.eqb_refl. reflexivity.
      * rewrite (proj2 (Z.eqb_neq k pid)) by congruence. lia.
    + destruct (Z.eqb_spec k' k) as [->|Hne']; simpl.
      * rewrite (proj2 (Z.eqb_neq k pid)) by congruence. lia.
      * exact IH.
Qed.

Lemma cart_add_ids (cart : list (Z * cart_line)) (pid : Z) (m : mapping_row) :
  Forall (fun kl => line_product_id (snd kl) = fst kl) cart ->
  Forall (fun kl => line_product_id (snd kl) = fst kl) (cart_add cart pid m).
Proof.
  induction cart as [|[k l] rest IH]; simpl; intros H.
  - constructor; [reflexivity | constructor].
  - inversion H as [|? ? Hk Hr]; subst.
    destruct (Z.eqb k pid); constructor; simpl in *; auto.
Qed.

Lemma nodup_lookup (cart : list (Z * cart_line)) (k : Z) (l : cart_line) :
  NoDup (map fst cart) -> (k, l) ∈ cart -> cart_lookup k cart = Some l.
Proof.
  induction cart as [|[k' l'] rest IH]; simpl; intros Hnd Hin.
  - apply elem_of_nil in Hin. contradiction.
  - apply NoDup_cons in Hnd as [Hn Hnd].
    apply elem_of_cons in Hin as [Heq|Hin].
    + simplify_eq. rewrite Z.eqb_refl. reflexivity.
    + destruct (Z.eqb_spec k' k) as [->|Hne]; [|auto].
      exfalso. apply Hn. apply list_elem_of_In, in_map_iff. exists (k, l).
      split; [reflexivity | apply list_elem_of_In; exact Hin].
Qed.

Lemma aggregate_invariant (rows : list mapping_row) (cart : list (Z * cart_line)) :
  NoDup (map fst cart) ->
  Forall (fun kl => line_product_id (snd kl) = fst kl) cart ->
  let cart' := fold_left agg_step rows cart in
  NoDup (map fst cart') /\
  Forall (fun kl => line_product_id (snd kl) = fst kl) cart' /\
  (forall k, k ∈ map fst cart' <->
             k ∈ map fst cart \/ exists m, m ∈ rows /\ ah_product_id m = Some k) /\
  (forall k, cart_qty k cart' = (cart_qty k cart + sum_qty k rows)%Z).
Proof.
  revert cart. induction rows as [|m rows IH]; simpl; intros cart Hnd Hid.
  - repeat split; auto.
    + intros [H|(m & Hm & _)]; [exact H | apply elem_of_nil in Hm; contradiction].
    + intros k. unfold sum_qty. simpl. lia.
  - assert (Hstep : NoDup (map fst (agg_step cart m)) /\
                    Forall (fun kl => line_product_id (snd kl) = fst kl) (agg_step cart m)).
    { unfold agg_step. destruct (ah_product_id m) as [pid|]; [|auto].
      split; [|apply cart_add_ids; exact Hid].
      rewrite cart_add_keys. case_bool_decide; [exact Hnd|].
      apply NoDup_app. repeat split; [exact Hnd| |apply NoDup_singleton].
      intros x Hx Hx'. apply list_elem_of_singleton in Hx'. subst. contradiction. }
    destruct Hstep as [Hnd' Hid'].
    destruct (IH _ Hnd' Hid') as (N & I & K & Q).
    repeat split; auto.
    + intros Hk. apply K in Hk as [Hk|(m' & Hm' & Hp)].
      * unfold agg_step in Hk. destruct (ah_product_id m) as [pid|] eqn:Hp; [|auto].
        rewrite cart_add_keys in Hk. case_bool_decide; [auto|].
        apply elem_of_app in Hk as [Hk|Hk]; [auto|].
        apply list_elem_of_singleton in Hk. subst. right. exists m. split; [left|exact Hp].
      * right. exists m'. split; [right; exact Hm' | exact Hp].
    + intros Hk. apply K. destruct Hk as [Hk|(m' & Hm' & Hp)].
      * left. unfold agg_step. destruct (ah_product_id m) as [pid|]; [|exact Hk].
        rewrite cart_add_keys. case_bool_decide; [exact Hk|].
        apply elem_of_app. left. exact Hk.
      * apply elem_of_cons in Hm' as [->|Hm'].
        -- left. unfold agg_step. rewrite Hp. rewrite cart_add_keys. case_bool_decide; [auto|].
           apply elem_of_app. right. apply list_elem_of_singleton. reflexivity.
        -- right. exists m'. auto.
    + intros k. rewrite Q. unfold agg_step, sum_qty. simpl.
      destruct (ah_product_id m) as [pid|] eqn:Hp.
      * rewrite cart_add_qty.
        destruct (Z.eqb_spec k pid) as [->|Hne].
        -- rewrite bool_decide_true by reflexivity. simpl. lia.
        -- rewrite bool_decide_false by congruence. lia.
      * rewrite bool_decide_false by congruence. lia.
Qed.

(** The cart built by [fill_cart]: one line per product id, its quantity
    the sum over the rows of that product. *)
Lemma aggregate_spec (rows : list mapping_row) :
  NoDup (map fst (aggregate rows)) /\
  (forall pid, pid ∈ map fst (aggregate rows) <->
               exists m, m ∈ rows /\ ah_product_id m = Some pid) /\
  (forall pid l, (pid, l) ∈ aggregate rows ->
                 line_product_id l = pid /\ line_quantity l = sum_qty pid rows).
Proof.
  destruct (aggregate_invariant rows [] ltac:(constructor) ltac:(constructor))
    as (N & I & K & Q).
  fold (aggregate rows) in N, I, K, Q.
  split; [exact N|]. split.
  - intros pid. rewrite K. split.
    + intros [Hk|Hk]; [apply elem_of_nil in Hk; contradiction | exact Hk].
    + intros Hk. right. exact Hk.
  - intros pid l Hin. rewrite Forall_forall in I. split; [exact (I _ Hin)|].
    specialize (Q pid). unfold cart_qty in Q.
    rewrite (nodup_lookup _ _ _ N Hin) in Q. simpl in Q. exact Q.
Qed.

Lemma bind_inv {A B} (m : M A) (k : A -> M B) (s s' : St) (r : exn + B) :
  bind m k s = (r, s') ->
  (exists e, m s = (inl e, s') /\ r = inl e) \/
  (exists a s1, m s = (inr a, s1) /\ k a s1 = (r, s')).
Proof.
  unfold bind. destruct (m s) as [[e|a] s1]; intros H.
  - left. injection H as <- <-. eauto.
  - right. eauto.
Qed.

Lemma get_mealplans_state (st en : Z) (s s' : St) (r : exn + json) :
  get_mealplans st en s = (r, s') ->
  s' = set_net (tail (script s)) (Ev_http (C_get_mealplans st en) :: trace s) s.
Proof.
  intros E. unfold get_mealplans in E.
  destruct s as [a u rt cb g ms sc tr]. simpl.
  destruct sc as [|[|c o] rest]; run_all; reflexivity.
Qed.

Lemma py_iter_pure (v : json) (s s' : St) (r : exn + list json) :
  py_iter v s = (r, s') -> s' = s.
Proof. intros E. unfold py_iter in E. destruct v; run_all; reflexivity. Qed.

Lemma plan_slug_pure (p : json) (s s' : St) (r : exn + json) :
  plan_slug p s = (r, s') -> s' = s.
Proof. intros E. unfold plan_slug in E. run_all; reflexivity. Qed.

Lemma collect_slugs_pure (ps : list json) (s s' : St) (r : exn + list json) :
  collect_slugs ps s = (r, s') -> s' = s.
Proof.
  revert r s'. induction ps as [|p ps IH]; simpl; intros r s' E.
  - unfold ret in E. congruence.
  - apply bind_inv in E as [(e & E & _)|(a & s1 & E1 & E)].
    + exact (plan_slug_pure _ _ _ _ E).
    + apply plan_slug_pure in E1. subst s1.
      apply bind_inv in E as [(e & E & _)|(b & s2 & E2 & E)].
      * exact (IH _ _ E).
      * apply IH in E2. subst s2. unfold ret in E. congruence.
Qed.

Lemma add_to_cart_ok_trace {D : Database} (items : list cart_line) (s s' : St) (j : json) :
  add_to_cart items s = (inr j, s') ->
  exists t rest, trace s' = Ev_http (C_patch_cart t (cart_items items)) :: rest.
Proof.
  intros E. unfold add_to_cart, refresh_user_token in E. run_all; eauto.
Qed.

Lemma fill_cart_ok_inv {D : Database} (today : Z) (s s' : St) (n : nat) :
  fill_cart today s = (inr (Fill_ok n), s') ->
  exists slugs s2 j, cart_rows slugs (mappings s) <> [] /\
    n = length (aggregate (cart_rows slugs (mappings s))) /\
    add_to_cart (map snd (aggregate (cart_rows slugs (mappings s)))) s2 = (inr j, s').
Proof.
  intros E. unfold fill_cart in E.
  destruct (fill_cart_week today) as [[st en]|]; [|unfold throw in E; congruence].
  apply bind_inv in E as [(e & _ & E)|(data & s1 & E1 & E)]; [congruence|].
  apply get_mealplans_state in E1.
  apply bind_inv in E as [(e & _ & E)|(plans & s2 & E2 & E)]; [congruence|].
  apply py_iter_pure in E2. subst s2.
  apply bind_inv in E as [(e & _ & E)|(slugs & s3 & E3 & E)]; [congruence|].
  apply collect_slugs_pure in E3. subst s3.
  destruct (Nat.eqb (length slugs) 0); [unfold ret in E; congruence|].
  unfold bind at 1, gets in E.
  assert (Hm : mappings s1 = mappings s) by (subst s1; reflexivity).
  rewrite Hm in E.
  destruct (Nat.eqb (length (cart_rows slugs (mappings s))) 0) eqn:Hz;
    [unfold ret in E; congruence|].
  unfold bind at 1, gets in E. unfold bind at 1, gets in E.
  destruct (negb (truthy (get_setting "ah_user_token" s1)) &&
            negb (truthy (get_setting "ah_refresh_token" s1))); [unfold ret in E; congruence|].
  unfold bind at 1 in E.
  destruct (set_user_tokens _ _ true s1) as [[e|[]] s4]; [congruence|].
  unfold catch, bind in E.
  destruct (add_to_cart _ s4) as [[e|j] s5] eqn:E5.
  - unfold ret in E. congruence.
  - unfold ret in E. injection E as <- <-.
    exists slugs, s4, j. repeat split; auto.
    intros Hnil. rewrite Hnil in Hz. discriminate.
Qed.


Lemma cart_items_keys (cart : list (Z * cart_line)) :
  Forall (fun kl => line_product_id (snd kl) = fst kl) cart ->
  map fst (cart_items (map snd cart)) = map fst cart.
Proof.
  induction cart as [|[k l] rest IH]; simpl; intros H; [reflexivity|].
  inversion H; subst. simpl in *. f_equal; auto.
Qed.

(** C1: when [fill_cart] reports [items_added = n], its last request is
    the cart PATCH whose body has one line per distinct product id of the
    selected rows, each with the sum of [ah_quantity] over the rows of that
    product, and [n] is the number of lines.  The example of the spec:
    {A: 100 x 2, B: 100 x 1, B: 200 x 1} gives [(100, 3); (200, 1)]. *)
Theorem fill_cart_cart_lines {D : Database} (today : Z) (s s' : St) (n : nat) :
  fill_cart today s = (inr (Fill_ok n), s') ->
  (exists slugs,
    let rows := cart_rows slugs (mappings s) in
    let body := cart_items (map snd (aggregate rows)) in
    rows <> [] /\ n = length body /\
    (exists t rest, trace s' = Ev_http (C_patch_cart t body) :: rest) /\
    NoDup (map fst body) /\
    (forall pid, pid ∈ map fst body <-> exists m, m ∈ rows /\ ah_product_id m = Some pid) /\
    (forall pid q, (pid, q) ∈ body -> q = sum_qty pid rows)) /\
  cart_items (map snd (aggregate example_rows)) = [(100, 3); (200, 1)]%Z.
Proof.
  intros E. split; [|reflexivity].
  destruct (fill_cart_ok_inv _ _ _ _ E) as (slugs & s2 & j & Hne & Hn & Ha).
  exists slugs. simpl.
  set (rows := cart_rows slugs (mappings s)) in *.
  destruct (aggregate_spec rows) as (N & K & L).
  destruct (aggregate_invariant rows [] ltac:(constructor) ltac:(constructor))
    as (_ & I & _ & _).
  change (fold_left agg_step rows []) with (aggregate rows) in I.
  pose proof (cart_items_keys _ I) as Hk.
  split; [exact Hne|]. split.
  { rewrite Hn. unfold cart_items. rewrite !length_map. reflexivity. }
  split; [exact (add_to_cart_ok_trace _ _ _ _ Ha)|].
  rewrite Hk. split; [exact N|]. split; [exact K|].
  intros pid q Hin. unfold cart_items in Hin. rewrite map_map in Hin.
  apply list_elem_of_In, in_map_iff in Hin as ([k l] & Heq & Hin).
  apply list_elem_of_In in Hin. simpl in Heq.
  destruct (L _ _ Hin) as [Hid Hq]. simplify_eq. exact Hq.
Qed.


Lemma fill_cart_cart_lines_witness :
  fill_cart (D:=ex_db) 739000 ex_fill_state = (inr (Fill_ok 2), snd (fill_cart (D:=ex_db) 739000 ex_fill_state)) /\
  (exists slugs,
    let rows := cart_rows slugs (mappings ex_fill_state) in
    let body := cart_items (map snd (aggregate rows)) in
    rows <> [] /\ 2%nat = length body /\
    (exists t rest, trace (snd (fill_cart (D:=ex_db) 739000 ex_fill_state)) = Ev_http (C_patch_cart t body) :: rest) /\
    NoDup (map fst body) /\
    (forall pid, pid ∈ map fst body <-> exists m, m ∈ rows /\ ah_product_id m = Some pid) /\
    (forall pid q, (pid, q) ∈ body -> q = sum_qty pid rows)) /\
  cart_items (map snd (aggregate example_rows)) = [(100, 3); (200, 1)]%Z.
Proof.
  assert (E : fill_cart (D:=ex_db) 739000 ex_fill_state = (inr (Fill_ok 2), snd (fill_cart (D:=ex_db) 739000 ex_fill_state)))
    by (vm_compute; reflexivity).
  split; [exact E | exact (fill_cart_cart_lines _ _ _ _ E)].
Defined.

(* ================================================================== *)
(** * The no-token precondition *)

Lemma add_to_cart_no_token {D : Database} (items : list cart_line) (s : St) :
  truthy (user_token s) = false ->
  add_to_cart items s = (inl (ValueError msg_no_token), s).
Proof. intros H. unfold add_to_cart, bind, gets. rewrite H. reflexivity. Qed.

(** C4 (amended): [add_to_cart] without an access token raises the
    no-token error with the state untouched, so no request is sent.  With
    neither setting, [fill_cart] sends no request to the retailer: it
    stops with an exception, the no-recipes, no-mapped or no-token error,
    after at most the one Mealie meal-plan request that comes first. *)
Theorem no_token_no_retailer_call {D : Database} (today : Z) (s s' : St) (res : exn + fill_result) :
  truthy (get_setting "ah_user_token" s) = false ->
  truthy (get_setting "ah_refresh_token" s) = false ->
  fill_cart today s = (res, s') ->
  count_calls is_retailer (trace s') = count_calls is_retailer (trace s) /\
  (s' = s \/ exists st en, fill_cart_week today = Some (st, en) /\
     s' = set_net (tail (script s)) (Ev_http (C_get_mealplans st en) :: trace s) s) /\
  match res with
  | inl _ => True
  | inr r => r = Fill_err msg_no_recipes \/ r = Fill_err msg_no_mapped \/ r = Fill_err msg_no_token
  end /\
  (forall items s0, truthy (user_token s0) = false ->
     add_to_cart items s0 = (inl (ValueError msg_no_token), s0)).
Proof.
  intros Hu Hr E.
  assert (Hstate : (s' = s \/ exists st en, fill_cart_week today = Some (st, en) /\
     s' = set_net (tail (script s)) (Ev_http (C_get_mealplans st en) :: trace s) s) /\
    match res with
    | inl _ => True
    | inr r => r = Fill_err msg_no_recipes \/ r = Fill_err msg_no_mapped \/ r = Fill_err msg_no_token
    end).
  { unfold fill_cart in E.
    destruct (fill_cart_week today) as [[st en]|] eqn:W;
      [|unfold throw in E; injection E as <- <-; auto].
    set (s1 := set_net (tail (script s)) (Ev_http (C_get_mealplans st en) :: trace s) s).
    apply bind_inv in E as [(e & E1 & ->)|(data & s2 & E1 & E)];
      apply get_mealplans_state in E1; [subst s'; split; [right; exists st, en; split; reflexivity|exact I]|]. subst s2. fold s1 in E.
    apply bind_inv in E as [(e & E2 & ->)|(plans & s3 & E2 & E)];
      apply py_iter_pure in E2; [subst; split; [right; exists st, en; split; reflexivity|exact I]|]. subst s3.
    apply bind_inv in E as [(e & E3 & ->)|(slugs & s4 & E3 & E)];
      apply collect_slugs_pure in E3; [subst; split; [right; exists st, en; split; reflexivity|exact I]|]. subst s4.
    destruct (Nat.eqb (length slugs) 0);
      [unfold ret in E; injection E as <- <-; split; [right; exists st, en; split; reflexivity|auto]|].
    unfold bind at 1, gets in E.
    destruct (Nat.eqb (length (cart_rows slugs (mappings s1))) 0);
      [unfold ret in E; injection E as <- <-; split; [right; exists st, en; split; reflexivity|auto]|].
    unfold bind at 1, gets in E. unfold bind at 1, gets in E.
    assert (Hg : forall k, get_setting k s1 = get_setting k s) by reflexivity.
    rewrite !Hg, Hu, Hr in E. simpl in E. unfold ret in E.
    injection E as <- <-. split; [right; exists st, en; split; reflexivity|auto]. }
  destruct Hstate as [Hs Hres]. split; [|split; [exact Hs | split; [exact Hres|]]].
  - destruct Hs as [->|(st & en & _ & ->)]; [reflexivity|].
    unfold count_calls. reflexivity.
  - intros items s0 H0. exact (add_to_cart_no_token items s0 H0).
Qed.

(** With no token configured, [fill_cart] still asks Mealie for the week
    before it answers with the missing-token error. *)
Lemma fill_cart_no_token_mealie_request :
  fst (fill_cart (D:=ex_db) 739000 ex_no_token_state) = inr (Fill_err msg_no_token) /\
  trace (snd (fill_cart (D:=ex_db) 739000 ex_no_token_state)) =
    [Ev_http (C_get_mealplans 739005 739009)] /\
  trace ex_no_token_state = [].
Proof. vm_compute. split; [reflexivity | split; reflexivity]. Qed.

Lemma no_token_no_retailer_call_witness :
  truthy (get_setting "ah_user_token" ex_no_token_state) = false /\
  truthy (get_setting "ah_refresh_token" ex_no_token_state) = false /\
  count_calls is_retailer (trace (snd (fill_cart (D:=ex_db) 739000 ex_no_token_state))) =
  count_calls is_retailer (trace ex_no_token_state).
Proof.
  assert (Hu : truthy (get_setting "ah_user_token" ex_no_token_state) = false) by reflexivity.
  assert (Hr : truthy (get_setting "ah_refresh_token" ex_no_token_state) = false) by reflexivity.
  assert (E : fill_cart (D:=ex_db) 739000 ex_no_token_state =
              (inr (Fill_err msg_no_token), snd (fill_cart (D:=ex_db) 739000 ex_no_token_state)))
    by (vm_compute; reflexivity).
  split; [exact Hu|]. split; [exact Hr|].
  exact (proj1 (no_token_no_retailer_call _ _ _ _ Hu Hr E)).
Defined.

(* ================================================================== *)
(** * Linking the retailer account *)

(** A rendering of the settings page: the health check, then
    [get_login_url] raises; nothing is written. *)
Lemma render_settings_run (err : login_error) (success : bool) (s : St) :
  render_settings err success s =
    (inl AttributeError, set_net (tail (script s)) (Ev_http C_get_about :: trace s) s).
Proof.
  unfold render_settings, health_check, get_login_url. autounfold with run_unfold. simpl.
  destruct (script s) as [|[|code body] rest]; reflexivity.
Qed.

(** C5 (code bug): for a non-empty callback URL or code whose exchange
    answers a token pair the database keeps, [ah_code_exchange] stores the
    access and refresh token under [ah_user_token] and [ah_refresh_token],
    but no success is reported: rendering the success page raises
    [AttributeError] at [ah_client.get_login_url()], the handler renders
    the error page, which raises again, and the request ends with that
    exception after two health checks. *)
Theorem code_exchange_persists_no_success {D : Database} (code_param : string -> option string)
    (callback_url : string) (a r a' r' : json) (s s' : St) (rr : reply) (rest : list reply)
    (res : exn + settings_view) :
  py_strip callback_url <> "" ->
  script s = rr :: rest -> token_pair_reply rr a r ->
  db_cell a = Some a' -> db_cell r = Some r' ->
  ah_code_exchange code_param callback_url s = (res, s') ->
  get_setting "ah_user_token" s' = a' /\ get_setting "ah_refresh_token" s' = r' /\
  res = inl AttributeError /\
  (exists c, trace s' = Ev_http C_get_about :: Ev_http C_get_about
                        :: Ev_http (C_post_code c) :: trace s).
Proof.
  intros Hne Hsc (code & kvs & -> & Hc & Ha & Hr) Hda Hdr E.
  unfold ah_code_exchange in E.
  rewrite (proj2 (String.eqb_neq _ _) Hne) in E.
  unfold exchange_code in E.
  destruct s as [an u rt cb g ms sc tr]. simpl in Hsc. subst sc.
  autounfold with run_unfold in E. cbn -[render_settings db_cell] in E.
  rewrite (leb_ltb_2xx _ Hc) in E. cbn -[render_settings db_cell] in E.
  rewrite Ha in E. cbn -[render_settings db_cell] in E.
  rewrite Hda in E. cbn -[render_settings db_cell] in E.
  rewrite Hr in E. cbn -[render_settings db_cell] in E.
  rewrite Hdr in E. cbn -[render_settings db_cell] in E.
  rewrite render_settings_run in E. cbn -[render_settings] in E.
  rewrite render_settings_run in E. simpl in E.
  injection E as <- <-. simpl.
  unfold get_setting. simpl.
  rewrite lookup_insert_eq, lookup_insert_ne by discriminate. rewrite lookup_insert_eq.
  split; [reflexivity|]. split; [reflexivity|]. split; [reflexivity|].
  eexists. destruct rest as [|x rest]; [reflexivity|]. destruct rest; reflexivity.
Qed.

Lemma code_exchange_persists_no_success_witness :
  let s := init [ok_json [("access_token", J_str "at-1"); ("refresh_token", J_str "rt-1")]] in
  get_setting "ah_user_token" (snd (ah_code_exchange (D:=ex_db) (fun _ => None) " code-123 " s)) = J_str "at-1" /\
  get_setting "ah_refresh_token" (snd (ah_code_exchange (D:=ex_db) (fun _ => None) " code-123 " s)) = J_str "rt-1" /\
  fst (ah_code_exchange (D:=ex_db) (fun _ => None) " code-123 " s) = inl AttributeError.
Proof.
  intros s.
  destruct (code_exchange_persists_no_success (D:=ex_db) (fun _ => None) " code-123 "
              (J_str "at-1") (J_str "rt-1") (J_str "at-1") (J_str "rt-1") s
              (snd (ah_code_exchange (D:=ex_db) (fun _ => None) " code-123 " s))
              (ok_json [("access_token", J_str "at-1"); ("refresh_token", J_str "rt-1")]) []
              (fst (ah_code_exchange (D:=ex_db) (fun _ => None) " code-123 " s)))
    as (Hu & Hr & Hres & _).
  - vm_compute. discriminate.
  - reflexivity.
  - exists 200%Z, [("access_token", J_str "at-1"); ("refresh_token", J_str "rt-1")].
    split; [reflexivity|]. split; [lia|]. split; reflexivity.
  - reflexivity.
  - reflexivity.
  - vm_compute. reflexivity.
  - split; [exact Hu|]. split; [exact Hr | exact Hres].
Defined.

(* ================================================================== *)
(** * Mapping suggestions *)

Lemma sugg_lt_asym (x y : suggestion) : sugg_lt x y = true -> sugg_lt y x = false.
Proof.
  unfold sugg_lt. intros H.
  apply orb_true_iff in H as [H|H].
  - apply negb_true_iff in H.
    assert (H' : ~ (sg_score x <= sg_score y)%Q) by (intros Hc; apply Qle_bool_iff in Hc; congruence).
    apply Qnot_le_lt in H'. clear H. rename H' into H.
    assert (Hle : (sg_score y <= sg_score x)%Q) by (apply Qlt_le_weak; exact H).
    apply orb_false_iff. split.
    + apply negb_false_iff, Qle_bool_iff. exact Hle.
    + destruct (Qeq_bool (sg_score y) (sg_score x)) eqn:E; [|reflexivity].
      apply Qeq_bool_iff in E. exfalso. rewrite E in H. exact (Qlt_irrefl _ H).
  - apply andb_true_iff in H as [H Hy]. apply andb_true_iff in H as [Hq Hx].
    apply Qeq_bool_iff in Hq. apply negb_true_iff in Hy.
    apply orb_false_iff. split.
    + apply negb_false_iff, Qle_bool_iff. rewrite Hq. apply Qle_refl.
    + rewrite Hy. rewrite andb_false_r. reflexivity.
Qed.

Lemma sugg_le_ordered (x y : suggestion) : sugg_le x y -> sugg_ordered x y.
Proof.
  unfold sugg_le, sugg_lt, sugg_ordered. intros H.
  apply orb_false_iff in H as [H1 H2].
  apply negb_false_iff, Qle_bool_iff in H1. split; [exact H1|].
  intros Hq Hy. destruct (is_mapped_sugg x) eqn:Hx; [reflexivity|].
  rewrite Hy in H2. simpl in H2.
  assert (Hq' : Qeq_bool (sg_score y) (sg_score x) = true)
    by (apply Qeq_bool_iff; symmetry; exact Hq).
  rewrite Hq' in H2. discriminate.
Qed.

Lemma sugg_insert_sorted (x : suggestion) (l : list suggestion) :
  Sorted sugg_le l -> Sorted sugg_le (sugg_insert x l).
Proof.
  induction l as [|y r IH]; simpl; intros Hs.
  - repeat constructor.
  - destruct (sugg_lt x y) eqn:Hxy.
    + constructor; [exact Hs|]. constructor. unfold sugg_le. exact (sugg_lt_asym _ _ Hxy).
    + apply Sorted_inv in Hs as [Hr Hh]. constructor; [exact (IH Hr)|].
      destruct r as [|z r']; simpl.
      * constructor. exact Hxy.
      * destruct (sugg_lt x z); constructor; [exact Hxy|].
        inversion Hh; assumption.
Qed.

Lemma sugg_insert_in (x z : suggestion) (l : list suggestion) :
  In z (sugg_insert x l) -> z = x \/ In z l.
Proof.
  induction l as [|y r IH]; simpl.
  - intros [H|[]]. auto.
  - destruct (sugg_lt x y); simpl.
    + intros [H|[H|H]]; auto.
    + intros [H|H]; [auto|]. apply IH in H as [H|H]; auto.
Qed.

Lemma sort_suggestions_spec (l : list suggestion) :
  Sorted sugg_le (sort_suggestions l) /\ (forall z, In z (sort_suggestions l) -> In z l).
Proof.
  unfold sort_suggestions.
  enough (G : forall acc, Sorted sugg_le acc ->
            Sorted sugg_le (fold_left (fun acc x => sugg_insert x acc) l acc) /\
            (forall z, In z (fold_left (fun acc x => sugg_insert x acc) l acc) -> In z l \/ In z acc)).
  { destruct (G [] ltac:(constructor)) as [G1 G2]. split; [exact G1|].
    intros z Hz. apply G2 in Hz as [Hz|[]]. exact Hz. }
  induction l as [|x l IH]; simpl; intros acc Hs.
  - split; [exact Hs | auto].
  - destruct (IH (sugg_insert x acc) (sugg_insert_sorted x acc Hs)) as [G1 G2].
    split; [exact G1|]. intros z Hz. apply G2 in Hz as [Hz|Hz]; [auto|].
    apply sugg_insert_in in Hz as [Hz|Hz]; auto.
Qed.

Lemma sorted_firstn {A} (R : A -> A -> Prop) (n : nat) (l : list A) :
  Sorted R l -> Sorted R (firstn n l).
Proof.
  revert n. induction l as [|x r IH]; intros n Hs.
  - rewrite firstn_nil. constructor.
  - destruct n as [|n]; simpl; [constructor|].
    apply Sorted_inv in Hs as [Hr Hh]. constructor; [exact (IH n Hr)|].
    destruct r as [|y r']; destruct n as [|n]; simpl; constructor.
    inversion Hh; assumption.
Qed.

Lemma in_firstn {A} (n : nat) (l : list A) (x : A) : In x (firstn n l) -> In x l.
Proof.
  revert n. induction l as [|y r IH]; intros [|n]; simpl; try tauto.
  intros [H|H]; [auto | right; exact (IH n H)].
Qed.

Lemma sorted_impl {A} (R R' : A -> A -> Prop) (l : list A) :
  (forall x y, R x y -> R' x y) -> Sorted R l -> Sorted R' l.
Proof.
  intros HR. induction 1 as [|x l Hs IH Hh]; constructor; [exact IH|].
  destruct Hh; constructor; auto.
Qed.

Lemma score_loop_spec (kws : list string) (seen : list (option Z)) (l : list mapping_row)
    (sg : suggestion) :
  In sg (score_loop kws seen l) ->
  exists m, In m l /\
    sg = suggestion_of m (score_of (matched_keywords kws m) (length kws)) /\
    (0 < matched_keywords kws m)%nat /\
    (1 # 2 <= score_of (matched_keywords kws m) (length kws))%Q.
Proof.
  revert seen. induction l as [|m l IH]; simpl; intros seen H; [contradiction|].
  destruct (Nat.eqb_spec (matched_keywords kws m) 0) as [H0|H0].
  { apply IH in H as (m' & ? & ?). eauto. }
  destruct (String.eqb (status m) "mapped" && bool_decide (ah_product_id m ∈ seen)).
  { apply IH in H as (m' & ? & ?). eauto. }
  destruct (String.eqb (status m) "skipped" && bool_decide (None ∈ seen)).
  { apply IH in H as (m' & ? & ?). eauto. }
  destruct (Qle_bool (1 # 2) (score_of (matched_keywords kws m) (length kws))) eqn:Hq.
  - destruct H as [<-|H].
    + exists m. split; [auto|]. split; [reflexivity|]. split; [lia|].
      apply Qle_bool_iff. exact Hq.
    + apply IH in H as (m' & ? & ?). eauto.
  - apply IH in H as (m' & ? & ?). eauto.
Qed.

(** C6: the suggestions are empty when the cleaned text has fewer than
    two characters or no keyword; otherwise there are at most five, each
    from a mapped or skipped row of another recipe with at least one
    matching keyword and score matched/total of at least 1/2, sorted by
    score descending with mapped before skipped at equal score. *)
Theorem suggestions_spec (strip_quantities : string -> string)
    (ingredient_display_q recipe_slug_q : string) (rows : list mapping_row) :
  let cleaned := cleaned_of strip_quantities ingredient_display_q in
  let kws := keywords_of cleaned in
  let res := suggestions_for strip_quantities ingredient_display_q recipe_slug_q rows in
  ((py_len cleaned < 2)%nat \/ kws = [] -> res = []) /\
  (length res <= 5)%nat /\
  (forall sg, In sg res ->
     exists m, In m rows /\ recipe_slug m <> recipe_slug_q /\
       (status m = "mapped" \/ status m = "skipped") /\
       sg = suggestion_of m (score_of (matched_keywords kws m) (length kws)) /\
       (0 < matched_keywords kws m)%nat /\
       (1 # 2 <= score_of (matched_keywords kws m) (length kws))%Q) /\
  Sorted sugg_ordered res.
Proof.
  intros cleaned kws res. subst res. unfold suggestions_for. fold cleaned. fold kws.
  destruct (Nat.ltb_spec (py_len cleaned) 2) as [Hl|Hl].
  { split; [auto|]. split; [simpl; lia|]. split; [intros sg []|constructor]. }
  destruct (Nat.eqb_spec (length kws) 0) as [Hk|Hk].
  { split; [auto|]. split; [simpl; lia|]. split; [intros sg []|constructor]. }
  destruct (sort_suggestions_spec (score_loop kws [] (candidate_rows recipe_slug_q rows)))
    as [Hs Hin].
  split.
  { intros [H|H]; [lia|]. rewrite H in Hk. simpl in Hk. lia. }
  split; [rewrite length_firstn; lia|].
  split.
  - intros sg H. apply in_firstn in H. apply Hin, score_loop_spec in H as (m & Hm & Hrest).
    unfold candidate_rows in Hm. apply filter_In in Hm as [Hm Hc].
    apply andb_true_iff in Hc as [Hc1 Hc2].
    apply negb_true_iff, String.eqb_neq in Hc1.
    exists m. split; [exact Hm|]. split; [exact Hc1|]. split; [|exact Hrest].
    apply orb_true_iff in Hc2 as [H2|H2]; apply String.eqb_eq in H2; auto.
  - apply (sorted_impl sugg_le); [exact sugg_le_ordered|].
    apply sorted_firstn. exact Hs.
Qed.

(** The suggestions for "1 rode ui" in recipe "soep" over [ex_sugg_rows]
    with quantities already stripped. *)
Lemma suggestions_spec_witness :
  suggestions_for (fun d => d) "rode ui" "soep" ex_sugg_rows =
    [suggestion_of (nth 0 ex_sugg_rows (ex_row 0 "" "" 0 0)) (2 # 2);
     suggestion_of (nth 1 ex_sugg_rows (ex_row 0 "" "" 0 0)) (2 # 2)] /\
  (length (suggestions_for (fun d => d) "rode ui" "soep" ex_sugg_rows) <= 5)%nat.
Proof.
  split; [vm_compute; reflexivity|].
  exact (proj1 (proj2 (suggestions_spec (fun d => d) "rode ui" "soep" ex_sugg_rows))).
Defined.

(* ================================================================== *)
(** * The mapping store *)

Lemma has_key_spec (slug ref : string) (m : mapping_row) :
  has_key slug ref m = true <-> row_key m = (slug, ref).
Proof.
  unfold has_key, row_key. rewrite andb_true_iff, !String.eqb_eq.
  split; [intros [-> ->]; reflexivity | intros H; injection H as -> ->; auto].
Qed.




Lemma nodup_map_filter {A B} (g : A -> B) (p : A -> bool) (l : list A) :
  NoDup (map g l) -> NoDup (map g (List.filter p l)).
Proof.
  induction l as [|x l IH]; simpl; intros Hnd; [constructor|].
  apply NoDup_cons in Hnd as [Hn Hnd].
  destruct (p x); simpl; [|auto].
  constructor; [|auto]. intros Hin. apply Hn.
  apply list_elem_of_In, in_map_iff in Hin as (y & Hy & Hin).
  apply filter_In in Hin as [Hin _].
  apply list_elem_of_In, in_map_iff. eauto.
Qed.






(* ================================================================== *)
(** * Product snapshot of a mapping *)



(* ------------------------------------------------------------------ *)
(** ** Further properties of the code *)

(** X1: a cached anonymous token (any truthy value) is returned as it
    is, with no request and no change of state. *)
Theorem anonymous_token_cached (s : St) (t : json) :
  anonymous_token s = t -> truthy t = true -> get_anonymous_token s = (inr t, s).
Proof.
  intros H Ht. unfold get_anonymous_token, gets, bind. rewrite H, Ht.
  reflexivity.
Qed.

Lemma anonymous_token_cached_witness :
  get_anonymous_token (set_anonymous (J_str "tok") (init [])) =
    (inr (J_str "tok"), set_anonymous (J_str "tok") (init [])).
Proof. apply anonymous_token_cached; reflexivity. Defined.

(** X2: without a stored anonymous token,
    [_get_anonymous_token] sends the one anonymous-token request, stores
    the truthy token of a 2xx answer and returns it; a second call then
    returns the same token without a request. *)
Theorem anonymous_token_fetched_once (s : St) (rr : reply) (rest : list reply) (t : json) :
  truthy (anonymous_token s) = false -> script s = rr :: rest -> anon_reply rr t ->
  truthy t = true ->
  exists s1, get_anonymous_token s = (inr t, s1) /\ get_anonymous_token s1 = (inr t, s1) /\
    anonymous_token s1 = t /\ script s1 = rest /\
    trace s1 = Ev_http C_post_anonymous :: trace s.
Proof.
  intros Hp Hs (code & kvs & -> & Hc & Hk) Ht.
  eexists. split; [|split; [|repeat split]].
  - unfold get_anonymous_token. autounfold with run_unfold. simpl. rewrite Hp, Hs.
    cbn [status_code]. rewrite (leb_ltb_2xx code Hc). rewrite Hk.
    reflexivity.
  - unfold get_anonymous_token, gets, bind. cbn [anonymous_token]. rewrite Ht.
    reflexivity.
  - reflexivity.
  - reflexivity.
  - reflexivity.
Qed.

(** X3: [_refresh_user_token] never raises: it returns
    a boolean, keeps the anonymous token and the mapping table, and sends
    at most one refresh request, followed at most by persisting a new
    token pair. *)
Theorem refresh_never_raises {D : Database} (s : St) :
  exists b s', refresh_user_token s = (inr b, s') /\
    anonymous_token s' = anonymous_token s /\ mappings s' = mappings s /\
    (trace s' = trace s \/
     (exists rt, trace s' = Ev_http (C_post_refresh rt) :: trace s) \/
     (exists rt a r, trace s' = Ev_persist a r :: Ev_http (C_post_refresh rt) :: trace s)).
Proof.
  destruct (refresh_user_token s) as [r s'] eqn:E.
  pose proof E as E'. unfold refresh_user_token in E'. run_all.
  all: do 2 eexists; split; [reflexivity|]; simpl.
  all: split; [reflexivity|]; split; [reflexivity|].
  all: first [ left; reflexivity
             | right; left; eexists; reflexivity
             | right; right; do 3 eexists; reflexivity ].
Qed.

Lemma anonymous_token_fetched_once_witness :
  truthy (anonymous_token (init [ok_json [("access_token", J_str "anon")]])) = false /\
  get_anonymous_token (init [ok_json [("access_token", J_str "anon")]]) =
    (inr (J_str "anon"), snd (get_anonymous_token (init [ok_json [("access_token", J_str "anon")]]))).
Proof.
  destruct (anonymous_token_fetched_once (init [ok_json [("access_token", J_str "anon")]])
              (ok_json [("access_token", J_str "anon")]) [] (J_str "anon"))
    as (s1 & E & _); [reflexivity | reflexivity | | reflexivity |].
  - exists 200%Z, [("access_token", J_str "anon")]. split; [reflexivity|]. split; [lia|reflexivity].
  - split; [reflexivity|]. rewrite E. reflexivity.
Defined.

(** X4: with a truthy user token and an answer other
    than 401, [add_to_cart] sends exactly one PATCH of the cart lines with
    that token and refreshes nothing: a 2xx answer gives its decoded body
    ([JSONDecodeError] without one), any other status raises
    [HTTPStatusError] with that status. *)
Theorem add_to_cart_no_401 {D : Database} (items : list cart_line) (s : St) (u : json)
    (code : Z) (body : option json) (rest : list reply) :
  user_token s = u -> truthy u = true -> script s = R_http code body :: rest -> code <> 401%Z ->
  exists s', add_to_cart items s =
    (if (200 <=? code)%Z && (code <? 300)%Z
     then match body with Some j => inr j | None => inl JSONDecodeError end
     else inl (HTTPStatusError code), s') /\
    s' = set_net rest (Ev_http (C_patch_cart u (cart_items items)) :: trace s) s.
Proof.
  intros Hu Hne Hs H401.
  exists (set_net rest (Ev_http (C_patch_cart u (cart_items items)) :: trace s) s).
  split; [|reflexivity].
  unfold add_to_cart. autounfold with run_unfold. cbn beta iota.
  subst u. rewrite Hne. simpl. rewrite Hs. unfold status_code. simpl.
  destruct (Z.eqb_spec code 401) as [|_]; [contradiction|].
  destruct ((200 <=? code)%Z && (code <? 300)%Z); [destruct body|]; reflexivity.
Qed.

Lemma add_to_cart_no_401_witness :
  add_to_cart (D:=ex_db) [MkLine 1 2 None] (set_user (J_str "u") (init [ok_json []])) =
    (inr (J_obj []), set_net [] [Ev_http (C_patch_cart (J_str "u") [(1, 2)%Z])]
                       (set_user (J_str "u") (init [ok_json []]))).
Proof.
  destruct (add_to_cart_no_401 (D:=ex_db) [MkLine 1 2 None]
              (set_user (J_str "u") (init [ok_json []]))
              (J_str "u") 200 (Some (J_obj [])) []) as (s' & E & ->);
    [reflexivity | reflexivity | reflexivity | discriminate |].
  exact E.
Defined.

(** X5: [health_check] never raises: it sends one
    request to the about endpoint and returns [True] exactly when the
    answer has status 200; a transport error gives [False]. *)
Theorem health_check_total (s : St) :
  health_check s =
    (inr (match script s with R_http code _ :: _ => Z.eqb code 200 | _ => false end),
     set_net (tail (script s)) (Ev_http C_get_about :: trace s) s).
Proof.
  unfold health_check. autounfold with run_unfold. simpl.
  destruct (script s) as [|[|code body] rest]; reflexivity.
Qed.

(** X6: [_get_setting] after [_set_setting] on the
    same key returns what the database kept of the value written (a [str]
    as it is); the other keys, the mapping table and the network are
    untouched.  A value the database refuses raises, and nothing
    changes. *)
Theorem set_setting_get_setting {D : Database} (k : string) (v : json) (s : St) :
  match db_cell v with
  | Some c =>
      exists s', set_setting k v s = (inr tt, s') /\ get_setting k s' = c /\
        (forall k', k' <> k -> get_setting k' s' = get_setting k' s) /\
        mappings s' = mappings s /\ script s' = script s /\ trace s' = trace s
  | None => set_setting k v s = (inl DatabaseError, s)
  end /\
  (forall x, db_cell (J_str x) = Some (J_str x)).
Proof.
  split; [|reflexivity].
  unfold set_setting. destruct (db_cell v) as [c|]; [|reflexivity].
  eexists. split; [reflexivity|]. unfold get_setting; simpl.
  rewrite lookup_insert_eq. split; [reflexivity|].
  split; [|repeat split].
  intros k' Hk. rewrite lookup_insert_ne by congruence. reflexivity.
Qed.

(** X7: [_render_settings], and so the settings page [settings_page]
    that returns it, never renders: after its three reads and the
    health-check request, [ah_client.get_login_url()] raises
    [AttributeError], as [AHClient] has no such method.  Nothing is
    written, and the health check is the only request. *)
Theorem render_settings_attribute_error (err : login_error) (success : bool) (s : St) :
  render_settings err success s =
    (inl AttributeError, set_net (tail (script s)) (Ev_http C_get_about :: trace s) s).
Proof.
  unfold render_settings, health_check, get_login_url. autounfold with run_unfold. simpl.
  destruct (script s) as [|[|code body] rest]; reflexivity.
Qed.

(** X8: [ah_code_exchange] never answers with a page: every request ends
    in an exception, [AttributeError] from rendering the settings page or
    the database error of a refused write.  It never touches the client:
    the three tokens, the callback flag and the mapping table are as
    before (the exchanged pair is only written to the settings). *)
Theorem code_exchange_never_renders {D : Database} (code_param : string -> option string)
    (callback_url : string) (s : St) :
  exists e s', ah_code_exchange code_param callback_url s = (inl e, s') /\
    (e = AttributeError \/ e = DatabaseError) /\
    anonymous_token s' = anonymous_token s /\ user_token s' = user_token s /\
    user_refresh_token s' = user_refresh_token s /\
    on_tokens_updated s' = on_tokens_updated s /\ mappings s' = mappings s.
Proof.
  destruct (ah_code_exchange code_param callback_url s) as [r s'] eqn:E.
  pose proof E as E'.
  unfold ah_code_exchange, exchange_code, render_settings, health_check, get_login_url in E'.
  run_all.
  all: do 2 eexists; split; [reflexivity|]; simpl.
  all: split; [first [left; reflexivity | right; reflexivity]|].
  all: repeat split.
Qed.

(** X9: [ah_code_exchange] with a blank callback URL
    sends no request to the retailer: it renders the settings page with
    the paste-URL error, which raises [AttributeError] after the health
    check. *)
Theorem code_exchange_blank {D : Database} (code_param : string -> option string)
    (callback_url : string) (s : St) :
  py_strip callback_url = "" ->
  ah_code_exchange code_param callback_url s =
    (inl AttributeError, set_net (tail (script s)) (Ev_http C_get_about :: trace s) s).
Proof.
  intros H. unfold ah_code_exchange. cbv zeta. rewrite H. cbn -[render_settings].
  exact (render_settings_run Err_paste_url false s).
Qed.

Lemma code_exchange_blank_witness :
  ah_code_exchange (D:=ex_db) (fun _ => None) "  " (init []) =
    (inl AttributeError, set_net [] [Ev_http C_get_about] (init [])).
Proof.
  exact (code_exchange_blank (D:=ex_db) (fun _ => None) "  " (init [])
           ltac:(vm_compute; reflexivity)).
Defined.

(** X10: when the retailer answers the code exchange
    with a status outside 2xx, the handler renders the invalid-code
    error, which raises [AttributeError] after the health check; neither
    the settings nor the client tokens change. *)
Theorem code_exchange_rejected {D : Database} (code_param : string -> option string)
    (callback_url : string) (s : St) (code : Z) (body : option json) (rest : list reply) :
  py_strip callback_url <> "" -> script s = R_http code body :: rest ->
  ~ (200 <= code < 300)%Z ->
  exists s', ah_code_exchange code_param callback_url s = (inl AttributeError, s') /\
    settings s' = settings s /\ user_token s' = user_token s /\
    user_refresh_token s' = user_refresh_token s /\
    exists c, trace s' = Ev_http C_get_about :: Ev_http (C_post_code c) :: trace s.
Proof.
  intros Hne Hsc Hc.
  unfold ah_code_exchange.
  rewrite (proj2 (String.eqb_neq _ _) Hne).
  unfold exchange_code.
  destruct s as [an u rt cb g ms sc tr]. simpl in Hsc. subst sc.
  autounfold with run_unfold. cbn -[render_settings].
  replace ((200 <=? code)%Z && (code <? 300)%Z) with false.
  2:{ symmetry. apply Bool.not_true_iff_false. intros Hb.
      apply andb_prop in Hb as [H1 H2]. apply Z.leb_le in H1. apply Z.ltb_lt in H2. lia. }
  cbn -[render_settings].
  rewrite render_settings_run. simpl.
  eexists. split; [reflexivity|]. repeat split. eexists. reflexivity.
Qed.

Lemma code_exchange_rejected_witness :
  exists s', ah_code_exchange (D:=ex_db) (fun _ => Some "bad") "appie://login-exit?code=bad"
               (init [R_http 400 None]) = (inl AttributeError, s') /\
    settings s' = settings (init [R_http 400 None]).
Proof.
  destruct (code_exchange_rejected (D:=ex_db) (fun _ => Some "bad") "appie://login-exit?code=bad"
              (init [R_http 400 None]) 400 None [])
    as (s' & E & H1 & _); [vm_compute; discriminate | reflexivity | lia |].
  exists s'. split; [exact E | exact H1].
Defined.

(** X11: when the code-exchange answer has an access
    token the database keeps but no refresh token, the access token is
    already stored in the settings, the refresh-token setting is
    unchanged, and the handler's page raises [AttributeError] after the
    health check. *)
Theorem code_exchange_half_pair {D : Database} (code_param : string -> option string)
    (callback_url : string) (s : St) (code : Z) (kvs : list (string * json))
    (rest : list reply) (a a' : json) :
  py_strip callback_url <> "" -> script s = R_http code (Some (J_obj kvs)) :: rest ->
  (200 <= code < 300)%Z ->
  obj_get kvs "access_token" = Some a -> db_cell a = Some a' ->
  obj_get kvs "refresh_token" = None ->
  exists s', ah_code_exchange code_param callback_url s = (inl AttributeError, s') /\
    get_setting "ah_user_token" s' = a' /\
    get_setting "ah_refresh_token" s' = get_setting "ah_refresh_token" s /\
    exists c, trace s' = Ev_http C_get_about :: Ev_http (C_post_code c) :: trace s.
Proof.
  intros Hne Hsc Hc Ha Hda Hr.
  unfold ah_code_exchange.
  rewrite (proj2 (String.eqb_neq _ _) Hne).
  unfold exchange_code.
  destruct s as [an u rt cb g ms sc tr]. simpl in Hsc. subst sc.
  autounfold with run_unfold. cbn -[render_settings db_cell].
  rewrite (leb_ltb_2xx _ Hc). cbn -[render_settings db_cell].
  rewrite Ha. cbn -[render_settings db_cell].
  rewrite Hda. cbn -[render_settings db_cell].
  rewrite Hr. cbn -[render_settings db_cell].
  rewrite render_settings_run. simpl.
  eexists. split; [reflexivity|].
  unfold get_setting; simpl.
  rewrite lookup_insert_eq, lookup_insert_ne by discriminate.
  split; [reflexivity|]. split; [reflexivity|]. eexists. reflexivity.
Qed.

Lemma code_exchange_half_pair_witness :
  exists s', ah_code_exchange (D:=ex_db) (fun _ => Some "c") "appie://login-exit?code=c"
               (init [ok_json [("access_token", J_str "new-a")]]) = (inl AttributeError, s') /\
    get_setting "ah_user_token" s' = J_str "new-a".
Proof.
  destruct (code_exchange_half_pair (D:=ex_db) (fun _ => Some "c") "appie://login-exit?code=c"
              (init [ok_json [("access_token", J_str "new-a")]]) 200
              [("access_token", J_str "new-a")] [] (J_str "new-a") (J_str "new-a"))
    as (s' & E & H1 & _);
    [vm_compute; discriminate | reflexivity | lia | reflexivity | reflexivity | reflexivity |].
  exists s'. split; [exact E | exact H1].
Defined.

Lemma set_mappings_same (s : St) : set_mappings (mappings s) s = s.
Proof. destruct s; reflexivity. Qed.

Lemma filter_key_absent (slug ref : string) (rows : list mapping_row) :
  (slug, ref) ∉ map row_key rows -> List.filter (has_key slug ref) rows = [].
Proof.
  induction rows as [|m rows IH]; simpl; intros Hn; [reflexivity|].
  destruct (has_key slug ref m) eqn:Hk.
  - exfalso. apply Hn. apply has_key_spec in Hk. rewrite Hk. left.
  - apply IH. intros Hin. apply Hn. right. exact Hin.
Qed.

Lemma filter_negb_absent (slug ref : string) (rows : list mapping_row) :
  List.filter (has_key slug ref) rows = [] ->
  List.filter (fun m => negb (has_key slug ref m)) rows = rows.
Proof.
  induction rows as [|m rows IH]; simpl; [reflexivity|].
  destruct (has_key slug ref m); simpl; [discriminate|]. intros H. f_equal. auto.
Qed.





(** X12: deleting a mapping whose (recipe slug,
    reference id) key is not in the table changes nothing. *)
Theorem delete_mapping_absent (slug ref : string) (s : St) :
  (slug, ref) ∉ map row_key (mappings s) -> delete_mapping slug ref s = (inr tt, s).
Proof.
  intros Hn. unfold delete_mapping, delete_rows, gets, bind.
  rewrite (filter_key_absent slug ref _ Hn). unfold modify.
  rewrite set_mappings_same. reflexivity.
Qed.

Lemma delete_mapping_absent_witness :
  delete_mapping "soep" "ref-9" ex_fill_state = (inr tt, ex_fill_state).
Proof.
  apply delete_mapping_absent.
  apply (bool_decide_unpack (("soep", "ref-9") ∉ map row_key (mappings ex_fill_state))).
  vm_compute. reflexivity.
Defined.






Lemma le_fold_max (x : nat) (l : list nat) : In x l -> x <= fold_right Nat.max 0 l.
Proof.
  induction l as [|y l IH]; simpl; [intros []|].
  intros [->|Hin]; [lia|]. specialize (IH Hin). lia.
Qed.

Lemma save_rows_ids (f : mapping_form) (rows rows' : list mapping_row) :
  NoDup (map id rows) -> save_rows f rows = Some rows' -> NoDup (map id rows').
Proof.
  intros Hnd E. unfold save_rows in E.
  destruct (List.filter _ rows) as [|m0 [|m1 r]]; injection E as <- || discriminate E.
  - rewrite map_app. simpl. apply NoDup_app. split; [exact Hnd|]. split; [|apply NoDup_singleton].
    intros x Hx Hx'. apply list_elem_of_singleton in Hx'. subst x.
    apply list_elem_of_In, le_fold_max in Hx. unfold next_id in Hx. lia.
  - rewrite map_map.
    replace (map (fun x => id (if has_key (f_recipe_slug f) (f_ingredient_reference_id f) x
                               then overwrite f x else x)) rows) with (map id rows);
      [exact Hnd|].
    apply map_ext. intros m. destruct (has_key _ _ m); reflexivity.
Qed.

Lemma delete_rows_ids (slug ref : string) (rows rows' : list mapping_row) :
  NoDup (map id rows) -> delete_rows slug ref rows = Some rows' -> NoDup (map id rows').
Proof.
  intros Hnd E. unfold delete_rows in E.
  destruct (List.filter _ rows) as [|m0 [|m1 r]]; injection E as <- || discriminate E;
    [exact Hnd | apply nodup_map_filter; exact Hnd].
Qed.

(** X15: any sequence of mapping saves and deletes
    keeps the row ids of the mapping table distinct. *)
Theorem mapping_ids_distinct (ops : list mapping_op) (s s' : St) (res : exn + unit) :
  NoDup (map id (mappings s)) -> run_ops ops s = (res, s') -> NoDup (map id (mappings s')).
Proof.
  revert s. induction ops as [|op ops IH]; simpl; intros s Hnd E.
  - unfold ret in E. injection E as <- <-. exact Hnd.
  - destruct op as [f|slug ref]; unfold bind, save_mapping, delete_mapping, bind, gets in E.
    + destruct (save_rows f (mappings s)) as [rows'|] eqn:Hs.
      * unfold modify in E. apply (IH (set_mappings rows' s)); [|exact E].
        exact (save_rows_ids f _ _ Hnd Hs).
      * unfold throw in E. injection E as <- <-. exact Hnd.
    + destruct (delete_rows slug ref (mappings s)) as [rows'|] eqn:Hs.
      * unfold modify in E. apply (IH (set_mappings rows' s)); [|exact E].
        exact (delete_rows_ids slug ref _ _ Hnd Hs).
      * unfold throw in E. injection E as <- <-. exact Hnd.
Qed.

Lemma mapping_ids_distinct_witness :
  NoDup (map id (mappings (snd (run_ops [Op_save skip_form; Op_delete "recipe-a" "r1";
                                         Op_save skip_form] ex_fill_state)))).
Proof.
  apply (mapping_ids_distinct [Op_save skip_form; Op_delete "recipe-a" "r1"; Op_save skip_form]
           ex_fill_state _ (fst (run_ops [Op_save skip_form; Op_delete "recipe-a" "r1";
                                          Op_save skip_form] ex_fill_state))).
  - apply (bool_decide_unpack (NoDup (map id (mappings ex_fill_state)))). vm_compute. reflexivity.
  - vm_compute. reflexivity.
Defined.

Lemma score_loop_seen (kws : list string) (seen : list (option Z)) (l : list mapping_row) :
  Forall (fun m => status m = "mapped" \/ status m = "skipped") l ->
  NoDup (map seen_key (score_loop kws seen l)) /\
  Forall (fun sg => seen_key sg ∉ seen) (score_loop kws seen l).
Proof.
  revert seen. induction l as [|m l IH]; intros seen Hst; simpl; [split; constructor|].
  apply Forall_cons in Hst as [Hm Hst].
  destruct (Nat.eqb (matched_keywords kws m) 0); [auto|].
  destruct (String.eqb (status m) "mapped" && bool_decide (ah_product_id m ∈ seen)) eqn:H1;
    [auto|].
  destruct (String.eqb (status m) "skipped" && bool_decide (None ∈ seen)) eqn:H2; [auto|].
  destruct (Qle_bool (1 # 2) (score_of (matched_keywords kws m) (length kws))); [|auto].
  set (k := if String.eqb (status m) "mapped" then ah_product_id m else None).
  destruct (IH (k :: seen) Hst) as [Hnd Hall].
  assert (Hk : seen_key (suggestion_of m (score_of (matched_keywords kws m) (length kws))) = k)
    by reflexivity.
  simpl. rewrite Hk. split.
  - constructor; [|exact Hnd].
    intros Hin. apply list_elem_of_In, in_map_iff in Hin as (sg & Hsg & Hin).
    rewrite Forall_forall in Hall. apply list_elem_of_In in Hin. apply Hall in Hin. apply Hin. rewrite Hsg. left.
  - constructor.
    + rewrite Hk. unfold k. destruct Hm as [Hm|Hm]; rewrite Hm in *; simpl in *.
      * apply bool_decide_eq_false in H1. exact H1.
      * apply bool_decide_eq_false in H2. exact H2.
    + eapply Forall_impl; [exact Hall|]. intros sg Hsg Hin. apply Hsg. right. exact Hin.
Qed.

Lemma sugg_insert_perm (x : suggestion) (l : list suggestion) :
  Permutation (sugg_insert x l) (x :: l).
Proof.
  induction l as [|y l IH]; simpl; [reflexivity|].
  destruct (sugg_lt x y); [reflexivity|].
  rewrite IH. apply perm_swap.
Qed.

Lemma sort_suggestions_perm (l : list suggestion) : Permutation (sort_suggestions l) l.
Proof.
  unfold sort_suggestions.
  enough (H : forall acc, Permutation (fold_left (fun acc x => sugg_insert x acc) l acc) (l ++ acc))
    by (rewrite H, app_nil_r; reflexivity).
  induction l as [|x l IH]; intros acc; simpl; [reflexivity|].
  rewrite IH, sugg_insert_perm. symmetry. apply Permutation_middle.
Qed.

Lemma nodup_map_firstn {A B} (g : A -> B) (n : nat) (l : list A) :
  NoDup (map g l) -> NoDup (map g (firstn n l)).
Proof.
  revert l. induction n as [|n IH]; intros [|x l] Hnd; simpl; [constructor|constructor|constructor|].
  simpl in Hnd. apply NoDup_cons in Hnd as [Hn Hnd]. constructor; [|auto].
  intros Hin. apply Hn. apply list_elem_of_In, in_map_iff in Hin as (y & Hy & Hin).
  apply list_elem_of_In, in_map_iff. exists y. split; [exact Hy | exact (in_firstn _ _ _ Hin)].
Qed.

(** X16: the suggestions of [mapping_suggestions] never
    repeat a product id ([None] counting as one), and each comes from a
    mapped or skipped row of another recipe. *)
Theorem suggestions_distinct (strip_quantities : string -> string)
    (ingredient_display_q recipe_slug_q : string) (rows : list mapping_row) :
  NoDup (map seen_key (suggestions_for strip_quantities ingredient_display_q recipe_slug_q rows)) /\
  (forall sg, In sg (suggestions_for strip_quantities ingredient_display_q recipe_slug_q rows) ->
     exists m sc, In m rows /\ recipe_slug m <> recipe_slug_q /\
       (status m = "mapped" \/ status m = "skipped") /\ sg = suggestion_of m sc).
Proof.
  unfold suggestions_for.
  destruct (Nat.ltb _ 2); [split; [constructor | intros sg []]|].
  destruct (Nat.eqb _ 0); [split; [constructor | intros sg []]|].
  set (kws := keywords_of _).
  assert (Hst : Forall (fun m => status m = "mapped" \/ status m = "skipped")
                       (candidate_rows recipe_slug_q rows)).
  { apply Forall_forall. intros m Hin. unfold candidate_rows in Hin.
    apply list_elem_of_In, filter_In in Hin as [_ H]. apply andb_prop in H as [_ H].
    apply orb_prop in H as [H|H]; apply String.eqb_eq in H; auto. }
  split.
  - apply nodup_map_firstn.
    apply (proj2 (NoDup_Permutation_proper _ _
                    (Permutation_map seen_key (sort_suggestions_perm _)))).
    exact (proj1 (score_loop_seen kws [] _ Hst)).
  - intros sg Hin. apply in_firstn in Hin.
    apply (proj2 (sort_suggestions_spec _)) in Hin.
    apply score_loop_spec in Hin as (m & Hm & -> & _).
    exists m, (score_of (matched_keywords kws m) (length kws)).
    unfold candidate_rows in Hm. apply filter_In in Hm as [Hm Hc].
    apply andb_prop in Hc as [Hs Hc].
    split; [exact Hm|]. split.
    + intros Heq. rewrite Heq, String.eqb_refl in Hs. discriminate.
    + split; [|reflexivity]. apply orb_prop in Hc as [H|H]; apply String.eqb_eq in H; auto.
Qed.

Lemma fill_cart_early {D : Database} (today : Z) (s s' : St) (r : exn + fill_result) :
  fill_cart today s = (r, s') ->
  match r with inr (Fill_ok _) | inr (Fill_exn _) => False | _ => True end ->
  (fill_cart_week today = None /\ r = inl OverflowError /\ s' = s) \/
  exists st en, fill_cart_week today = Some (st, en) /\
    s' = set_net (tail (script s)) (Ev_http (C_get_mealplans st en) :: trace s) s /\
    match r with
    | inr (Fill_err m) => m = msg_no_recipes \/ m = msg_no_mapped \/ m = msg_no_token
    | _ => True
    end.
Proof.
  intros E Hr. unfold fill_cart in E.
  destruct (fill_cart_week today) as [[st en]|] eqn:W;
    [|unfold throw in E; injection E as <- <-; left; auto].
  right. exists st, en. split; [reflexivity|].
  set (s1 := set_net (tail (script s)) (Ev_http (C_get_mealplans st en) :: trace s) s).
  apply bind_inv in E as [(e & E1 & ->)|(data & s2 & E1 & E)];
    apply get_mealplans_state in E1; [subst s'; split; [reflexivity|exact I]|]. subst s2. fold s1 in E.
  apply bind_inv in E as [(e & E2 & ->)|(plans & s3 & E2 & E)];
    apply py_iter_pure in E2; [subst; split; [reflexivity|exact I]|]. subst s3.
  apply bind_inv in E as [(e & E3 & ->)|(slugs & s4 & E3 & E)];
    apply collect_slugs_pure in E3; [subst; split; [reflexivity|exact I]|]. subst s4.
  destruct (Nat.eqb (length slugs) 0);
    [unfold ret in E; injection E as <- <-; split; [reflexivity|auto]|].
  unfold bind at 1, gets in E.
  destruct (Nat.eqb (length (cart_rows slugs (mappings s1))) 0);
    [unfold ret in E; injection E as <- <-; split; [reflexivity|auto]|].
  unfold bind at 1, gets in E. unfold bind at 1, gets in E.
  destruct (negb (truthy (get_setting "ah_user_token" s1)) &&
            negb (truthy (get_setting "ah_refresh_token" s1)));
    [unfold ret in E; injection E as <- <-; split; [reflexivity|auto]|].
  exfalso. unfold bind at 1, set_user_tokens, modify in E.
  unfold catch, bind in E.
  destruct (add_to_cart _ _) as [[e|u] s5]; unfold ret in E; injection E as <- <-; exact Hr.
Qed.

(** X17: [fill_cart] answers with one of its fixed error messages only
    before the cart step: the message is the no-recipes, no-mapped or
    no-token one, and the one request sent is the Mealie meal-plan
    request for the computed week. *)
Theorem fill_cart_fixed_error {D : Database} (today : Z) (s s' : St) (msg : string) :
  fill_cart today s = (inr (Fill_err msg), s') ->
  (msg = msg_no_recipes \/ msg = msg_no_mapped \/ msg = msg_no_token) /\
  exists st en, fill_cart_week today = Some (st, en) /\
    s' = set_net (tail (script s)) (Ev_http (C_get_mealplans st en) :: trace s) s.
Proof.
  intros E. destruct (fill_cart_early _ _ _ _ E I) as [(_ & H & _)|(st & en & W & Hs & Hm)];
    [discriminate|].
  split; [exact Hm|]. exists st, en. auto.
Qed.

Lemma fill_cart_fixed_error_witness :
  fill_cart (D:=ex_db) 739000 ex_no_token_state =
    (inr (Fill_err msg_no_token), snd (fill_cart (D:=ex_db) 739000 ex_no_token_state)) /\
  ((msg_no_token = msg_no_recipes \/ msg_no_token = msg_no_mapped \/ msg_no_token = msg_no_token) /\
   exists st en, fill_cart_week 739000 = Some (st, en) /\
     snd (fill_cart (D:=ex_db) 739000 ex_no_token_state) =
       set_net (tail (script ex_no_token_state))
         (Ev_http (C_get_mealplans st en) :: trace ex_no_token_state) ex_no_token_state).
Proof.
  assert (E : fill_cart (D:=ex_db) 739000 ex_no_token_state =
    (inr (Fill_err msg_no_token), snd (fill_cart (D:=ex_db) 739000 ex_no_token_state))) by (vm_compute; reflexivity).
  split; [exact E | exact (fill_cart_fixed_error _ _ _ _ E)].
Defined.

(** X18: [fill_cart] raises only before the cart step: an exception comes
    from the week computation (state unchanged) or from the Mealie
    meal-plan request and its answer (that request the only one sent);
    a failure of the retailer is caught and answered. *)
Theorem fill_cart_raises_early {D : Database} (today : Z) (s s' : St) (e : exn) :
  fill_cart today s = (inl e, s') ->
  (fill_cart_week today = None /\ e = OverflowError /\ s' = s) \/
  exists st en, fill_cart_week today = Some (st, en) /\
    s' = set_net (tail (script s)) (Ev_http (C_get_mealplans st en) :: trace s) s.
Proof.
  intros E. destruct (fill_cart_early _ _ _ _ E I) as [H|(st & en & W & Hs & _)];
    [|right; exists st, en; auto].
  destruct H as (W & He & Hs). injection He as ->. left. auto.
Qed.

Lemma fill_cart_raises_early_witness :
  fill_cart (D:=ex_db) 739000 ex_mealie_error_state = (inl (HTTPStatusError 500), snd (fill_cart (D:=ex_db) 739000 ex_mealie_error_state)) /\
  ((fill_cart_week 739000 = None /\ HTTPStatusError 500 = OverflowError /\ snd (fill_cart (D:=ex_db) 739000 ex_mealie_error_state) = ex_mealie_error_state) \/
   exists st en, fill_cart_week 739000 = Some (st, en) /\
     snd (fill_cart (D:=ex_db) 739000 ex_mealie_error_state) = set_net (tail (script ex_mealie_error_state)) (Ev_http (C_get_mealplans st en) :: trace ex_mealie_error_state) ex_mealie_error_state).
Proof.
  assert (E : fill_cart (D:=ex_db) 739000 ex_mealie_error_state = (inl (HTTPStatusError 500), snd (fill_cart (D:=ex_db) 739000 ex_mealie_error_state)))
    by (vm_compute; reflexivity).
  split; [exact E | exact (fill_cart_raises_early _ _ _ _ E)].
Defined.

Lemma products_of_pure (data : json) (s s' : St) (r : exn + list json) :
  products_of data s = (r, s') -> s' = s.
Proof. intros E. unfold products_of in E. run_all; reflexivity. Qed.

Lemma products_loop_ok (repr_container : json -> string) (entries : list json) (s : St) :
  Forall (fun e => exists kvs, e = J_obj kvs /\
            (truthy (get_or kvs "images" J_null) = false \/
             exists ikvs rest, get_or kvs "images" J_null = J_list (J_obj ikvs :: rest))) entries ->
  exists ps, products_loop repr_container entries s = (inr ps, s) /\
    Forall2 (fun e p => exists kvs, e = J_obj kvs /\
      p_id p = get_or kvs "webshopId" J_null /\
      p_name p = get_or kvs "title" (J_str "") /\
      p_unit_size p = get_or kvs "salesUnitSize" (J_str "") /\
      p_price p = py_str repr_container
                    (get_or kvs "priceBeforeBonus" (get_or kvs "currentPrice" (J_str ""))) /\
      p_image_url p = match get_or kvs "images" J_null with
                      | J_list (J_obj ikvs :: _) => get_or ikvs "url" (J_str "")
                      | _ => J_str ""
                      end /\
      p_brand p = get_or kvs "brand" (J_str "")) entries ps.
Proof.
  induction 1 as [|e entries (kvs & -> & Himg) _ (ps & Eps & Hps)]; simpl.
  - exists []. split; [reflexivity | constructor].
  - assert (Hi : image_url_of kvs s =
                 (inr (match get_or kvs "images" J_null with
                       | J_list (J_obj ikvs :: _) => get_or ikvs "url" (J_str "")
                       | _ => J_str ""
                       end), s)).
    { unfold image_url_of. destruct Himg as [Hf|(ikvs & rest & Hl)].
      - rewrite Hf. simpl. unfold ret.
        destruct (get_or kvs "images" J_null) as [| | | |[|[] ?]|]; try reflexivity; discriminate.
      - rewrite Hl. reflexivity. }
    unfold bind at 1 2. rewrite Hi. unfold ret at 1. unfold bind. rewrite Eps.
    eexists. split; [reflexivity|]. constructor; [|exact Hps].
    exists kvs. repeat split.
Qed.

(** X19: [search_products] turns every product entry of an answer into
    one result dict, in order, and raises nothing doing so when each
    entry is a dict whose [images] is empty or absent or a list starting
    with a dict: the id is [webshopId] ([None] if absent), the price is
    [str()] of [priceBeforeBonus], falling back on [currentPrice], and the
    image is the [url] of the first image, [""] without images. *)
Theorem search_products_fields (repr_container : json -> string) (data : json)
    (entries : list json) (s : St) :
  fst (products_of data s) = inr entries ->
  Forall (fun e => forall kvs, e = J_obj kvs ->
            truthy (get_or kvs "images" J_null) = false \/
            exists ikvs rest, get_or kvs "images" J_null = J_list (J_obj ikvs :: rest)) entries ->
  exists ps, products_list repr_container data s = (inr ps, s) /\
    Forall2 (fun e p => exists kvs, e = J_obj kvs /\
      p_id p = get_or kvs "webshopId" J_null /\
      p_name p = get_or kvs "title" (J_str "") /\
      p_unit_size p = get_or kvs "salesUnitSize" (J_str "") /\
      p_price p = py_str repr_container
                    (get_or kvs "priceBeforeBonus" (get_or kvs "currentPrice" (J_str ""))) /\
      p_image_url p = match get_or kvs "images" J_null with
                      | J_list (J_obj ikvs :: _) => get_or ikvs "url" (J_str "")
                      | _ => J_str ""
                      end /\
      p_brand p = get_or kvs "brand" (J_str "")) entries ps.
Proof.
  intros E Himg.
  destruct data as [| | | | |kvs]; try discriminate.
  unfold products_of, products_list in *.
  destruct (obj_get kvs "products") as [ps|] eqn:Hp; unfold get_or; rewrite Hp; simpl in *.
  - destruct ps as [| | |x|l|pkvs]; try discriminate; simpl in *.
    + destruct x; [|discriminate]. simpl in E. injection E as <-.
      exists []. split; [reflexivity | constructor].
    + destruct (forallb _ l) eqn:Hall; [|discriminate]. simpl in E. injection E as <-.
      apply products_loop_ok. rewrite Forall_forall in Himg |- *. intros e He.
      apply forallb_forall with (x := e) in Hall; [|apply list_elem_of_In, He].
      destruct e as [| | | | |ekvs]; try discriminate.
      exists ekvs. split; [reflexivity | exact (Himg _ He ekvs eq_refl)].
    + destruct pkvs; [|discriminate]. simpl in E. injection E as <-.
      exists []. split; [reflexivity | constructor].
  - injection E as <-. exists []. split; [reflexivity | constructor].
Qed.

Lemma search_products_fields_witness :
  exists ps, products_list (fun _ => "[]") (J_obj [("products", J_list ex_products)]) ex_fill_state
               = (inr ps, ex_fill_state) /\ length ps = 2%nat.
Proof.
  assert (H1 : fst (products_of (J_obj [("products", J_list ex_products)]) ex_fill_state)
               = inr ex_products) by reflexivity.
  assert (H2 : Forall (fun e => forall kvs, e = J_obj kvs ->
            truthy (get_or kvs "images" J_null) = false \/
            exists ikvs rest, get_or kvs "images" J_null = J_list (J_obj ikvs :: rest)) ex_products).
  { constructor; [|constructor; [|constructor]]; intros kvs Hk; injection Hk as <-;
      [right; do 2 eexists; reflexivity | left; reflexivity]. }
  destruct (search_products_fields (fun _ => "[]") _ _ _ H1 H2) as (ps & E & Hps).
  exists ps. split; [exact E|]. rewrite <- (Forall2_length _ _ _ Hps). reflexivity.
Defined.

(** X20: a [priceBeforeBonus] of [null] hides the [currentPrice]: the
    price shown is the string ["None"]. *)
Theorem product_price_null (repr_container : json -> string) (kvs : list (string * json))
    (s s' : St) (p : product) :
  obj_get kvs "priceBeforeBonus" = Some J_null ->
  product_of repr_container (J_obj kvs) s = (inr p, s') ->
  p_price p = "None".
Proof.
  intros Hb E. unfold product_of, bind in E.
  destruct (image_url_of kvs s) as [[e|img] s1]; [discriminate|].
  unfold ret in E. injection E as <- _. simpl. unfold get_or at 1. rewrite Hb. reflexivity.
Qed.

Lemma product_price_null_witness :
  obj_get [("currentPrice", J_num 2); ("priceBeforeBonus", J_null)] "priceBeforeBonus" = Some J_null /\
  product_of (fun _ => "[]") (J_obj [("currentPrice", J_num 2); ("priceBeforeBonus", J_null)]) ex_fill_state =
    (inr (MkProduct J_null (J_str "") (J_str "") "None" (J_str "") (J_str "")), ex_fill_state) /\
  p_price (MkProduct J_null (J_str "") (J_str "") "None" (J_str "") (J_str "")) = "None".
Proof.
  assert (H1 : obj_get [("currentPrice", J_num 2); ("priceBeforeBonus", J_null)] "priceBeforeBonus" = Some J_null)
    by reflexivity.
  assert (H2 : product_of (fun _ => "[]") (J_obj [("currentPrice", J_num 2); ("priceBeforeBonus", J_null)]) ex_fill_state =
    (inr (MkProduct J_null (J_str "") (J_str "") "None" (J_str "") (J_str "")), ex_fill_state))
    by reflexivity.
  split; [exact H1 | split; [exact H2 | exact (product_price_null _ _ _ _ _ H1 H2)]].
Defined.

Lemma pretty_N_go_nonempty (x : N) (acc : string) : acc <> "" -> pretty_N_go x acc <> "".
Proof.
  revert acc. induction (N.lt_wf_0 x) as [x _ IH]; intros acc Hacc.
  destruct (decide (x = 0)%N) as [->|Hx]; [rewrite pretty_N_go_0; exact Hacc|].
  rewrite pretty_N_go_step by lia. apply IH; [apply N.div_lt; lia | discriminate].
Qed.

(** [str(z)] of an integer is never empty. *)
Lemma pretty_Z_nonempty (z : Z) : pretty z <> "".
Proof.
  destruct z as [|p|p]; [discriminate| |discriminate].
  unfold pretty, pretty_Z, pretty_positive, pretty, pretty_N.
  destruct (decide (N.pos p = 0)%N); [discriminate|].
  rewrite pretty_N_go_step by lia. apply pretty_N_go_nonempty. discriminate.
Qed.

Lemma py_str_truthy (repr_container : json -> string) (v : json) :
  (forall c, repr_container c <> "") -> truthy v = true -> py_str repr_container v <> "".
Proof.
  intros Hr Hv. destruct v as [|[]|z|x| |]; simpl in *; try discriminate; auto.
  - apply pretty_Z_nonempty.
  - intros ->. discriminate.
Qed.

Lemma join_space_truthy (parts : list json) (s s' : St) (d : json) :
  parts <> [] -> Forall (fun p => truthy p = true) parts ->
  join_space parts s = (inr d, s') -> truthy d = true /\ s' = s.
Proof.
  intros Hne Hall E. destruct parts as [|p ps]; [congruence|].
  unfold join_space in E. destruct (forallb _ _) eqn:Hf; [|discriminate].
  unfold ret in E. injection E as <- <-. split; [|reflexivity].
  simpl in Hf. apply andb_prop in Hf as [Hp _].
  destruct p as [| | |x| |]; try discriminate.
  apply Forall_cons in Hall as [Hx _]. simpl in Hx.
  destruct x as [|c x]; [discriminate|]. simpl.
  destruct ps; reflexivity.
Qed.

Lemma sub_name_inv (kvs : list (string * json)) (k : string) (s s' : St) (r : exn + json) :
  sub_name kvs k s = (r, s') -> s' = s.
Proof. intros E. unfold sub_name in E. run_all; reflexivity. Qed.

Lemma display_of_truthy (repr_container : json -> string) (kvs : list (string * json))
    (s s' : St) (r : exn + json) :
  (forall c, repr_container c <> "") ->
  display_of repr_container kvs s = (r, s') ->
  s' = s /\ match r with inr d => truthy d = true | inl _ => True end.
Proof.
  intros Hr E. unfold display_of in E.
  destruct (truthy (get_or kvs "display" _)) eqn:Hd;
    [unfold ret in E; injection E as <- <-; auto|].
  apply bind_inv in E as [(e & E1 & ->)|(u & s1 & E1 & E)];
    apply sub_name_inv in E1; [subst; auto|]. subst s1.
  apply bind_inv in E as [(e & E1 & ->)|(f & s1 & E1 & E)];
    apply sub_name_inv in E1; [subst; auto|]. subst s1.
  match type of E with
  | (if Nat.eqb (length ?ps) 0 then _ else _) _ = _ => set (parts := ps) in E
  end.
  destruct (Nat.eqb (length parts) 0) eqn:Hl;
    [unfold ret in E; injection E as <- <-; auto|].
  destruct r as [e|d].
  - unfold join_space, throw, ret in E. destruct (forallb _ _); injection E as _ <-; auto.
  - assert (Hne : parts <> []) by (intros Hp; rewrite Hp in Hl; discriminate).
    assert (Hall : Forall (fun p => truthy p = true) parts).
    { unfold parts. repeat apply Forall_app_2.
      - destruct (truthy (get_or kvs "quantity" J_null)) eqn:Hq; repeat constructor.
        simpl. apply negb_true_iff, String.eqb_neq, py_str_truthy; assumption.
      - destruct (truthy u) eqn:Hu; repeat constructor; exact Hu.
      - destruct (truthy f) eqn:Hf; repeat constructor; exact Hf.
      - destruct (truthy (get_or kvs "note" J_null)) eqn:Hn; repeat constructor; exact Hn. }
    destruct (join_space_truthy _ _ _ _ Hne Hall E) as [Ht ->]. auto.
Qed.

Lemma enrich_one_inv (repr_container : json -> string) (rows : list mapping_row) (ing : json)
    (s s' : St) (r : exn + enriched_ingredient) :
  (forall c, repr_container c <> "") ->
  enrich_one repr_container rows ing s = (r, s') ->
  s' = s /\
  match r with
  | inr e => truthy (e_display e) = true /\
             e_mapping e = match e_reference_id e with
                           | J_str x => mapping_for rows x
                           | _ => None
                           end
  | inl _ => True
  end.
Proof.
  intros Hr E. destruct ing as [| | | | |kvs]; try (unfold throw in E; injection E as <- <-; auto).
  unfold enrich_one in E.
  apply bind_inv in E as [(e & E1 & ->)|(d & s1 & E1 & E)];
    apply display_of_truthy in E1 as [-> Hd]; auto.
  destruct (get_or kvs "referenceId" (J_str "")) as [| | |x| |] eqn:Href;
    unfold bind, ret, throw in E; injection E as <- <-; auto.
Qed.

Lemma enrich_loop_inv (repr_container : json -> string) (rows : list mapping_row) (ings : list json)
    (s s' : St) (es : list enriched_ingredient) :
  (forall c, repr_container c <> "") ->
  enrich_loop repr_container rows ings s = (inr es, s') ->
  s' = s /\ length es = length ings /\
  Forall (fun e => truthy (e_display e) = true /\
             e_mapping e = match e_reference_id e with
                           | J_str x => mapping_for rows x
                           | _ => None
                           end) es.
Proof.
  intros Hr. revert es s'. induction ings as [|ing ings IH]; intros es s' E; simpl in E.
  - unfold ret in E. injection E as <- <-. repeat split; constructor.
  - apply bind_inv in E as [(e & _ & [=])|(e & s1 & E1 & E)].
    apply (enrich_one_inv _ _ _ _ _ _ Hr) in E1 as [-> He].
    apply bind_inv in E as [(e' & _ & [=])|(es' & s2 & E2 & E)].
    apply IH in E2 as (-> & Hl & Hes). unfold ret in E. injection E as <- <-.
    split; [reflexivity|]. split; [simpl; rewrite Hl; reflexivity|]. constructor; assumption.
Qed.

Lemma nodup_map_eq {A B} (f : A -> B) (l : list A) (x y : A) :
  NoDup (map f l) -> In x l -> In y l -> f x = f y -> x = y.
Proof.
  induction l as [|a l IH]; simpl; [intros _ []|].
  intros Hnd Hx Hy Hf. apply NoDup_cons in Hnd as [Ha Hnd].
  destruct Hx as [<-|Hx], Hy as [<-|Hy]; auto.
  - exfalso. apply Ha. apply list_elem_of_In, in_map_iff. eauto.
  - exfalso. apply Ha. apply list_elem_of_In, in_map_iff. eauto.
Qed.

Lemma mapping_for_spec (rows : list mapping_row) (slug r : string) (m : mapping_row) :
  NoDup (map row_key rows) ->
  mapping_for (List.filter (fun m => String.eqb (recipe_slug m) slug) rows) r = Some m <->
  In m rows /\ row_key m = (slug, r).
Proof.
  intros Hnd. unfold mapping_for. split.
  - intros Hf. apply find_some in Hf as [Hin Hr]. apply in_rev, filter_In in Hin as [Hin Hs].
    apply String.eqb_eq in Hr, Hs. split; [exact Hin|]. unfold row_key. rewrite Hs, Hr. reflexivity.
  - intros [Hin Hk]. unfold row_key in Hk. injection Hk as Hs Hr.
    destruct (find _ (rev _)) as [m'|] eqn:Hf.
    + apply find_some in Hf as [Hin' Hr']. apply in_rev, filter_In in Hin' as [Hin' Hs'].
      apply String.eqb_eq in Hr', Hs'. f_equal. apply (nodup_map_eq row_key rows); auto.
      unfold row_key. congruence.
    + exfalso. assert (Hm : In m (rev (List.filter (fun m => String.eqb (recipe_slug m) slug) rows)))
        by (apply (proj1 (in_rev _ _)), filter_In; split; [exact Hin | apply String.eqb_eq, Hs]).
      apply (find_none _ _ Hf) in Hm. rewrite Hr, String.eqb_refl in Hm. discriminate.
Qed.

(** X21: the ingredient list of [recipe_detail] has one entry per
    ingredient of the recipe, reads the mapping table without changing
    anything, and never shows an empty display: without a display text
    it shows the joined quantity, unit, food and note, or
    ["(onbekend)"]. *)
Theorem recipe_ingredients_displays (repr_container : json -> string) (slug : string)
    (kvs : list (string * json)) (ings : list json) (s s' : St)
    (es : list enriched_ingredient) :
  (forall c, repr_container c <> "") ->
  get_or kvs "recipeIngredient" (J_list []) = J_list ings ->
  recipe_ingredients repr_container slug (J_obj kvs) s = (inr es, s') ->
  s' = s /\ length es = length ings /\ Forall (fun e => truthy (e_display e) = true) es.
Proof.
  intros Hr Hi E. unfold recipe_ingredients in E. rewrite Hi in E.
  unfold bind at 1, gets, bind at 1, py_iter, ret at 1 in E.
  apply enrich_loop_inv in E as (-> & Hl & Hes); [|exact Hr].
  split; [reflexivity|]. split; [exact Hl|].
  eapply Forall_impl; [exact Hes|]. intros e [H _]. exact H.
Qed.

(** X22: the mapping [recipe_detail] shows beside an ingredient with a
    string [referenceId] is the row of this recipe and that reference, and
    there is none without such a row (the keys of the table being
    distinct); an ingredient with another [referenceId] shows none. *)
Theorem recipe_ingredients_mappings (repr_container : json -> string) (slug : string)
    (recipe : json) (s s' : St) (es : list enriched_ingredient) :
  (forall c, repr_container c <> "") ->
  NoDup (map row_key (mappings s)) ->
  recipe_ingredients repr_container slug recipe s = (inr es, s') ->
  Forall (fun e => match e_reference_id e with
                   | J_str r => forall m, e_mapping e = Some m <->
                                          In m (mappings s) /\ row_key m = (slug, r)
                   | _ => e_mapping e = None
                   end) es.
Proof.
  intros Hr Hnd E. destruct recipe as [| | | | |kvs]; try discriminate.
  unfold recipe_ingredients in E.
  unfold bind at 1, gets in E.
  apply bind_inv in E as [(e & _ & [=])|(ings & s1 & E1 & E)].
  apply py_iter_pure in E1. subst s1.
  apply enrich_loop_inv in E as (_ & _ & Hes); [|exact Hr].
  eapply Forall_impl; [exact Hes|]. intros e [_ ->].
  destruct (e_reference_id e) as [| | |x| |]; try reflexivity.
  intros m. apply mapping_for_spec. exact Hnd.
Qed.

Lemma enrich_loop_fails (repr_container : json -> string) (rows : list mapping_row)
    (ings : list json) (x : json) :
  In x ings ->
  (forall s, exists e, fst (enrich_one repr_container rows x s) = inl e) ->
  forall s, exists e, fst (enrich_loop repr_container rows ings s) = inl e.
Proof.
  intros Hin Hx. induction ings as [|y ings IH]; [destruct Hin|]. intros s. simpl.
  unfold bind at 1. destruct Hin as [->|Hin].
  - destruct (Hx s) as [e He]. destruct (enrich_one _ _ x s) as [[e'|a] s1]; simpl in He; [|discriminate].
    exists e'. reflexivity.
  - destruct (enrich_one _ _ y s) as [[e'|a] s1]; [exists e'; reflexivity|].
    destruct (IH Hin s1) as [e He]. unfold bind. destruct (enrich_loop _ _ ings s1) as [[e''|b] s2].
    + exists e''. reflexivity.
    + discriminate.
Qed.

(** X23: an ingredient without a display text whose [unit] is present but
    not an object (Mealie's [null] unit among them) raises
    [AttributeError], and with it the whole ingredient list of
    [recipe_detail] fails. *)
Theorem recipe_ingredient_bad_unit (repr_container : json -> string) (slug : string)
    (kvs : list (string * json)) (ings : list json) (ikvs : list (string * json)) (v : json) :
  get_or kvs "recipeIngredient" (J_list []) = J_list ings ->
  In (J_obj ikvs) ings ->
  truthy (get_or ikvs "display" (get_or ikvs "originalText" (get_or ikvs "note" (J_str "")))) = false ->
  obj_get ikvs "unit" = Some v -> (forall ukvs, v <> J_obj ukvs) ->
  (forall rows s, enrich_one repr_container rows (J_obj ikvs) s = (inl AttributeError, s)) /\
  (forall s, exists e, fst (recipe_ingredients repr_container slug (J_obj kvs) s) = inl e).
Proof.
  intros Hi Hin Hd Hu Hv.
  assert (H1 : forall rows s, enrich_one repr_container rows (J_obj ikvs) s = (inl AttributeError, s)).
  { intros rows s. unfold enrich_one, display_of. rewrite Hd.
    unfold bind at 2, sub_name. rewrite Hu.
    destruct v as [| | | | |ukvs]; try reflexivity. exfalso. exact (Hv ukvs eq_refl). }
  split; [exact H1|]. intros s. unfold recipe_ingredients. rewrite Hi.
  unfold bind at 1, gets, bind at 1, py_iter, ret at 1.
  apply (enrich_loop_fails _ _ _ _ Hin). intros s'. exists AttributeError. rewrite H1. reflexivity.
Qed.

Lemma recipe_ingredients_displays_witness :
  (forall c : json, (fun _ => "[]") c <> "") /\
  get_or [("recipeIngredient", J_list ex_ingredients)] "recipeIngredient" (J_list []) = J_list ex_ingredients /\
  recipe_ingredients (fun _ => "[]") "recipe-a" ex_recipe ex_fill_state =
    (inr [MkEnriched (J_str "r1") (J_str "2 rode uien") (Some (ex_row 1 "recipe-a" "r1" 100 2));
          MkEnriched (J_str "r9") (J_str "2 ui") None], ex_fill_state) /\
  (ex_fill_state = ex_fill_state /\ 2%nat = length ex_ingredients /\
   Forall (fun e => truthy (e_display e) = true)
     [MkEnriched (J_str "r1") (J_str "2 rode uien") (Some (ex_row 1 "recipe-a" "r1" 100 2));
      MkEnriched (J_str "r9") (J_str "2 ui") None]).
Proof.
  assert (H1 : forall c : json, (fun _ => "[]") c <> "") by (intros c; discriminate).
  assert (H2 : get_or [("recipeIngredient", J_list ex_ingredients)] "recipeIngredient" (J_list [])
               = J_list ex_ingredients) by reflexivity.
  assert (H3 : recipe_ingredients (fun _ => "[]") "recipe-a" ex_recipe ex_fill_state =
    (inr [MkEnriched (J_str "r1") (J_str "2 rode uien") (Some (ex_row 1 "recipe-a" "r1" 100 2));
          MkEnriched (J_str "r9") (J_str "2 ui") None], ex_fill_state)) by (vm_compute; reflexivity).
  split; [exact H1 | split; [exact H2 | split; [exact H3|]]].
  exact (recipe_ingredients_displays _ _ _ _ _ _ _ H1 H2 H3).
Defined.

Lemma recipe_ingredients_mappings_witness :
  (forall c : json, (fun _ => "[]") c <> "") /\
  NoDup (map row_key (mappings ex_fill_state)) /\
  recipe_ingredients (fun _ => "[]") "recipe-a" ex_recipe ex_fill_state =
    (inr [MkEnriched (J_str "r1") (J_str "2 rode uien") (Some (ex_row 1 "recipe-a" "r1" 100 2));
          MkEnriched (J_str "r9") (J_str "2 ui") None], ex_fill_state) /\
  Forall (fun e => match e_reference_id e with
                   | J_str r => forall m, e_mapping e = Some m <->
                                          In m (mappings ex_fill_state) /\ row_key m = ("recipe-a", r)
                   | _ => e_mapping e = None
                   end)
    [MkEnriched (J_str "r1") (J_str "2 rode uien") (Some (ex_row 1 "recipe-a" "r1" 100 2));
     MkEnriched (J_str "r9") (J_str "2 ui") None].
Proof.
  assert (H1 : forall c : json, (fun _ => "[]") c <> "") by (intros c; discriminate).
  assert (H2 : NoDup (map row_key (mappings ex_fill_state))).
  { apply (bool_decide_unpack (NoDup (map row_key (mappings ex_fill_state)))). vm_compute. reflexivity. }
  assert (H3 : recipe_ingredients (fun _ => "[]") "recipe-a" ex_recipe ex_fill_state =
    (inr [MkEnriched (J_str "r1") (J_str "2 rode uien") (Some (ex_row 1 "recipe-a" "r1" 100 2));
          MkEnriched (J_str "r9") (J_str "2 ui") None], ex_fill_state)) by (vm_compute; reflexivity).
  split; [exact H1 | split; [exact H2 | split; [exact H3|]]].
  exact (recipe_ingredients_mappings _ _ _ _ _ _ H1 H2 H3).
Defined.

Lemma recipe_ingredient_bad_unit_witness :
  get_or [("recipeIngredient", J_list [J_obj ex_null_unit_ingredient])] "recipeIngredient" (J_list [])
    = J_list [J_obj ex_null_unit_ingredient] /\
  In (J_obj ex_null_unit_ingredient) [J_obj ex_null_unit_ingredient] /\
  truthy (get_or ex_null_unit_ingredient "display"
            (get_or ex_null_unit_ingredient "originalText"
               (get_or ex_null_unit_ingredient "note" (J_str "")))) = false /\
  obj_get ex_null_unit_ingredient "unit" = Some J_null /\
  (forall ukvs, J_null <> J_obj ukvs) /\
  (forall s, exists e, fst (recipe_ingredients (fun _ => "[]") "soep" ex_null_unit_recipe s) = inl e).
Proof.
  assert (H1 : get_or [("recipeIngredient", J_list [J_obj ex_null_unit_ingredient])] "recipeIngredient"
                 (J_list []) = J_list [J_obj ex_null_unit_ingredient]) by reflexivity.
  assert (H2 : In (J_obj ex_null_unit_ingredient) [J_obj ex_null_unit_ingredient]) by (left; reflexivity).
  assert (H3 : truthy (get_or ex_null_unit_ingredient "display"
            (get_or ex_null_unit_ingredient "originalText"
               (get_or ex_null_unit_ingredient "note" (J_str "")))) = false) by reflexivity.
  assert (H4 : obj_get ex_null_unit_ingredient "unit" = Some J_null) by reflexivity.
  assert (H5 : forall ukvs, J_null <> J_obj ukvs) by discriminate.
  do 5 (split; [assumption|]).
  exact (proj2 (recipe_ingredient_bad_unit (fun _ => "[]") "soep" _ _ _ _ H1 H2 H3 H4 H5)).
Defined.

Lemma dated_plans_pure (plans : list json) (s s' : St) (r : exn + list (json * json)) :
  dated_plans plans s = (r, s') -> s' = s.
Proof.
  revert r s'. induction plans as [|p ps IH]; simpl; intros r s' E.
  - unfold ret in E. congruence.
  - apply bind_inv in E as [(e & E & _)|(a & s1 & E1 & E)].
    + unfold plan_date in E. run_all; reflexivity.
    + assert (s1 = s) as -> by (unfold plan_date in E1; run_all; reflexivity).
      apply bind_inv in E as [(e & E & _)|(b & s2 & E2 & E)]; [exact (IH _ _ E)|].
      apply IH in E2 as ->. unfold ret in E. congruence.
Qed.

Lemma page_recipes_pure (plans : list json) (s s' : St) (r : exn + list page_recipe) :
  page_recipes plans s = (r, s') -> s' = s.
Proof.
  revert r s'. induction plans as [|p ps IH]; simpl; intros r s' E.
  - unfold ret in E. congruence.
  - apply bind_inv in E as [(e & E & _)|(a & s1 & E1 & E)].
    + unfold page_recipe_of in E. run_all; reflexivity.
    + assert (s1 = s) as -> by (unfold page_recipe_of in E1; run_all; reflexivity).
      apply bind_inv in E as [(e & E & _)|(b & s2 & E2 & E)]; [exact (IH _ _ E)|].
      apply IH in E2 as ->. unfold ret in E. congruence.
Qed.

Lemma build_days_inv (iso_date : Z -> string) (monday : Z) (dated : list (json * json))
    (names : list string) (i : Z) (s s' : St) (r : exn + list (string * string * list page_recipe)) :
  build_days iso_date monday dated names i s = (r, s') ->
  s' = s /\ match r with inr days => map (fun d => fst (fst d)) days = names | inl _ => True end.
Proof.
  revert i r s'. induction names as [|n ns IH]; simpl; intros i r s' E.
  - unfold ret in E. injection E as <- <-. auto.
  - apply bind_inv in E as [(e & E1 & ->)|(rs & s1 & E1 & E)];
      apply page_recipes_pure in E1; [subst; auto|]. subst s1.
    apply bind_inv in E as [(e & E2 & ->)|(days & s2 & E2 & E)];
      apply IH in E2 as [-> Hd]; [auto|].
    unfold ret in E. injection E as <- <-. simpl. rewrite Hd. auto.
Qed.

Lemma split_items_filter (rows : list mapping_row) :
  split_items rows = (List.filter cart_item_ok rows,
                      List.filter (fun m => String.eqb (status m) "unmapped") rows).
Proof.
  induction rows as [|m rows IH]; [reflexivity|]. simpl. rewrite IH. unfold cart_item_ok.
  destruct (_ && _) eqn:HA; destruct (String.eqb (status m) "unmapped") eqn:Hu; try reflexivity.
  apply andb_prop in HA as [Hm _]. apply String.eqb_eq in Hm, Hu. congruence.
Qed.

Lemma filter_const_false {A} (l : list A) : List.filter (fun _ => false) l = [].
Proof. induction l; [reflexivity | exact IHl]. Qed.

Lemma filter_filter_andb {A} (f g : A -> bool) (l : list A) :
  List.filter f (List.filter g l) = List.filter (fun x => g x && f x) l.
Proof.
  induction l as [|x l IH]; simpl; [reflexivity|].
  destruct (g x); simpl; [destruct (f x); simpl; rewrite IH|]; reflexivity || exact IH.
Qed.

Lemma day_view_slugs (st : list page_recipe -> string)
    (days : list (string * string * list page_recipe)) :
  flat_map (fun d => map pr_slug (day_recipes d))
    (map (fun d => MkDay (fst (fst d)) (snd (fst d)) (snd d) (st (snd d))) days) =
  flat_map (fun d => map pr_slug (snd d)) days.
Proof. induction days as [|d days IH]; simpl; [reflexivity|]. rewrite IH. reflexivity. Qed.

Lemma mealplan_page_inv (iso_date : Z -> string) (today : Z) (s s' : St) (v : mealplan_view) :
  mealplan_page iso_date today s = (inr v, s') ->
  exists monday friday days,
    mealplan_week today = Some (monday, friday) /\
    s' = set_net (tail (script s)) (Ev_http (C_get_mealplans monday friday) :: trace s) s /\
    map (fun d => fst (fst d)) days = day_names /\
    let slugs := flat_map (fun d => map pr_slug (snd d)) days in
    v = MkPlanView
          (map (fun d => MkDay (fst (fst d)) (snd (fst d)) (snd d)
                               (day_status_of (recipe_stats slugs (mappings s)) (snd d))) days)
          (List.filter (fun m => slug_in slugs m && cart_item_ok m) (mappings s))
          (List.filter (fun m => slug_in slugs m && String.eqb (status m) "unmapped") (mappings s))
          (truthy (get_setting "ah_user_token" s)).
Proof.
  intros E. unfold mealplan_page in E.
  destruct (mealplan_week today) as [[mo fr]|] eqn:W; [|unfold throw in E; discriminate].
  set (s1 := set_net (tail (script s)) (Ev_http (C_get_mealplans mo fr) :: trace s) s).
  assert (Hc : forall r s2, catch (get_mealplans mo fr) (fun _ => ret (J_list [])) s = (r, s2) -> s2 = s1).
  { intros r s2 Ec. unfold catch in Ec.
    destruct (get_mealplans mo fr s) as [[e|d] s3] eqn:Eg; apply get_mealplans_state in Eg;
      unfold ret in Ec; unfold s1; congruence. }
  apply bind_inv in E as [(e & _ & [=])|(plans & s2 & E1 & E)]. apply Hc in E1. subst s2.
  apply bind_inv in E as [(e & _ & [=])|(pl & s3 & E1 & E)]. apply py_iter_pure in E1. subst s3.
  apply bind_inv in E as [(e & _ & [=])|(dated & s4 & E1 & E)]. apply dated_plans_pure in E1. subst s4.
  apply bind_inv in E as [(e & _ & [=])|(days & s5 & E1 & E)].
  apply build_days_inv in E1 as [-> Hn].
  unfold bind, gets, ret in E. injection E as <- <-.
  exists mo, fr, days. split; [reflexivity|]. split; [reflexivity|]. split; [exact Hn|].
  intros slugs. fold slugs. f_equal.
  - destruct (Nat.eqb (length slugs) 0) eqn:Hl.
    + apply Nat.eqb_eq, length_zero_iff_nil in Hl. rewrite Hl. simpl.
      symmetry. apply filter_const_false.
    + rewrite split_items_filter. simpl. apply filter_filter_andb.
  - destruct (Nat.eqb (length slugs) 0) eqn:Hl.
    + apply Nat.eqb_eq, length_zero_iff_nil in Hl. rewrite Hl. simpl.
      symmetry. apply filter_const_false.
    + rewrite split_items_filter. simpl. apply filter_filter_andb.
Qed.

(** X24: the meal plan page sends at most the one Mealie request for the
    week and writes nothing: the mapping table, the settings and the
    tokens are as before.  It lists the five days Ma..Vr; its cart items
    are the rows of the planned recipes that are mapped to a nonzero
    product id, its unmapped items the rows of those recipes with status
    [unmapped], both in table order, and [has_token] says whether the
    access-token setting is truthy. *)
Theorem mealplan_page_view (iso_date : Z -> string) (today : Z) (s s' : St) (v : mealplan_view) :
  mealplan_page iso_date today s = (inr v, s') ->
  (exists monday friday, mealplan_week today = Some (monday, friday) /\
     s' = set_net (tail (script s)) (Ev_http (C_get_mealplans monday friday) :: trace s) s) /\
  map day_name (mp_weekdays v) = day_names /\
  mp_cart_items v =
    List.filter (fun m => slug_in (flat_map (fun d => map pr_slug (day_recipes d)) (mp_weekdays v)) m
                          && String.eqb (status m) "mapped"
                          && match ah_product_id m with Some p => negb (Z.eqb p 0) | None => false end)
                (mappings s) /\
  mp_unmapped_items v =
    List.filter (fun m => slug_in (flat_map (fun d => map pr_slug (day_recipes d)) (mp_weekdays v)) m
                          && String.eqb (status m) "unmapped")
                (mappings s) /\
  mp_has_token v = truthy (get_setting "ah_user_token" s).
Proof.
  intros E. apply mealplan_page_inv in E as (mo & fr & days & W & Hs & Hn & Hv).
  cbv zeta in Hv. subst v. cbn [mp_weekdays mp_cart_items mp_unmapped_items mp_has_token].
  rewrite day_view_slugs.
  split; [exists mo, fr; split; assumption|].
  split; [rewrite map_map; exact Hn|].
  split; [|split; reflexivity].
  apply List.filter_ext. intros m. unfold cart_item_ok. rewrite andb_assoc. reflexivity.
Qed.

Lemma count_done (rs : list mapping_row) :
  (length (List.filter (fun m => String.eqb (status m) "mapped") rs) +
   length (List.filter (fun m => String.eqb (status m) "skipped") rs) <= length rs)%nat /\
  ((length (List.filter (fun m => String.eqb (status m) "mapped") rs) +
    length (List.filter (fun m => String.eqb (status m) "skipped") rs) = length rs)%nat <->
   Forall (fun m => status m = "mapped" \/ status m = "skipped") rs).
Proof.
  induction rs as [|m rs [IHle IHeq]]; simpl; [split; [lia | split; [constructor | reflexivity]]|].
  rewrite Forall_cons.
  destruct (String.eqb (status m) "mapped") eqn:Hm, (String.eqb (status m) "skipped") eqn:Hs; simpl.
  - apply String.eqb_eq in Hm, Hs. congruence.
  - apply String.eqb_eq in Hm. split; [lia|]. rewrite <- IHeq. split.
    + intros H. split; [auto | lia].
    + intros [_ H]. lia.
  - apply String.eqb_eq in Hs. split; [lia|]. rewrite <- IHeq. split.
    + intros H. split; [auto | lia].
    + intros [_ H]. lia.
  - split; [lia|]. split; [lia|].
    intros [[H|H] _]; rewrite H in *; discriminate.
Qed.

Lemma recipe_stats_done (slugs : list json) (rows : list mapping_row) (x : string) :
  In (J_str x) slugs ->
  match recipe_stats slugs rows (J_str x) with
  | Some (total, mapped, skipped) => negb (0 <? total - mapped - skipped)%Z
  | None => false
  end = true <->
  (exists m, In m rows /\ recipe_slug m = x) /\
  (forall m, In m rows -> recipe_slug m = x -> status m = "mapped" \/ status m = "skipped").
Proof.
  intros Hx. unfold recipe_stats.
  assert (Hf : List.filter (fun m => slug_in slugs m && String.eqb (recipe_slug m) x) rows =
               List.filter (fun m => String.eqb (recipe_slug m) x) rows).
  { apply List.filter_ext. intros m. destruct (String.eqb (recipe_slug m) x) eqn:E;
      [|apply andb_false_r]. rewrite andb_true_r. apply String.eqb_eq in E.
    unfold slug_in. apply existsb_exists. exists (J_str x). split; [exact Hx|].
    apply String.eqb_eq. congruence. }
  rewrite Hf. set (rs := List.filter (fun m => String.eqb (recipe_slug m) x) rows).
  assert (Hin : forall m, In m rs <-> In m rows /\ recipe_slug m = x).
  { intros m. unfold rs. rewrite filter_In, String.eqb_eq. reflexivity. }
  destruct (count_done rs) as [Hle Heq].
  destruct (Nat.eqb (length rs) 0) eqn:Hl.
  - apply Nat.eqb_eq, length_zero_iff_nil in Hl. split; [discriminate|].
    intros [(m & Hm) _]. apply Hin in Hm. rewrite Hl in Hm. destruct Hm.
  - apply Nat.eqb_neq in Hl. rewrite negb_true_iff, Z.ltb_ge.
    transitivity (Forall (fun m => status m = "mapped" \/ status m = "skipped") rs).
    + rewrite <- Heq. lia.
    + rewrite Forall_forall. split.
      * intros Hall. split.
        -- destruct rs as [|m rs']; [simpl in Hl; lia|]. exists m. apply Hin. left. reflexivity.
        -- intros m Hm Hs. apply Hall, list_elem_of_In, Hin. auto.
      * intros [_ Hall] m Hm. apply list_elem_of_In, Hin in Hm as [Hm Hs]. auto.
Qed.

(** X25: a day of the meal plan page is ["empty"] exactly when it has no
    recipe, and ["ready"] exactly when it has recipes and each of them has
    a string slug, at least one row in the mapping table, and all its
    rows mapped or skipped; otherwise it is ["needs_mapping"]. *)
Theorem mealplan_day_status (iso_date : Z -> string) (today : Z) (s s' : St) (v : mealplan_view) :
  mealplan_page iso_date today s = (inr v, s') ->
  Forall (fun d =>
    (day_status d = "empty" <-> day_recipes d = []) /\
    (day_status d = "ready" <->
       day_recipes d <> [] /\
       Forall (fun r => exists x, pr_slug r = J_str x /\
                 (exists m, In m (mappings s) /\ recipe_slug m = x) /\
                 (forall m, In m (mappings s) -> recipe_slug m = x ->
                            status m = "mapped" \/ status m = "skipped"))
              (day_recipes d)) /\
    (day_status d = "empty" \/ day_status d = "ready" \/ day_status d = "needs_mapping"))
    (mp_weekdays v).
Proof.
  intros E. apply mealplan_page_inv in E as (mo & fr & days & _ & _ & _ & Hv).
  cbv zeta in Hv. subst v. cbn [mp_weekdays].
  set (slugs := flat_map (fun d => map pr_slug (snd d)) days).
  apply Forall_forall. intros d Hd. apply list_elem_of_In, in_map_iff in Hd as (dd & <- & Hdd).
  cbn [day_status day_recipes].
  assert (Hsl : forall r, In r (snd dd) -> In (pr_slug r) slugs).
  { intros r Hr. unfold slugs. apply in_flat_map. exists dd. split; [exact Hdd|]. apply in_map, Hr. }
  unfold day_status_of. destruct (snd dd) as [|r0 rs] eqn:Hrs.
  - split; [split; reflexivity|]. split; [|left; reflexivity].
    split; [discriminate|]. intros [H _]. congruence.
  - assert (Hne : r0 :: rs <> []) by discriminate.
    set (ok := fun r => match recipe_stats slugs (mappings s) (pr_slug r) with
                        | Some (total, mapped, skipped) => negb (0 <? total - mapped - skipped)%Z
                        | None => false
                        end).
    assert (Hok : forall r, In r (r0 :: rs) ->
              ok r = true <-> exists x, pr_slug r = J_str x /\
                 (exists m, In m (mappings s) /\ recipe_slug m = x) /\
                 (forall m, In m (mappings s) -> recipe_slug m = x ->
                            status m = "mapped" \/ status m = "skipped")).
    { intros r Hr. unfold ok. destruct (pr_slug r) as [| | |x| |] eqn:Hp;
        try (split; [discriminate | intros (x & [=] & _)]).
      rewrite (recipe_stats_done slugs (mappings s) x) by (rewrite <- Hp; apply Hsl; exact Hr).
      split; [intros H; exists x; auto | intros (y & [=<-] & H); exact H]. }
    fold (ok r0). change (forallb ok (r0 :: rs)) with (ok r0 && forallb ok rs).
    destruct (ok r0 && forallb ok rs) eqn:Hall.
    + split; [split; discriminate|]. split; [|right; left; reflexivity].
      split; [intros _; split; [exact Hne|] | intros _; reflexivity].
      apply Forall_forall. intros r Hr. apply list_elem_of_In in Hr. apply Hok; [exact Hr|].
      change (forallb ok (r0 :: rs) = true) in Hall. rewrite forallb_forall in Hall. auto.
    + split; [split; discriminate|]. split; [|right; right; reflexivity].
      split; [discriminate|]. intros [_ H]. exfalso.
      change (forallb ok (r0 :: rs) = false) in Hall.
      assert (forallb ok (r0 :: rs) = true); [|congruence].
      apply forallb_forall. intros r Hr. apply Hok; [exact Hr|].
      rewrite Forall_forall in H. apply H, list_elem_of_In, Hr.
Qed.

(** X26: when the Mealie request for the week fails, the meal plan page
    still renders: five empty days Ma..Vr with their dates, no cart items
    and no unmapped items; the failed request is the only one sent. *)
Theorem mealplan_page_mealie_down (iso_date : Z -> string) (today monday friday : Z) (s : St) (e : exn) :
  mealplan_week today = Some (monday, friday) ->
  fst (get_mealplans monday friday s) = inl e ->
  mealplan_page iso_date today s =
    (inr (MkPlanView
            [MkDay "Ma" (iso_date (monday + 0)%Z) [] "empty";
             MkDay "Di" (iso_date (monday + 1)%Z) [] "empty";
             MkDay "Wo" (iso_date (monday + 2)%Z) [] "empty";
             MkDay "Do" (iso_date (monday + 3)%Z) [] "empty";
             MkDay "Vr" (iso_date (monday + 4)%Z) [] "empty"]
            [] [] (truthy (get_setting "ah_user_token" s))),
     set_net (tail (script s)) (Ev_http (C_get_mealplans monday friday) :: trace s) s).
Proof.
  intros W Hf. unfold mealplan_page. rewrite W.
  unfold bind at 1, catch.
  destruct (get_mealplans monday friday s) as [r s1] eqn:Eg. simpl in Hf. subst r.
  apply get_mealplans_state in Eg. subst s1. reflexivity.
Qed.

Lemma mealplan_page_view_witness :
  mealplan_page (fun z => pretty z) 739000 ex_plan_state = (inr ex_plan_view, ex_plan_after) /\
  (exists monday friday, mealplan_week 739000 = Some (monday, friday) /\
     ex_plan_after = set_net (tail (script ex_plan_state)) (Ev_http (C_get_mealplans monday friday) :: trace ex_plan_state) ex_plan_state) /\
  map day_name (mp_weekdays ex_plan_view) = day_names /\
  mp_cart_items ex_plan_view =
    List.filter (fun m => slug_in (flat_map (fun d => map pr_slug (day_recipes d)) (mp_weekdays ex_plan_view)) m
                          && String.eqb (status m) "mapped"
                          && match ah_product_id m with Some p => negb (Z.eqb p 0) | None => false end)
                (mappings ex_plan_state) /\
  mp_unmapped_items ex_plan_view =
    List.filter (fun m => slug_in (flat_map (fun d => map pr_slug (day_recipes d)) (mp_weekdays ex_plan_view)) m
                          && String.eqb (status m) "unmapped")
                (mappings ex_plan_state) /\
  mp_has_token ex_plan_view = truthy (get_setting "ah_user_token" ex_plan_state).
Proof.
  assert (E : mealplan_page (fun z => pretty z) 739000 ex_plan_state = (inr ex_plan_view, ex_plan_after))
    by (vm_compute; reflexivity).
  split; [exact E | exact (mealplan_page_view _ _ _ _ _ E)].
Defined.

Lemma mealplan_day_status_witness :
  mealplan_page (fun z => pretty z) 739000 ex_plan_state = (inr ex_plan_view, ex_plan_after) /\
  Forall (fun d =>
    (day_status d = "empty" <-> day_recipes d = []) /\
    (day_status d = "ready" <->
       day_recipes d <> [] /\
       Forall (fun r => exists x, pr_slug r = J_str x /\
                 (exists m, In m (mappings ex_plan_state) /\ recipe_slug m = x) /\
                 (forall m, In m (mappings ex_plan_state) -> recipe_slug m = x ->
                            status m = "mapped" \/ status m = "skipped"))
              (day_recipes d)) /\
    (day_status d = "empty" \/ day_status d = "ready" \/ day_status d = "needs_mapping"))
    (mp_weekdays ex_plan_view).
Proof.
  assert (E : mealplan_page (fun z => pretty z) 739000 ex_plan_state = (inr ex_plan_view, ex_plan_after))
    by (vm_compute; reflexivity).
  split; [exact E | exact (mealplan_day_status _ _ _ _ _ E)].
Defined.

Lemma mealplan_page_mealie_down_witness :
  mealplan_week 739000 = Some (739005%Z, 739009%Z) /\
  fst (get_mealplans 739005 739009 ex_mealie_error_state) = inl (HTTPStatusError 500) /\
  mealplan_page (fun z => pretty z) 739000 ex_mealie_error_state =
    (inr (MkPlanView
            [MkDay "Ma" (pretty (739005 + 0)%Z) [] "empty";
             MkDay "Di" (pretty (739005 + 1)%Z) [] "empty";
             MkDay "Wo" (pretty (739005 + 2)%Z) [] "empty";
             MkDay "Do" (pretty (739005 + 3)%Z) [] "empty";
             MkDay "Vr" (pretty (739005 + 4)%Z) [] "empty"]
            [] [] (truthy (get_setting "ah_user_token" ex_mealie_error_state))),
     set_net (tail (script ex_mealie_error_state))
       (Ev_http (C_get_mealplans 739005 739009) :: trace ex_mealie_error_state) ex_mealie_error_state).
Proof.
  assert (W : mealplan_week 739000 = Some (739005%Z, 739009%Z)) by reflexivity.
  assert (Hf : fst (get_mealplans 739005 739009 ex_mealie_error_state) = inl (HTTPStatusError 500))
    by reflexivity.
  split; [exact W | split; [exact Hf|]].
  exact (mealplan_page_mealie_down (fun z => pretty z) _ _ _ _ _ W Hf).
Defined.

(** What a payload sent by [update_recipe] keeps of [data]. *)
Lemma update_payload_spec (get_resp : reply) (data p : gmap string json) :
  update_payload get_resp data = inr p ->
  (forall k v, data !! k = Some v -> p !! k = Some v) /\
  (forall k, k ∉ SAFE_FIELDS -> p !! k = data !! k) /\
  (status_code get_resp <> 200%Z -> p = data).
Proof.
  unfold update_payload. destruct (Z.eqb (status_code get_resp) 200) eqn:H200.
  - apply Z.eqb_eq in H200.
    destruct (reply_json get_resp) as [e|[| | | | |kvs]]; try discriminate.
    intros [= <-]. split; [|split].
    + intros k v Hk. apply lookup_union_Some_l. exact Hk.
    + intros k Hk. apply lookup_union_l. apply map_lookup_filter_None_2.
      right. intros x _ Hx. exact (Hk Hx).
    + intros Hne. congruence.
  - intros [= <-]. split; [|split]; auto.
Qed.

(** The requests of one run, newest first: the GET alone, the PATCH
    after it, or the PUT after a PATCH answered with 400 or more, both
    with the same payload. *)
Lemma update_recipe_runs (data : gmap string json) (st st' : UState) (r : exn + json) :
  update_recipe data st = (r, st') ->
  u_sent st' = RC_get_recipe :: u_sent st \/
  exists get_resp p, hd_error (u_script st) = Some get_resp /\
    update_payload get_resp data = inr p /\
    ((u_sent st' = RC_patch_recipe p :: RC_get_recipe :: u_sent st /\
      forall c b, nth_error (u_script st) 1 = Some (R_http c b) -> (c < 400)%Z) \/
     (exists c b, u_sent st' = RC_put_recipe p :: RC_patch_recipe p :: RC_get_recipe :: u_sent st /\
      nth_error (u_script st) 1 = Some (R_http c b) /\ (400 <= c)%Z)).
Proof.
  destruct st as [sc sent]. unfold update_recipe, u_request. simpl. intros E.
  destruct sc as [|r1 sc]; [injection E as <- <-; left; reflexivity|].
  destruct r1 as [|c1 b1]; [injection E as <- <-; left; reflexivity|].
  simpl in E. destruct (update_payload (R_http c1 b1) data) as [e|p] eqn:Hp;
    [injection E as <- <-; left; reflexivity|].
  right. exists (R_http c1 b1), p. split; [reflexivity|]. split; [exact Hp|].
  destruct sc as [|r2 sc];
    [injection E as <- <-; left; split; [reflexivity | intros c b Hc; discriminate Hc]|].
  destruct r2 as [|c2 b2];
    [injection E as <- <-; left; split; [reflexivity | intros c b Hc; discriminate Hc]|].
  simpl in E. destruct (Z.leb 400 c2) eqn:H400.
  - apply Z.leb_le in H400. right. exists c2, b2.
    destruct sc as [|[|c3 b3] sc]; simpl in E;
      [injection E as <- <-; auto | injection E as <- <-; auto|].
    destruct (Z.leb 400 c3); injection E as <- <-; auto.
  - apply Z.leb_gt in H400. injection E as <- <-. left. split; [reflexivity|].
    intros c b Hc. injection Hc as <- <-. exact H400.
Qed.

(** X27: every payload [update_recipe] sends (PATCH or PUT) carries each
    key of [data] with its value from [data]; a key outside
    [SAFE_FIELDS] has exactly its value in [data] (a field of the fetched
    recipe outside the list is never sent back); and when the GET did
    not answer 200 the payload is [data] as it is. *)
Theorem update_recipe_payload (data : gmap string json) (st st' : UState) (r : exn + json) :
  update_recipe data st = (r, st') ->
  exists sent_now, u_sent st' = (sent_now ++ u_sent st)%list /\
    Forall (fun c => match c with
                     | RC_get_recipe => True
                     | RC_patch_recipe p | RC_put_recipe p =>
                         (forall k v, data !! k = Some v -> p !! k = Some v) /\
                         (forall k, k ∉ SAFE_FIELDS -> p !! k = data !! k) /\
                         (forall c b, hd_error (u_script st) = Some (R_http c b) -> c <> 200%Z -> p = data)
                     end) sent_now.
Proof.
  intros E. apply update_recipe_runs in E as [H|(g & p & Hg & Hp & H)].
  - exists [RC_get_recipe]. split; [exact H | constructor; [exact I | constructor]].
  - destruct (update_payload_spec _ _ _ Hp) as (H1 & H2 & H3).
    assert (Hpp : (forall k v, data !! k = Some v -> p !! k = Some v) /\
                  (forall k, k ∉ SAFE_FIELDS -> p !! k = data !! k) /\
                  (forall c b, hd_error (u_script st) = Some (R_http c b) -> c <> 200%Z -> p = data)).
    { split; [exact H1 | split; [exact H2|]]. intros c b Hc Hne. rewrite Hg in Hc.
      injection Hc as ->. apply H3. exact Hne. }
    destruct H as [[H _]|(c & b & H & _)].
    + exists [RC_patch_recipe p; RC_get_recipe].
      split; [exact H | constructor; [exact Hpp | constructor; [exact I | constructor]]].
    + exists [RC_put_recipe p; RC_patch_recipe p; RC_get_recipe].
      split; [exact H | constructor; [exact Hpp|]].
      constructor; [exact Hpp | constructor; [exact I | constructor]].
Qed.

(** X28: [update_recipe] sends the GET, then the PATCH, and the PUT only
    when the PATCH answered with a status of 400 or more, with the same
    payload; it sends nothing else. *)
Theorem update_recipe_put_fallback (data : gmap string json) (st st' : UState) (r : exn + json) :
  update_recipe data st = (r, st') ->
  u_sent st' = RC_get_recipe :: u_sent st \/
  (exists p, u_sent st' = RC_patch_recipe p :: RC_get_recipe :: u_sent st /\
     forall c b, nth_error (u_script st) 1 = Some (R_http c b) -> (c < 400)%Z) \/
  (exists p c b, u_sent st' = RC_put_recipe p :: RC_patch_recipe p :: RC_get_recipe :: u_sent st /\
     nth_error (u_script st) 1 = Some (R_http c b) /\ (400 <= c)%Z).
Proof.
  intros E. apply update_recipe_runs in E as [H|(g & p & _ & _ & [H|(c & b & H)])].
  - left. exact H.
  - right. left. exists p. exact H.
  - right. right. exists p, c, b. exact H.
Qed.

(** X29: [update_recipe] raises [HTTPStatusError] only when the PATCH and
    the PUT fallback were both answered with a status of 400 or more; the
    error carries the status of the PUT.  A failed GET is not an error. *)
Theorem update_recipe_status_error (data : gmap string json) (st st' : UState) (c : Z) :
  update_recipe data st = (inl (HTTPStatusError c), st') ->
  exists c2 b2 b3, nth_error (u_script st) 1 = Some (R_http c2 b2) /\ (400 <= c2)%Z /\
    nth_error (u_script st) 2 = Some (R_http c b3) /\ (400 <= c)%Z.
Proof.
  destruct st as [sc sent]. unfold update_recipe, u_request. simpl.
  destruct sc as [|r1 sc]; [intros [=]|]. destruct r1 as [|c1 b1]; [intros [=]|].
  simpl. destruct (update_payload (R_http c1 b1) data) as [e|p] eqn:Hp.
  - intros [= He _]. subst e. exfalso. unfold update_payload in Hp.
    destruct (Z.eqb _ 200); [|discriminate].
    destruct b1 as [[| | | | |kvs]|]; simpl in Hp; discriminate.
  - destruct sc as [|r2 sc]; [intros [=]|]. destruct r2 as [|c2 b2]; [intros [=]|].
    simpl. destruct (Z.leb 400 c2) eqn:H400.
    + destruct sc as [|[|c3 b3] sc]; simpl; [intros [=] | intros [=]|].
      destruct (Z.leb 400 c3) eqn:H3.
      * intros [= <- _]. exists c2, b2, b3. apply Z.leb_le in H400, H3. auto.
      * destruct b3; intros [=].
    + destruct b2; intros [=].
Qed.

Lemma update_recipe_payload_witness :
  update_recipe ex_recipe_data ex_update_state = (inr (J_obj []), ex_update_after) /\
  exists sent_now, u_sent ex_update_after = (sent_now ++ u_sent ex_update_state)%list /\
    Forall (fun c => match c with
                     | RC_get_recipe => True
                     | RC_patch_recipe p | RC_put_recipe p =>
                         (forall k v, ex_recipe_data !! k = Some v -> p !! k = Some v) /\
                         (forall k, k ∉ SAFE_FIELDS -> p !! k = ex_recipe_data !! k) /\
                         (forall c b, hd_error (u_script ex_update_state) = Some (R_http c b) -> c <> 200%Z -> p = ex_recipe_data)
                     end) sent_now.
Proof.
  assert (E : update_recipe ex_recipe_data ex_update_state = (inr (J_obj []), ex_update_after)) by (vm_compute; reflexivity).
  split; [exact E | exact (update_recipe_payload _ _ _ _ E)].
Defined.

Lemma update_recipe_put_fallback_witness :
  update_recipe ex_recipe_data ex_update_state = (inr (J_obj []), ex_update_after) /\
  (u_sent ex_update_after = RC_get_recipe :: u_sent ex_update_state \/
  (exists p, u_sent ex_update_after = RC_patch_recipe p :: RC_get_recipe :: u_sent ex_update_state /\
     forall c b, nth_error (u_script ex_update_state) 1 = Some (R_http c b) -> (c < 400)%Z) \/
  (exists p c b, u_sent ex_update_after = RC_put_recipe p :: RC_patch_recipe p :: RC_get_recipe :: u_sent ex_update_state /\
     nth_error (u_script ex_update_state) 1 = Some (R_http c b) /\ (400 <= c)%Z)).
Proof.
  assert (E : update_recipe ex_recipe_data ex_update_state = (inr (J_obj []), ex_update_after)) by (vm_compute; reflexivity).
  split; [exact E | exact (update_recipe_put_fallback _ _ _ _ E)].
Defined.

Lemma update_recipe_status_error_witness :
  update_recipe ex_recipe_data ex_update_fail_state = (inl (HTTPStatusError 500), ex_update_fail_after) /\
  exists c2 b2 b3, nth_error (u_script ex_update_fail_state) 1 = Some (R_http c2 b2) /\ (400 <= c2)%Z /\
    nth_error (u_script ex_update_fail_state) 2 = Some (R_http 500 b3) /\ (400 <= 500)%Z.
Proof.
  assert (E : update_recipe ex_recipe_data ex_update_fail_state = (inl (HTTPStatusError 500), ex_update_fail_after)) by (vm_compute; reflexivity).
  split; [exact E | exact (update_recipe_status_error _ _ _ _ E)].
Defined.
